(** * Reddit MCP client: line-framed JSON-RPC over a child process

    A shallow embedding of [reddit_client.py] (class [RedditMCPClient]) and
    [reddit_sync_client.py] (class [RedditSyncClient]), with the parts of
    Python they lean on: [dict.get], truthiness, [str.strip], slicing,
    [json.dumps] / [json.loads] with their default options, UTF-8
    [encode] / [decode], [StreamReader.readline] and
    [Future.result(timeout)].

    Further on: [str.replace] and [input_utils.py]; the module globals
    behind [get_reddit_client] in [reddit_sync_client.py] and
    [fastapi_server.py], with the REST endpoints; [initialize_client] of
    [streamlit_app.py]; the tool list and the dispatcher of [server.py].
    The six handlers of [server.py], which talk to Reddit through praw,
    are parameters of the dispatcher, and so are the table behind
    [str.isalnum] and [str(e)] of an exception.

    Conventions of the model
    - a [str] is the list of its code points, a [bytes] a list of [byte];
    - Python values are restricted to the JSON domain (None, bool, int,
      float, str, list, dict with str keys); a dict is an association list
      in insertion order;
    - floats are abstract: the conversions between a float and its text
      come from the [PyFloat] interface;
    - a raised exception is a value of [exn]; an f-string message keeps its
      interpolated values as they are (no [repr] is computed);
    - a coroutine is a function of the client object's state that either
      finishes after some time units or stays suspended for ever;
    - the stream reader has the limit that [create_subprocess_exec] gives
      it by default, 64 KiB for a line;
    - [print] output and the interpreter's limits on recursion and on the
      digits of an integer are outside the model. *)

From Stdlib Require Import List String Ascii NArith ZArith Bool Arith Lia.
From Stdlib.Strings Require Import Byte.
Import ListNotations.

Set Implicit Arguments.

(* ================================================================== *)
(** ** Text *)

Definition pystr := list N.

(** A literal of the source, as a [str]. *)
Definition str (s : string) : pystr := map N_of_ascii (list_ascii_of_string s).

Fixpoint str_eqb (a b : pystr) : bool :=
  match a, b with
  | [], [] => true
  | x :: a', y :: b' => N.eqb x y && str_eqb a' b'
  | _, _ => false
  end.

Fixpoint startswith (s p : pystr) : bool :=
  match p, s with
  | [], _ => true
  | x :: p', y :: s' => N.eqb x y && startswith s' p'
  | _ :: _, [] => false
  end.

(** [sub in s] on two strings. *)
Fixpoint str_contains (s sub : pystr) : bool :=
  startswith s sub ||
  match s with
  | [] => false
  | _ :: s' => str_contains s' sub
  end.

(** [str.isspace] on one character. *)
Definition isspace (c : N) : bool :=
  ((9 <=? c) && (c <=? 13) || (28 <=? c) && (c <=? 32) ||
   (c =? 133) || (c =? 160) || (c =? 5760) ||
   (8192 <=? c) && (c <=? 8202) || (c =? 8232) || (c =? 8233) ||
   (c =? 8239) || (c =? 8287) || (c =? 12288))%N.

Fixpoint lstrip (s : pystr) : pystr :=
  match s with
  | c :: s' => if isspace c then lstrip s' else s
  | [] => []
  end.

Definition rstrip (s : pystr) : pystr := rev (lstrip (rev s)).

(** [s.strip()] *)
Definition strip (s : pystr) : pystr := rstrip (lstrip s).

(** [s[:n]] *)
Definition slice_to (n : nat) (s : pystr) : pystr := firstn n s.

(* ================================================================== *)
(** ** Values *)

Class PyFloat := {
  pyfloat : Type;
  float_of_str : pystr -> pyfloat;   (* float(text) *)
  float_repr : pyfloat -> pystr;     (* float.__repr__, as json.dumps prints it *)
  float_bool : pyfloat -> bool       (* bool(x) *)
}.

Section Values.
Context {F : PyFloat}.

Unset Elimination Schemes.
Inductive value : Type :=
| VNone
| VBool (b : bool)
| VInt (z : Z)
| VFloat (x : pyfloat)
| VStr (s : pystr)
| VList (l : list value)
| VDict (d : list (pystr * value)).
Set Elimination Schemes.

Definition dict := list (pystr * value).

(** Induction that reaches the elements of lists and dicts. *)
Fixpoint value_ind (P : value -> Prop)
    (HNone : P VNone) (HBool : forall b, P (VBool b))
    (HInt : forall z, P (VInt z)) (HFloat : forall x, P (VFloat x))
    (HStr : forall s, P (VStr s))
    (HList : forall l, Forall P l -> P (VList l))
    (HDict : forall d, Forall (fun kv => P (snd kv)) d -> P (VDict d))
    (v : value) {struct v} : P v :=
  match v with
  | VNone => HNone
  | VBool b => HBool b
  | VInt z => HInt z
  | VFloat x => HFloat x
  | VStr s => HStr s
  | VList l =>
      HList l ((fix go (l : list value) : Forall P l :=
                  match l with
                  | [] => Forall_nil _
                  | x :: l' =>
                      Forall_cons x
                        (value_ind HNone HBool HInt HFloat HStr HList HDict x)
                        (go l')
                  end) l)
  | VDict d =>
      HDict d ((fix go (d : dict) : Forall (fun kv => P (snd kv)) d :=
                  match d with
                  | [] => Forall_nil _
                  | kv :: d' =>
                      Forall_cons kv
                        (value_ind HNone HBool HInt HFloat HStr HList HDict (snd kv))
                        (go d')
                  end) d)
  end.

(** [bool(v)]: what an [if v:] tests. *)
Definition truthy (v : value) : bool :=
  match v with
  | VNone => false
  | VBool b => b
  | VInt z => negb (Z.eqb z 0)
  | VFloat x => float_bool x
  | VStr s => match s with [] => false | _ => true end
  | VList l => match l with [] => false | _ => true end
  | VDict d => match d with [] => false | _ => true end
  end.

(** *** Dicts *)

Fixpoint dict_lookup (k : pystr) (d : dict) : option value :=
  match d with
  | [] => None
  | (k', v) :: d' => if str_eqb k k' then Some v else dict_lookup k d'
  end.

(** [k in d] *)
Definition dict_contains (k : pystr) (d : dict) : bool :=
  match dict_lookup k d with Some _ => true | None => false end.

(** [d[k] = v]: an existing key keeps its place, a new one goes last. *)
Fixpoint dict_set (k : pystr) (v : value) (d : dict) : dict :=
  match d with
  | [] => [(k, v)]
  | (k', v') :: d' =>
      if str_eqb k k' then (k', v) :: d' else (k', v') :: dict_set k v d'
  end.

(** [dict(pairs)] and the dict display [{k1: v1, ...}]. *)
Definition dict_of_pairs (pairs : list (pystr * value)) : dict :=
  fold_left (fun d kv => dict_set (fst kv) (snd kv) d) pairs [].

Definition dict_keys (d : dict) : list pystr := map fst d.

(* ================================================================== *)
(** ** Exceptions *)

Inductive builtin_exn :=
| AttributeError | IndexError | KeyError | TypeError
| JSONDecodeError | UnicodeDecodeError | UnicodeEncodeError
| ConnectionResetError | FileNotFoundError | TimeoutError | ValueError.

(** The pieces of an f-string. *)
Inductive frag :=
| Lit (s : string)            (* literal text *)
| Val (v : value)             (* {v} *)
| Caught (e : builtin_exn).   (* {e} of a caught exception *)

Inductive exn :=
| Exception (msg : list frag)   (* raise Exception(f"...") *)
| Builtin (e : builtin_exn).    (* raised by the interpreter or a library *)

Inductive res (A : Type) :=
| Ok (a : A)
| Raise (e : exn).
Arguments Raise {A} e.

(** The values an exception carries in its message. *)
Definition carried (e : exn) : list value :=
  match e with
  | Exception msg =>
      flat_map (fun f => match f with Val v => [v] | _ => [] end) msg
  | Builtin _ => []
  end.

(** *** Operations on arbitrary values *)

(** [obj.get(key, default)]: only a dict has [get]. *)
Definition py_get (obj : value) (key : pystr) (default : value) : res value :=
  match obj with
  | VDict d =>
      Ok (match dict_lookup key d with Some v => v | None => default end)
  | _ => Raise (Builtin AttributeError)
  end.

(** [obj[0]] *)
Definition py_item0 (obj : value) : res value :=
  match obj with
  | VList l =>
      match l with x :: _ => Ok x | [] => Raise (Builtin IndexError) end
  | VStr s =>
      match s with c :: _ => Ok (VStr [c]) | [] => Raise (Builtin IndexError) end
  | VDict _ => Raise (Builtin KeyError)
  | _ => Raise (Builtin TypeError)
  end.

(** ["key" in obj] for a str [key] *)
Definition py_in (key : pystr) (obj : value) : res bool :=
  match obj with
  | VDict d => Ok (dict_contains key d)
  | VList l =>
      Ok (existsb (fun x => match x with VStr s => str_eqb key s | _ => false end) l)
  | VStr s => Ok (str_contains s key)
  | _ => Raise (Builtin TypeError)
  end.

(** [obj["key"]] for a str [key] *)
Definition py_getitem (obj : value) (key : pystr) : res value :=
  match obj with
  | VDict d =>
      match dict_lookup key d with
      | Some v => Ok v
      | None => Raise (Builtin KeyError)
      end
  | _ => Raise (Builtin TypeError)
  end.

End Values.

Arguments value {F}.
Arguments dict {F}.
Arguments frag {F}.
Arguments exn {F}.
Arguments res {F} A.
Arguments Raise {F A} e.

(* ================================================================== *)
(** ** [json.dumps] with its default options

    [ensure_ascii=True], separators [", "] and [": "], no indentation. *)

Local Open Scope N_scope.

(** One digit of [format(n, "x")]. *)
Definition hexdigit (d : N) : N := if d <? 10 then 48 + d else 87 + d.

(** ['{0:04x}'.format(n)] for [n < 0x10000]. *)
Definition hex4 (n : N) : pystr :=
  [hexdigit (n / 4096 mod 16); hexdigit (n / 256 mod 16);
   hexdigit (n / 16 mod 16); hexdigit (n mod 16)].

(** The replacement [encode_basestring_ascii] makes for one character:
    the short escapes of [ESCAPE_DCT], printable ASCII as it is, any other
    character as [\uXXXX], above the basic plane as a surrogate pair. *)
Definition escape_char (c : N) : pystr :=
  if c =? 34 then [92; 34]
  else if c =? 92 then [92; 92]
  else if c =? 10 then [92; 110]
  else if c =? 13 then [92; 114]
  else if c =? 9 then [92; 116]
  else if c =? 8 then [92; 98]
  else if c =? 12 then [92; 102]
  else if (32 <=? c) && (c <=? 126) then [c]
  else if c <? 0x10000 then 92 :: 117 :: hex4 c
  else
    let n := c - 0x10000 in
    let s1 := N.lor 0xd800 (N.land (N.shiftr n 10) 0x3ff) in
    let s2 := N.lor 0xdc00 (N.land n 0x3ff) in
    (92 :: 117 :: hex4 s1) ++ (92 :: 117 :: hex4 s2).

Definition encode_basestring_ascii (s : pystr) : pystr :=
  34 :: flat_map escape_char s ++ [34].

(** Decimal digits of a natural number, most significant first. *)
Fixpoint digits_aux (fuel : nat) (n : N) (acc : pystr) : pystr :=
  match fuel with
  | O => acc
  | S f =>
      let acc' := (48 + n mod 10) :: acc in
      if n <? 10 then acc' else digits_aux f (n / 10) acc'
  end.

Definition digits (n : N) : pystr :=
  digits_aux (S (N.to_nat (N.log2 n))) n [].

(** [int.__repr__] *)
Definition int_repr (z : Z) : pystr :=
  if (z <? 0)%Z then 45 :: digits (Z.to_N (- z)) else digits (Z.to_N z).

(** [sep.join(parts)] *)
Fixpoint join (sep : pystr) (parts : list pystr) : pystr :=
  match parts with
  | [] => []
  | [p] => p
  | p :: ps => p ++ sep ++ join sep ps
  end.

Section Json.
Context {F : PyFloat}.

Fixpoint json_dumps (v : value) : pystr :=
  match v with
  | VNone => str "null"
  | VBool true => str "true"
  | VBool false => str "false"
  | VInt z => int_repr z
  | VFloat x => float_repr x
  | VStr s => encode_basestring_ascii s
  | VList l => 91 :: join (str ", ") (map json_dumps l) ++ [93]
  | VDict d =>
      123 :: join (str ", ")
               (map (fun kv => encode_basestring_ascii (fst kv) ++ str ": "
                               ++ json_dumps (snd kv)) d)
          ++ [125]
  end.

(* ================================================================== *)
(** ** [json.loads] with its default options

    The decoder of [json.decoder] and [json.scanner]: strict strings, the
    constants [NaN], [Infinity] and [-Infinity] accepted, a repeated key
    keeping its last value. *)

(** [WHITESPACE = [ \t\n\r]*] *)
Definition is_ws (c : N) : bool :=
  (c =? 32) || (c =? 9) || (c =? 10) || (c =? 13).

Fixpoint skip_ws (s : pystr) : pystr :=
  match s with
  | c :: r => if is_ws c then skip_ws r else s
  | [] => []
  end.

Definition hexval (c : N) : option N :=
  if (48 <=? c) && (c <=? 57) then Some (c - 48)
  else if (97 <=? c) && (c <=? 102) then Some (c - 87)
  else if (65 <=? c) && (c <=? 70) then Some (c - 55)
  else None.

(** The four hex digits after [\u]. *)
Definition decode_uXXXX (a b c d : N) : option N :=
  match hexval a, hexval b, hexval c, hexval d with
  | Some x3, Some x2, Some x1, Some x0 =>
      Some (((x3 * 16 + x2) * 16 + x1) * 16 + x0)
  | _, _, _, _ => None
  end.

(** [BACKSLASH]: the one-character escapes. *)
Definition backslash (e : N) : option N :=
  if e =? 34 then Some 34
  else if e =? 92 then Some 92
  else if e =? 47 then Some 47
  else if e =? 98 then Some 8
  else if e =? 102 then Some 12
  else if e =? 110 then Some 10
  else if e =? 114 then Some 13
  else if e =? 116 then Some 9
  else None.

Definition is_high_surrogate (u : N) : bool := (0xd800 <=? u) && (u <=? 0xdbff).
Definition is_low_surrogate (u : N) : bool := (0xdc00 <=? u) && (u <=? 0xdfff).

Definition join_surrogates (u u2 : N) : N :=
  0x10000 + N.lor (N.shiftl (u - 0xd800) 10) (u2 - 0xdc00).

Definition cons_char (c : N) (r : option (pystr * pystr)) : option (pystr * pystr) :=
  match r with
  | Some (t, rest) => Some (c :: t, rest)
  | None => None
  end.

(** [scanstring], entered after the opening quote: the decoded text and
    what follows the closing quote. *)
Fixpoint scanstring (s : pystr) : option (pystr * pystr) :=
  match s with
  | [] => None
  | c :: r =>
      if c =? 34 then Some ([], r)
      else if c =? 92 then
        match r with
        | [] => None
        | e :: r0 =>
            if e =? 117 then
              match r0 with
              | a :: b :: c' :: d :: r1 =>
                  match decode_uXXXX a b c' d with
                  | None => None
                  | Some uni =>
                      if is_high_surrogate uni then
                        match r1 with
                        | b1 :: u1 :: a2 :: b2 :: c2 :: d2 :: r2 =>
                            if (b1 =? 92) && (u1 =? 117) then
                              match decode_uXXXX a2 b2 c2 d2 with
                              | None => None
                              | Some uni2 =>
                                  if is_low_surrogate uni2
                                  then cons_char (join_surrogates uni uni2) (scanstring r2)
                                  else cons_char uni (scanstring r1)
                              end
                            else cons_char uni (scanstring r1)
                        | _ => cons_char uni (scanstring r1)
                        end
                      else cons_char uni (scanstring r1)
                  end
              | _ => None
              end
            else
              match backslash e with
              | Some ch => cons_char ch (scanstring r0)
              | None => None
              end
        end
      else if c <? 32 then None
      else cons_char c (scanstring r)
  end.

Definition is_digit (c : N) : bool := (48 <=? c) && (c <=? 57).

Fixpoint span_digits (s : pystr) : pystr * pystr :=
  match s with
  | c :: r =>
      if is_digit c then let (ds, r') := span_digits r in (c :: ds, r')
      else ([], s)
  | [] => ([], [])
  end.

Definition digits_value (ds : pystr) : N :=
  fold_left (fun a c => 10 * a + (c - 48)) ds 0.

(** [int(text)] on a match of the integer group. *)
Definition int_of_literal (t : pystr) : Z :=
  match t with
  | c :: ds => if c =? 45 then (- Z.of_N (digits_value ds))%Z
               else Z.of_N (digits_value t)
  | [] => 0%Z
  end.

(** The three groups of [NUMBER_RE]: an integer part (an optional minus,
    then a single 0 or a digit 1-9 and any digits), an optional fraction
    (a dot and at least one digit) and an optional exponent (e or E, an
    optional sign, at least one digit). Each returns the matched text and
    what follows. *)
Definition match_integer (s : pystr) : option (pystr * pystr) :=
  let (sign, s1) :=
    match s with
    | c :: r => if c =? 45 then ([45], r) else ([], s)
    | [] => ([], s)
    end in
  match s1 with
  | c :: r =>
      if c =? 48 then Some (sign ++ [48], r)
      else if is_digit c then
        let (ds, r') := span_digits r in Some (sign ++ c :: ds, r')
      else None
  | [] => None
  end.

Definition match_frac (s : pystr) : option (pystr * pystr) :=
  match s with
  | c :: r =>
      if c =? 46 then
        match span_digits r with
        | ([], _) => None
        | (ds, r') => Some (46 :: ds, r')
        end
      else None
  | [] => None
  end.

Definition match_exp (s : pystr) : option (pystr * pystr) :=
  match s with
  | c :: r =>
      if (c =? 101) || (c =? 69) then
        let (sg, r1) :=
          match r with
          | d :: r' => if (d =? 45) || (d =? 43) then ([d], r') else ([], r)
          | [] => ([], r)
          end in
        match span_digits r1 with
        | ([], _) => None
        | (ds, r') => Some (c :: sg ++ ds, r')
        end
      else None
  | [] => None
  end.

Definition match_number (s : pystr) : option (value * pystr) :=
  match match_integer s with
  | None => None
  | Some (integer, r0) =>
      let (frac, r1) :=
        match match_frac r0 with Some (f, r) => (f, r) | None => ([], r0) end in
      let (exp, r2) :=
        match match_exp r1 with Some (e, r) => (e, r) | None => ([], r1) end in
      match frac ++ exp with
      | [] => Some (VInt (int_of_literal integer), r2)
      | _ :: _ => Some (VFloat (float_of_str (integer ++ frac ++ exp)), r2)
      end
  end.

(** If [s] starts with the literal [p], what follows it. *)
Fixpoint after_prefix (p s : pystr) : option pystr :=
  match p, s with
  | [], _ => Some s
  | x :: p', y :: s' => if x =? y then after_prefix p' s' else None
  | _ :: _, [] => None
  end.

(** The loop of [JSONArray], entered at the first character of an
    element. *)
Fixpoint array_loop (scan : pystr -> option (value * pystr)) (n : nat)
    (s : pystr) : option (list value * pystr) :=
  match n with
  | O => None
  | S n' =>
      match scan s with
      | None => None
      | Some (v, r) =>
          match skip_ws r with
          | c :: r1 =>
              if c =? 93 then Some ([v], r1)
              else if c =? 44 then
                match array_loop scan n' (skip_ws r1) with
                | Some (vs, r2) => Some (v :: vs, r2)
                | None => None
                end
              else None
          | [] => None
          end
      end
  end.

Definition JSONArray (scan : pystr -> option (value * pystr)) (n : nat)
    (s : pystr) : option (value * pystr) :=
  match skip_ws s with
  | c :: r =>
      if c =? 93 then Some (VList [], r)
      else
        match array_loop scan n (c :: r) with
        | Some (vs, r') => Some (VList vs, r')
        | None => None
        end
  | [] => None
  end.

(** The loop of [JSONObject], entered after the opening quote of a key. *)
Fixpoint object_loop (scan : pystr -> option (value * pystr)) (n : nat)
    (s : pystr) : option (list (pystr * value) * pystr) :=
  match n with
  | O => None
  | S n' =>
      match scanstring s with
      | None => None
      | Some (key, r) =>
          match skip_ws r with
          | c :: r1 =>
              if c =? 58 then
                match scan (skip_ws r1) with
                | None => None
                | Some (v, r2) =>
                    match skip_ws r2 with
                    | c2 :: r3 =>
                        if c2 =? 125 then Some ([(key, v)], r3)
                        else if c2 =? 44 then
                          match skip_ws r3 with
                          | q :: r4 =>
                              if q =? 34 then
                                match object_loop scan n' r4 with
                                | Some (ps, r5) => Some ((key, v) :: ps, r5)
                                | None => None
                                end
                              else None
                          | [] => None
                          end
                        else None
                    | [] => None
                    end
                end
              else None
          | [] => None
          end
      end
  end.

Definition JSONObject (scan : pystr -> option (value * pystr)) (n : nat)
    (s : pystr) : option (value * pystr) :=
  match skip_ws s with
  | c :: r =>
      if c =? 125 then Some (VDict [], r)
      else if c =? 34 then
        match object_loop scan n r with
        | Some (ps, r') => Some (VDict (dict_of_pairs ps), r')
        | None => None
        end
      else None
  | [] => None
  end.

(** [scan_once]: one value at the head of [s]. The fuel bounds the
    nesting and the number of elements; [json_loads] gives enough. *)
Fixpoint scan_once (fuel : nat) (s : pystr) : option (value * pystr) :=
  match fuel with
  | O => None
  | S f =>
      match s with
      | [] => None
      | c :: r =>
          if c =? 34 then
            match scanstring r with
            | Some (t, r') => Some (VStr t, r')
            | None => None
            end
          else if c =? 123 then JSONObject (scan_once f) f r
          else if c =? 91 then JSONArray (scan_once f) f r
          else
            match after_prefix (str "null") s with
            | Some r' => Some (VNone, r')
            | None =>
            match after_prefix (str "true") s with
            | Some r' => Some (VBool true, r')
            | None =>
            match after_prefix (str "false") s with
            | Some r' => Some (VBool false, r')
            | None =>
            match match_number s with
            | Some (v, r') => Some (v, r')
            | None =>
            match after_prefix (str "NaN") s with
            | Some r' => Some (VFloat (float_of_str (str "NaN")), r')
            | None =>
            match after_prefix (str "Infinity") s with
            | Some r' => Some (VFloat (float_of_str (str "Infinity")), r')
            | None =>
            match after_prefix (str "-Infinity") s with
            | Some r' => Some (VFloat (float_of_str (str "-Infinity")), r')
            | None => None
            end end end end end end end
      end
  end.

(** [json.loads(s)]: leading and trailing whitespace allowed, anything
    else after the value is "Extra data". *)
Definition json_loads (s : pystr) : res value :=
  match scan_once (S (List.length s)) (skip_ws s) with
  | Some (v, r) =>
      match skip_ws r with
      | [] => Ok v
      | _ :: _ => Raise (Builtin JSONDecodeError)
      end
  | None => Raise (Builtin JSONDecodeError)
  end.

End Json.

(** Floats kept as the text they were read from: an instance to run the
    model on. *)
Definition text_floats : PyFloat :=
  {| pyfloat := pystr;
     float_of_str := fun t => t;
     float_repr := fun t => t;
     float_bool := fun t => negb (forallb (fun c => negb (is_digit c) || (c =? 48)) t) |}.


(* ================================================================== *)
(** ** Bytes: UTF-8 and the lines of a stream *)

Definition byte_of_N (n : N) : byte :=
  match Byte.of_N n with Some b => b | None => x00 end.

Definition is_surrogate (c : N) : bool := (0xd800 <=? c) && (c <=? 0xdfff).

Definition utf8_char (c : N) : option (list byte) :=
  if c <? 0x80 then Some [byte_of_N c]
  else if c <? 0x800 then
    Some [byte_of_N (0xc0 + c / 64); byte_of_N (0x80 + c mod 64)]
  else if c <? 0x10000 then
    if is_surrogate c then None
    else Some [byte_of_N (0xe0 + c / 4096); byte_of_N (0x80 + c / 64 mod 64);
               byte_of_N (0x80 + c mod 64)]
  else if c <? 0x110000 then
    Some [byte_of_N (0xf0 + c / 262144); byte_of_N (0x80 + c / 4096 mod 64);
          byte_of_N (0x80 + c / 64 mod 64); byte_of_N (0x80 + c mod 64)]
  else None.

Section Codec.
Context {F : PyFloat}.

(** [s.encode()] *)
Fixpoint encode (s : pystr) : res (list byte) :=
  match s with
  | [] => Ok []
  | c :: s' =>
      match utf8_char c, encode s' with
      | Some bs, Ok rest => Ok (bs ++ rest)
      | None, _ => Raise (Builtin UnicodeEncodeError)
      | _, Raise e => Raise e
      end
  end.

Definition is_cont (n : N) : bool := (0x80 <=? n) && (n <=? 0xbf).

Definition cons_code (c : N) (r : res pystr) : res pystr :=
  match r with
  | Ok s => Ok (c :: s)
  | Raise e => Raise e
  end.

(** [b.decode()]: strict UTF-8, shortest forms only, no surrogates. *)
Fixpoint decode (bs : list byte) : res pystr :=
  match bs with
  | [] => Ok []
  | b0 :: r =>
      let n0 := Byte.to_N b0 in
      if n0 <? 0x80 then cons_code n0 (decode r)
      else if (0xc2 <=? n0) && (n0 <=? 0xdf) then
        match r with
        | b1 :: r1 =>
            let n1 := Byte.to_N b1 in
            if is_cont n1
            then cons_code ((n0 - 0xc0) * 64 + (n1 - 0x80)) (decode r1)
            else Raise (Builtin UnicodeDecodeError)
        | _ => Raise (Builtin UnicodeDecodeError)
        end
      else if (0xe0 <=? n0) && (n0 <=? 0xef) then
        match r with
        | b1 :: b2 :: r2 =>
            let n1 := Byte.to_N b1 in
            let n2 := Byte.to_N b2 in
            let cp := (n0 - 0xe0) * 4096 + (n1 - 0x80) * 64 + (n2 - 0x80) in
            if is_cont n1 && is_cont n2 && (0x800 <=? cp) && negb (is_surrogate cp)
            then cons_code cp (decode r2)
            else Raise (Builtin UnicodeDecodeError)
        | _ => Raise (Builtin UnicodeDecodeError)
        end
      else if (0xf0 <=? n0) && (n0 <=? 0xf4) then
        match r with
        | b1 :: b2 :: b3 :: r3 =>
            let n1 := Byte.to_N b1 in
            let n2 := Byte.to_N b2 in
            let n3 := Byte.to_N b3 in
            let cp := (n0 - 0xf0) * 262144 + (n1 - 0x80) * 4096
                      + (n2 - 0x80) * 64 + (n3 - 0x80) in
            if is_cont n1 && is_cont n2 && is_cont n3
               && (0x10000 <=? cp) && (cp <? 0x110000)
            then cons_code cp (decode r3)
            else Raise (Builtin UnicodeDecodeError)
        | _ => Raise (Builtin UnicodeDecodeError)
        end
      else Raise (Builtin UnicodeDecodeError)
  end.

End Codec.

Local Close Scope N_scope.

(** The first line of [bs], its newline included, and what follows. *)
Fixpoint split_line (bs : list byte) : option (list byte * list byte) :=
  match bs with
  | [] => None
  | b :: r =>
      if Byte.eqb b x0a then Some ([b], r)
      else
        match split_line r with
        | Some (l, r') => Some (b :: l, r')
        | None => None
        end
  end.

(* ================================================================== *)
(** ** The child process and the coroutines that talk to it *)

(** An [asyncio.subprocess.Process] with its pipes, seen from the client. *)
Record subprocess := mkSubprocess {
  stdin_log : list byte;       (* the bytes delivered to the child's input *)
  stdin_closed : bool;         (* the input pipe is closed or broken *)
  stdout_pending : list byte;  (* what the child still writes to its output *)
  stdout_eof : bool;           (* the child closes its output after that *)
  latency : nat                (* time units a read waits for its line *)
}.

(** How an awaited call ends: after [t] time units with a value or an
    exception, or never. *)
Inductive outcome {F : PyFloat} (S A : Type) :=
| Done (t : nat) (r : res A) (s : S)
| Suspended (s : S).
Arguments Done {F S A} t r s.
Arguments Suspended {F S A} s.

Section Streams.
Context {F : PyFloat}.

(** [stdin.write(data)] followed by [await stdin.drain()]. *)
Definition write_drain (data : list byte) (p : subprocess) : res subprocess :=
  if stdin_closed p then Raise (Builtin ConnectionResetError)
  else Ok (mkSubprocess (stdin_log p ++ data) (stdin_closed p)
             (stdout_pending p) (stdout_eof p) (latency p)).

(** [asyncio.streams._DEFAULT_LIMIT]: the limit of the stream reader that
    [create_subprocess_exec] sets up when it is called without [limit]. *)
Definition _DEFAULT_LIMIT : N := 65536.

(** [await stdout.readline()]: a whole line, or at end of stream what is
    left of it (possibly nothing); waits while neither is there.  When the
    newline comes after more bytes than the limit, or more bytes than the
    limit are there without any newline, the reader raises [ValueError]
    and drops what it holds of the line; how much of a long line it
    holds at that moment depends on the pipe, and is taken here to be the
    whole line. *)
Definition readline (p : subprocess) : outcome subprocess (list byte) :=
  match split_line (stdout_pending p) with
  | Some (line, rest) =>
      if (N.of_nat (List.length line - 1) <=? _DEFAULT_LIMIT)%N then
        Done (latency p) (Ok line)
          (mkSubprocess (stdin_log p) (stdin_closed p) rest (stdout_eof p) (latency p))
      else
        Done (latency p) (Raise (Builtin ValueError))
          (mkSubprocess (stdin_log p) (stdin_closed p) rest (stdout_eof p) (latency p))
  | None =>
      if (_DEFAULT_LIMIT <? N.of_nat (List.length (stdout_pending p)))%N then
        Done (latency p) (Raise (Builtin ValueError))
          (mkSubprocess (stdin_log p) (stdin_closed p) [] (stdout_eof p) (latency p))
      else if stdout_eof p then
        Done (latency p) (Ok (stdout_pending p))
          (mkSubprocess (stdin_log p) (stdin_closed p) [] (stdout_eof p) (latency p))
      else Suspended p
  end.

(** [future.result(timeout=...)] on the future of a submitted coroutine. *)
Definition future_result {S A} (timeout : nat) (o : outcome S A) : res A * S :=
  match o with
  | Done t r s =>
      if t <=? timeout then (r, s) else (Raise (Builtin TimeoutError), s)
  | Suspended s => (Raise (Builtin TimeoutError), s)
  end.

End Streams.

(* ================================================================== *)
(** ** [reddit_client.py]: class [RedditMCPClient] *)

Module RedditMCPClient.

Record self := mkSelf {
  server_path : pystr;
  process : option subprocess
}.

Section Methods.
Context {F : PyFloat}.

(** The host: what [asyncio.create_subprocess_exec(sys.executable, path,
    ...)] returns for a script path. *)
Variable create_subprocess_exec : pystr -> res subprocess.

(** An [async def] method. *)
Definition coro (A : Type) := self -> outcome self A.

Definition ret {A} (a : A) : coro A := fun s => Done 0 (Ok a) s.
Definition raise {A} (e : exn) : coro A := fun s => Done 0 (Raise e) s.
Definition lift {A} (r : res A) : coro A := fun s => Done 0 r s.

Definition bind {A B} (m : coro A) (f : A -> coro B) : coro B :=
  fun s =>
    match m s with
    | Done t (Ok a) s' =>
        match f a s' with
        | Done t' r s'' => Done (t + t') r s''
        | Suspended s'' => Suspended s''
        end
    | Done t (Raise e) s' => Done t (Raise e) s'
    | Suspended s' => Suspended s'
    end.

Notation "x <- m ;; k" := (bind m (fun x => k))
  (at level 61, m at next level, right associativity).
Notation "m ;; k" := (bind m (fun _ => k))
  (at level 61, right associativity).

Definition __init__ (server_path : pystr) : self := mkSelf server_path None.

Definition _send_message (message : value) : coro unit := fun s =>
  match process s with
  | None => Done 0 (Raise (Exception [Lit "Server not started"])) s
  | Some p =>
      let json_str := json_dumps message ++ str (String "010" EmptyString) in
      match encode json_str with
      | Raise e => Done 0 (Raise e) s
      | Ok data =>
          match write_drain data p with
          | Raise e => Done 0 (Raise e) s
          | Ok p' => Done 0 (Ok tt) (mkSelf (server_path s) (Some p'))
          end
      end
  end.

Definition _read_message : coro value := fun s =>
  match process s with
  | None => Done 0 (Raise (Exception [Lit "Server not started"])) s
  | Some p =>
      match readline p with
      | Suspended p' => Suspended (mkSelf (server_path s) (Some p'))
      | Done t (Raise e) p' => Done t (Raise e) (mkSelf (server_path s) (Some p'))
      | Done t (Ok line) p' =>
          let s' := mkSelf (server_path s) (Some p') in
          match line with
          | [] => Done t (Raise (Exception [Lit "Server connection closed"])) s'
          | _ :: _ =>
              match decode line with
              | Raise e => Done t (Raise e) s'
              | Ok text => Done t (json_loads (strip text)) s'
              end
          end
      end
  end.

(** The envelope [start] sends. *)
Definition initialize_request : value :=
  VDict [(str "jsonrpc", VStr (str "2.0"));
         (str "id", VInt 1);
         (str "method", VStr (str "initialize"));
         (str "params",
          VDict [(str "protocolVersion", VStr (str "2024-11-05"));
                 (str "capabilities", VDict []);
                 (str "clientInfo",
                  VDict [(str "name", VStr (str "reddit-client"));
                         (str "version", VStr (str "1.0.0"))])])].

Definition start : coro unit := fun s =>
  match create_subprocess_exec (server_path s) with
  | Raise e => Done 0 (Raise e) s
  | Ok p =>
      (_send_message initialize_request ;;
       response <- _read_message ;;
       result <- lift (py_get response (str "result") VNone) ;;
       if truthy result then ret tt
       else raise (Exception [Lit "Failed to initialize: "; Val response]))
        (mkSelf (server_path s) (Some p))
  end.

Definition _safe_json_parse (text : value) : res value :=
  if negb (truthy text) then Raise (Exception [Lit "Empty response from server"])
  else
    match text with
    | VStr t =>
        if str_eqb (strip t) (str EmptyString)
        then Raise (Exception [Lit "Empty response from server"])
        else
          match json_loads t with
          | Ok v => Ok v
          | Raise (Builtin JSONDecodeError) =>
              Raise (Exception [Lit "Invalid JSON response: ";
                                Val (VStr (slice_to 100 t));
                                Lit "... Error: "; Caught JSONDecodeError])
          | Raise e => Raise e
          end
    | _ => Raise (Builtin AttributeError)
    end.

(** The envelope [call_tool] sends. *)
Definition tool_request (tool_name : pystr) (arguments : value) : value :=
  VDict [(str "jsonrpc", VStr (str "2.0"));
         (str "id", VInt 2);
         (str "method", VStr (str "tools/call"));
         (str "params",
          VDict [(str "name", VStr tool_name);
                 (str "arguments", arguments)])].

Definition call_tool (tool_name : pystr) (arguments : value) : coro value :=
  let message := tool_request tool_name arguments in
  _send_message message ;;
  response <- _read_message ;;
  has_error <- lift (py_in (str "error") response) ;;
  if has_error : bool then
    payload <- lift (py_getitem response (str "error")) ;;
    raise (Exception [Lit "Tool error: "; Val payload])
  else
    result <- lift (py_get response (str "result") (VDict [])) ;;
    content <- lift (py_get result (str "content") (VList [VDict []])) ;;
    first <- lift (py_item0 content) ;;
    lift (py_get first (str "text") (VStr (str EmptyString))).

Definition fetch_posts (subreddit limit : value) : coro value :=
  result <- call_tool (str "fetchPosts")
              (VDict [(str "subreddit", subreddit); (str "limit", limit)]) ;;
  lift (_safe_json_parse result).

Definition search_posts (subreddit query limit : value) : coro value :=
  result <- call_tool (str "searchPosts")
              (VDict [(str "subreddit", subreddit); (str "query", query);
                      (str "limit", limit)]) ;;
  lift (_safe_json_parse result).

Definition get_comments (post_id : value) : coro value :=
  result <- call_tool (str "getComments") (VDict [(str "post_id", post_id)]) ;;
  lift (_safe_json_parse result).

Definition get_subreddit_info (subreddit : value) : coro value :=
  result <- call_tool (str "getSubredditInfo")
              (VDict [(str "subreddit", subreddit)]) ;;
  lift (_safe_json_parse result).

Definition post_comment (post_id comment_text : value) : coro value :=
  result <- call_tool (str "postComment")
              (VDict [(str "post_id", post_id);
                      (str "comment_text", comment_text)]) ;;
  lift (_safe_json_parse result).

(** The local [args] of [post_to_subreddit] when it reaches [call_tool]. *)
Definition post_args (subreddit title content url : value) : dict :=
  let args := [(str "subreddit", subreddit); (str "title", title)] in
  let args := if truthy content then dict_set (str "content") content args else args in
  let args := if truthy url then dict_set (str "url") url args else args in
  args.

Definition post_to_subreddit (subreddit title content url : value) : coro value :=
  result <- call_tool (str "postToSubreddit")
              (VDict (post_args subreddit title content url)) ;;
  lift (_safe_json_parse result).

End Methods.
End RedditMCPClient.

(* ================================================================== *)
(** ** [reddit_sync_client.py]: class [RedditSyncClient] *)

Module RedditSyncClient.

(** The event loop that runs for ever in the worker thread. *)
Inductive event_loop := RunningLoop.
Inductive worker := DaemonThread.

Record self := mkSelf {
  client : option RedditMCPClient.self;
  loop : option event_loop;
  thread : option worker;
  initialized : bool
}.

Section Methods.
Context {F : PyFloat}.

(** The host: the launcher of child processes and the directory of this
    module, [os.path.dirname(os.path.abspath(__file__))]. *)
Variable create_subprocess_exec : pystr -> res subprocess.
Variable current_dir : pystr.

Definition __init__ : self := mkSelf None None None false.

(** [os.path.join(current_dir, "server.py")] *)
Definition path_join (dir name : pystr) : pystr :=
  match rev dir with
  | [] => name
  | c :: _ => if N.eqb c 47 then dir ++ name else dir ++ str "/" ++ name
  end.

(** The body runs under [try: ... except Exception], which turns every
    failure, a timeout as well, into the result [False]. *)
Definition initialize (s : self) : res bool * self :=
  if initialized s then (Ok true, s)
  else
    let server_path := path_join current_dir (str "server.py") in
    let c := RedditMCPClient.__init__ server_path in
    match future_result 10 (RedditMCPClient.start create_subprocess_exec c) with
    | (Ok _, c') =>
        (Ok true, mkSelf (Some c') (Some RunningLoop) (Some DaemonThread) true)
    | (Raise _, c') =>
        (Ok false, mkSelf (Some c') (Some RunningLoop) (Some DaemonThread) false)
    end.

(** [coro] is a coroutine of the client object [c]. *)
Definition _run_async {A} (s : self) (c : RedditMCPClient.self)
    (coro : RedditMCPClient.coro A) (timeout : nat) : res A * self :=
  if negb (initialized s)
  then (Raise (Exception [Lit "Client not initialized. Call initialize() first."]), s)
  else
    match loop s with
    | None => (Raise (Builtin AttributeError), s)
    | Some RunningLoop =>
        let (r, c') := future_result timeout (coro c) in
        (r, mkSelf (Some c') (loop s) (thread s) (initialized s))
    end.

(** A delegated operation [self._run_async(self.client.m(...))]: the
    argument is evaluated first, and with [self.client] still [None] the
    lookup of [m] on it raises. *)
Definition delegate {A} (s : self) (m : RedditMCPClient.coro A) : res A * self :=
  match client s with
  | None => (Raise (Builtin AttributeError), s)
  | Some c => _run_async s c m 30
  end.

Definition fetch_posts (s : self) (subreddit limit : value) :=
  delegate s (RedditMCPClient.fetch_posts subreddit limit).

Definition search_posts (s : self) (subreddit query limit : value) :=
  delegate s (RedditMCPClient.search_posts subreddit query limit).

Definition get_comments (s : self) (post_id : value) :=
  delegate s (RedditMCPClient.get_comments post_id).

Definition get_subreddit_info (s : self) (subreddit : value) :=
  delegate s (RedditMCPClient.get_subreddit_info subreddit).

Definition post_comment (s : self) (post_id comment_text : value) :=
  delegate s (RedditMCPClient.post_comment post_id comment_text).

Definition post_to_subreddit (s : self) (subreddit title content url : value) :=
  delegate s (RedditMCPClient.post_to_subreddit subreddit title content url).

End Methods.
End RedditSyncClient.

(* ================================================================== *)
(** ** Vocabulary of the statements *)

Section Vocabulary.
Context {F : PyFloat}.

(** The state an awaited call leaves behind. *)
Definition final {S A} (o : outcome S A) : S :=
  match o with
  | Done _ _ s => s
  | Suspended s => s
  end.

(** All the bytes the client has written to its child so far. *)
Definition sent (s : RedditMCPClient.self) : list byte :=
  match RedditMCPClient.process s with
  | Some p => stdin_log p
  | None => []
  end.

(** The request [message] goes out from state [s] and the reply read for
    it, after [t] time units, is [response]. *)
Definition receives (s : RedditMCPClient.self) (message response : value)
    (t : nat) (s' : RedditMCPClient.self) : Prop :=
  exists s1,
    RedditMCPClient._send_message message s = Done 0 (Ok tt) s1 /\
    RedditMCPClient._read_message s1 = Done t (Ok response) s'.

(** What [call_tool] does with the reply it reads (its last two
    statements, as a function of the reply). *)
Definition unwrap (response : value) : res value :=
  match py_in (str "error") response with
  | Raise e => Raise e
  | Ok true =>
      match py_getitem response (str "error") with
      | Raise e => Raise e
      | Ok payload => Raise (Exception [Lit "Tool error: "; Val payload])
      end
  | Ok false =>
      match py_get response (str "result") (VDict []) with
      | Raise e => Raise e
      | Ok result =>
          match py_get result (str "content") (VList [VDict []]) with
          | Raise e => Raise e
          | Ok content =>
              match py_item0 content with
              | Raise e => Raise e
              | Ok first => py_get first (str "text") (VStr (str EmptyString))
              end
          end
      end
  end.

(** A Unicode scalar value: a code point that is not a surrogate. *)
Definition scalar (c : N) : bool := (c <? 0x110000)%N && negb (is_surrogate c).

Definition text_ok (s : pystr) : bool := forallb scalar s.

Fixpoint distinct (ks : list pystr) : bool :=
  match ks with
  | [] => true
  | k :: ks' => negb (existsb (str_eqb k) ks') && distinct ks'
  end.

(** The envelopes of the protocol: integers for numbers, well-formed
    Unicode text for strings and keys, no key twice in a dict. *)
Fixpoint valid (v : value) : bool :=
  match v with
  | VNone | VBool _ | VInt _ => true
  | VFloat _ => false
  | VStr s => text_ok s
  | VList l => forallb valid l
  | VDict d =>
      forallb (fun kv => text_ok (fst kv) && valid (snd kv)) d
      && distinct (map fst d)
  end.

(** The number of nodes of a value. *)
Fixpoint weight (v : value) : nat :=
  match v with
  | VList l => S (list_sum (map weight l))
  | VDict d => S (list_sum (map (fun kv => weight (snd kv)) d))
  | _ => 1
  end.

(** What may follow a value inside a document. *)
Definition delimited (rest : pystr) : bool :=
  match rest with
  | [] => true
  | c :: _ => (c =? 44)%N || (c =? 93)%N || (c =? 125)%N
  end.

Local Open Scope N_scope.

(** A text starts a document when its first character is neither
    whitespace nor a closing bracket. *)
Definition starts_value (s : pystr) : Prop :=
  exists c t, s = c :: t /\ is_ws c = false /\ c <> 93.

(** [scan_once] with fuel [f] reads the text of [x] back, whatever
    delimited text follows. *)
Definition parses (f : nat) (x : value) : Prop :=
  forall rest, delimited rest = true ->
    scan_once f (json_dumps x ++ rest) = Some (x, rest).

(** The text of one member of a dict. *)
Definition member (kv : pystr * value) : pystr :=
  encode_basestring_ascii (fst kv) ++ str ": " ++ json_dumps (snd kv).

Definition member_ok (f : nat) (kv : pystr * value) : Prop :=
  text_ok (fst kv) = true /\ parses f (snd kv) /\ starts_value (json_dumps (snd kv)).

(** Printable ASCII. *)
Definition printable (c : N) : bool := (32 <=? c) && (c <=? 126).

(** The text of the float [x] is printable ASCII that starts a document,
    and the scanner reads it back as [x], whatever delimited text
    follows: what Python promises of [float.__repr__] and [float]. *)
Definition float_reads_back (x : pyfloat) : Prop :=
  forallb printable (float_repr x) = true /\
  starts_value (float_repr x) /\
  forall f rest, delimited rest = true ->
    scan_once (S f) (float_repr x ++ rest) = Some (VFloat x, rest).

(** The values a line can carry: well-formed Unicode text for strings
    and keys, no key twice in a dict, floats that read back. *)
Unset Elimination Schemes.
Inductive wellformed : value -> Prop :=
| wf_none : wellformed VNone
| wf_bool b : wellformed (VBool b)
| wf_int z : wellformed (VInt z)
| wf_float x : float_reads_back x -> wellformed (VFloat x)
| wf_str s : text_ok s = true -> wellformed (VStr s)
| wf_list l : Forall wellformed l -> wellformed (VList l)
| wf_dict d :
    Forall (fun kv => text_ok (fst kv) = true /\ wellformed (snd kv)) d ->
    distinct (map fst d) = true ->
    wellformed (VDict d).
Set Elimination Schemes.

(** The bytes of a line fit the reader's limit. *)
Definition fits (body : list byte) : Prop :=
  N.of_nat (List.length body) <= _DEFAULT_LIMIT.

Local Close Scope N_scope.

(** One line of the wire: the document and its newline. *)
Definition wire_line (message : value) : pystr := json_dumps message ++ [10%N].

End Vocabulary.

(** A child that has [out] ready on its output, closes it afterwards when
    [eof] holds, and answers a read after [lat] time units. *)
Definition child (out : pystr) (eof : bool) (lat : nat) : subprocess :=
  mkSubprocess [] false (map byte_of_N out) eof lat.

Definition dq : string := String "034" EmptyString.

(** A client whose process is [p]. *)
Definition started (p : subprocess) : RedditMCPClient.self :=
  RedditMCPClient.mkSelf (str "server.py") (Some p).

(** Replies of a server, as the values whose text it writes. *)
Definition init_reply : @value text_floats :=
  VDict [(str "jsonrpc", VStr (str "2.0")); (str "id", VInt 1);
         (str "result",
          VDict [(str "protocolVersion", VStr (str "2024-11-05"));
                 (str "capabilities", VDict [])])].

Definition error_payload : @value text_floats :=
  VDict [(str "code", VInt (-32602)); (str "message", VStr (str "bad subreddit"))].

Definition error_reply : @value text_floats :=
  VDict [(str "jsonrpc", VStr (str "2.0")); (str "id", VInt 2);
         (str "error", error_payload)].

Definition empty_content_reply : @value text_floats :=
  VDict [(str "jsonrpc", VStr (str "2.0")); (str "id", VInt 2);
         (str "result", VDict [(str "content", VList [])])].

Definition fetch_args : @value text_floats :=
  VDict [(str "subreddit", VStr (str "python")); (str "limit", VInt 3)].

(** The host that launches [p] for whatever script. *)
Definition host (p : subprocess) : pystr -> @res text_floats subprocess :=
  fun _ => Ok p.

(** The client object the facade builds when its module lives in [/app]. *)
Definition app_client : RedditMCPClient.self :=
  RedditMCPClient.mkSelf (str "/app/server.py") None.

(** The child that has written the line of [reply]. *)
Definition replying (reply : @value text_floats) (lat : nat) : subprocess :=
  child (wire_line reply) true lat.




(* ================================================================== *)
(** ** [str.replace] *)

(** [s.replace(old, new)] for a non-empty [old], scanning [s] from the
    left; [skip] counts the characters of a match still to be dropped. *)
Fixpoint replace_from (old new : pystr) (skip : nat) (s : pystr) : pystr :=
  match s with
  | [] => []
  | c :: s' =>
      match skip with
      | S k => replace_from old new k s'
      | O =>
          if startswith s old
          then new ++ replace_from old new (List.length old - 1) s'
          else c :: replace_from old new 0 s'
      end
  end.

(** [s.replace(old, new)]; an empty [old] matches before every character
    and at the end. *)
Definition replace (old new s : pystr) : pystr :=
  match old with
  | [] => new ++ flat_map (fun c => c :: new) s
  | _ :: _ => replace_from old new 0 s
  end.

(* ================================================================== *)
(** ** [input_utils.py] *)

Module input_utils.
Section Functions.

(** The Unicode table behind [str.isalnum]: whether a character is a
    letter or a numeral. *)
Variable isalnum_char : N -> bool.

(** [s.isalnum()] *)
Definition isalnum (s : pystr) : bool :=
  match s with
  | [] => false
  | _ :: _ => forallb isalnum_char s
  end.

(** The truth value of a string. *)
Definition nonempty (s : pystr) : bool :=
  match s with
  | [] => false
  | _ :: _ => true
  end.

Definition clean_subreddit_name (subreddit_input : pystr) : pystr :=
  if negb (nonempty subreddit_input) then str EmptyString
  else
    let cleaned :=
      replace (str " ") (str EmptyString)
        (replace (str "r/") (str EmptyString) (strip subreddit_input)) in
    if nonempty cleaned
       && negb (isalnum (replace (str "-") (str EmptyString)
                           (replace (str "_") (str EmptyString) cleaned)))
    then str EmptyString
    else cleaned.

Definition validate_post_id (post_id : pystr) : pystr :=
  if negb (nonempty post_id) then str EmptyString
  else
    let cleaned := replace (str "t3_") (str EmptyString) (strip post_id) in
    if nonempty cleaned && negb (isalnum cleaned) then str EmptyString
    else cleaned.

End Functions.
End input_utils.

(* ================================================================== *)
(** ** [reddit_sync_client.py]: the module's global client *)

Module reddit_sync_client.
Section Functions.
Context {F : PyFloat}.

Variable create_subprocess_exec : pystr -> res subprocess.
Variable current_dir : pystr.

(** [get_reddit_client()] from the state [_global_client] of the module
    global: the outcome of the call and the new state of the global.  A
    normal return hands out the object the global holds. *)
Definition get_reddit_client (_global_client : option RedditSyncClient.self)
    : res unit * option RedditSyncClient.self :=
  match _global_client with
  | None =>
      match RedditSyncClient.initialize create_subprocess_exec current_dir
              RedditSyncClient.__init__ with
      | (Ok ready, c) =>
          if ready then (Ok tt, Some c)
          else (Raise (Exception [Lit "Failed to initialize Reddit client"]), Some c)
      | (Raise e, c) => (Raise e, Some c)
      end
  | Some _ => (Ok tt, _global_client)
  end.

End Functions.
End reddit_sync_client.

(* ================================================================== *)
(** ** [streamlit_app.py]: [initialize_client] *)

Module streamlit_app.

(** The two entries of [st.session_state] the function uses;
    [reddit_client] is either [None] or the module's global client. *)
Record session_state := mkSession {
  reddit_client : bool;         (* the entry holds the global client *)
  client_initialized : bool
}.

Section Functions.
Context {F : PyFloat}.

Variable create_subprocess_exec : pystr -> res subprocess.
Variable current_dir : pystr.

(** The result, the global client of [reddit_sync_client] and the session
    state after [initialize_client()]; the message shown by [st.error] is
    left out. *)
Definition initialize_client (_global_client : option RedditSyncClient.self)
    (st : session_state) : bool * option RedditSyncClient.self * session_state :=
  if negb (client_initialized st) then
    match reddit_sync_client.get_reddit_client create_subprocess_exec current_dir
            _global_client with
    | (Ok _, g) => (true, g, mkSession true true)
    | (Raise _, g) => (false, g, st)
    end
  else (true, _global_client, st).

End Functions.
End streamlit_app.

(* ================================================================== *)
(** ** [fastapi_server.py] *)

Module fastapi_server.

(** The response model; a field left at its default is [None]. *)
Record APIResponse {F : PyFloat} := mkAPIResponse {
  success : bool;
  data : value;
  error : option pystr
}.

Record HTTPException := mkHTTPException {
  status_code : nat;
  detail : pystr
}.

(** How an endpoint ends once it ends. *)
Inductive reply {F : PyFloat} :=
| Returns (r : APIResponse)
| Raises (e : HTTPException).

Section Endpoints.
Context {F : PyFloat}.

Variable create_subprocess_exec : pystr -> res subprocess.
Variable current_dir : pystr.

(** [str(e)] of an exception. *)
Variable exn_str : exn -> pystr.

Definition server_path : pystr :=
  RedditSyncClient.path_join current_dir (str "server.py").

(** [await get_reddit_client()] from the state [reddit_client] of the
    module global.  The global is bound before [start] runs, so
    whichever way the call ends the global holds the object in the state
    the outcome carries. *)
Definition get_reddit_client (reddit_client : option RedditMCPClient.self)
    : outcome RedditMCPClient.self unit :=
  match reddit_client with
  | None =>
      RedditMCPClient.start create_subprocess_exec
        (RedditMCPClient.__init__ server_path)
  | Some c => Done 0 (Ok tt) c
  end.

(** [startup_event()]: the failure of the first [get_reddit_client] is
    printed and dropped. *)
Definition startup_event (reddit_client : option RedditMCPClient.self)
    : outcome RedditMCPClient.self unit :=
  match get_reddit_client reddit_client with
  | Done t _ c => Done t (Ok tt) c
  | Suspended c => Suspended c
  end.

(** The body shared by the six tool endpoints; [call] is the method of
    the client the endpoint awaits.  One request is served at a time. *)
Definition endpoint (call : RedditMCPClient.coro value)
    (reddit_client : option RedditMCPClient.self)
    : outcome RedditMCPClient.self reply :=
  match get_reddit_client reddit_client with
  | Suspended c => Suspended c
  | Done t (Raise e) c => Done t (Ok (Raises (mkHTTPException 500 (exn_str e)))) c
  | Done t (Ok _) c =>
      match call c with
      | Suspended c' => Suspended c'
      | Done t' (Raise e) c' =>
          Done (t + t') (Ok (Raises (mkHTTPException 500 (exn_str e)))) c'
      | Done t' (Ok result) c' =>
          Done (t + t') (Ok (Returns (mkAPIResponse true result None))) c'
      end
  end.

(** An [Optional[int]] field handed to the client. *)
Definition optional_int (n : option Z) : value :=
  match n with
  | Some z => VInt z
  | None => VNone
  end.

(** An [Optional[str]] field handed to the client. *)
Definition optional_str (s : option pystr) : value :=
  match s with
  | Some t => VStr t
  | None => VNone
  end.

Definition fetch_posts (subreddit : pystr) (limit : option Z) :=
  endpoint (RedditMCPClient.fetch_posts (VStr subreddit) (optional_int limit)).

Definition search_posts (subreddit query : pystr) (limit : option Z) :=
  endpoint (RedditMCPClient.search_posts (VStr subreddit) (VStr query)
              (optional_int limit)).

Definition get_comments (post_id : pystr) :=
  endpoint (RedditMCPClient.get_comments (VStr post_id)).

Definition get_subreddit_info (subreddit : pystr) :=
  endpoint (RedditMCPClient.get_subreddit_info (VStr subreddit)).

Definition post_comment (post_id comment_text : pystr) :=
  endpoint (RedditMCPClient.post_comment (VStr post_id) (VStr comment_text)).

Definition create_post (subreddit title : pystr) (content url : option pystr) :=
  endpoint (RedditMCPClient.post_to_subreddit (VStr subreddit) (VStr title)
              (optional_str content) (optional_str url)).

(** [health_check()] *)
Definition health_check (reddit_client : option RedditMCPClient.self)
    : outcome RedditMCPClient.self value :=
  match get_reddit_client reddit_client with
  | Suspended c => Suspended c
  | Done t (Ok _) c =>
      Done t (Ok (VDict [(str "status", VStr (str "healthy"));
                         (str "reddit_client", VStr (str "connected"))])) c
  | Done t (Raise e) c =>
      Done t (Ok (VDict [(str "status", VStr (str "unhealthy"));
                         (str "error", VStr (exn_str e))])) c
  end.

End Endpoints.
End fastapi_server.

(* ================================================================== *)
(** ** [server.py]: the tool list and the dispatcher *)

Module server.

Record TextContent := mkTextContent {
  type : pystr;
  text : pystr
}.

Record Tool {F : PyFloat} := mkTool {
  name : pystr;
  description : pystr;
  inputSchema : value
}.

Section Tools.
Context {F : PyFloat}.

(** A property of type string in an input schema. *)
Definition string_property (key description : string) : pystr * value :=
  (str key, VDict [(str "type", VStr (str "string"));
                   (str "description", VStr (str description))]).

(** The property [limit] of an input schema. *)
Definition limit_property (description : string) : pystr * value :=
  (str "limit", VDict [(str "type", VStr (str "integer"));
                       (str "description", VStr (str description));
                       (str "minimum", VInt 1);
                       (str "maximum", VInt 100);
                       (str "default", VInt 10)]).

Definition object_schema (properties : dict) (required : list string) : value :=
  VDict [(str "type", VStr (str "object"));
         (str "properties", VDict properties);
         (str "required", VList (map (fun k => VStr (str k)) required))].

Definition list_tools : list Tool :=
  [ mkTool (str "fetchPosts") (str "Fetch hot posts from a subreddit")
      (object_schema
         [string_property "subreddit" "Name of the subreddit";
          limit_property "Number of posts to fetch (1-100)"]
         ["subreddit"%string]);
    mkTool (str "getComments") (str "Get comments for a specific Reddit post")
      (object_schema
         [string_property "post_id" "Reddit post ID (without 't3_' prefix)"]
         ["post_id"%string]);
    mkTool (str "searchPosts") (str "Search for posts within a subreddit")
      (object_schema
         [string_property "subreddit" "Name of the subreddit";
          string_property "query" "Search query";
          limit_property "Number of results to return (1-100)"]
         ["subreddit"%string; "query"%string]);
    mkTool (str "postComment") (str "Post a comment on a Reddit post")
      (object_schema
         [string_property "post_id" "Reddit post ID (without 't3_' prefix)";
          string_property "comment_text" "Comment text to post"]
         ["post_id"%string; "comment_text"%string]);
    mkTool (str "getSubredditInfo") (str "Get information about a subreddit")
      (object_schema
         [string_property "subreddit" "Name of the subreddit"]
         ["subreddit"%string]);
    mkTool (str "postToSubreddit") (str "Create a new post in a subreddit")
      (object_schema
         [string_property "subreddit" "Name of the subreddit";
          string_property "title" "Post title";
          string_property "content" "Post content (for text posts)";
          string_property "url" "URL (for link posts)"]
         ["subreddit"%string; "title"%string]) ].

(** The praw session behind the global [reddit], and the six handlers as
    coroutines over it.  They are parameters: what is shown of the
    dispatcher holds whatever the handlers do. *)
Variable Reddit : Type.
Definition handler := Reddit -> dict -> outcome Reddit (list TextContent).
Variables fetch_posts get_comments search_posts post_comment
  get_subreddit_info post_to_subreddit : handler.

(** [str(e)] of an exception. *)
Variable exn_str : exn -> pystr.

Definition text_block (t : pystr) : list TextContent :=
  [mkTextContent (str "text") t].

(** [return await h(arguments or {})] under the [try] of [call_tool]. *)
Definition dispatch (h : handler) (r : Reddit) (arguments : option dict)
    : outcome (option Reddit) (list TextContent) :=
  let args := match arguments with Some d => d | None => [] end in
  match h r args with
  | Done t (Ok blocks) r' => Done t (Ok blocks) (Some r')
  | Done t (Raise e) r' =>
      Done t (Ok (text_block (str "Error: " ++ exn_str e))) (Some r')
  | Suspended r' => Suspended (Some r')
  end.

(** [call_tool(name, arguments)] from the state [reddit] of the module
    global. *)
Definition call_tool (name : pystr) (arguments : option dict)
    (reddit : option Reddit) : outcome (option Reddit) (list TextContent) :=
  match reddit with
  | None =>
      Done 0
        (Ok (text_block
               (str "Error: Reddit client not initialized. Please check your credentials.")))
        reddit
  | Some r =>
      if str_eqb name (str "fetchPosts") then dispatch fetch_posts r arguments
      else if str_eqb name (str "getComments") then dispatch get_comments r arguments
      else if str_eqb name (str "searchPosts") then dispatch search_posts r arguments
      else if str_eqb name (str "postComment") then dispatch post_comment r arguments
      else if str_eqb name (str "getSubredditInfo")
      then dispatch get_subreddit_info r arguments
      else if str_eqb name (str "postToSubreddit")
      then dispatch post_to_subreddit r arguments
      else Done 0 (Ok (text_block (str "Unknown tool: " ++ name))) reddit
  end.

End Tools.
End server.

(* ================================================================== *)
(** ** Vocabulary of the further statements *)

Section Calls.
Context {F : PyFloat}.

(** The reply is a success whose first content block has [text] under
    its key [text]. *)
Definition reply_text (d : dict) (text : value) : Prop :=
  dict_lookup (str "error") d = None /\
  exists r b rest,
    dict_lookup (str "result") d = Some (VDict r) /\
    dict_lookup (str "content") r = Some (VList (VDict b :: rest)) /\
    dict_lookup (str "text") b = Some text.

(** A call of one of the six tool methods, with its parameters. *)
Inductive tool_call :=
| FetchPosts (subreddit limit : value)
| SearchPosts (subreddit query limit : value)
| GetComments (post_id : value)
| GetSubredditInfo (subreddit : value)
| PostComment (post_id comment_text : value)
| PostToSubreddit (subreddit title content url : value).

Definition run_tool (c : tool_call) : RedditMCPClient.coro value :=
  match c with
  | FetchPosts a b => RedditMCPClient.fetch_posts a b
  | SearchPosts a b c => RedditMCPClient.search_posts a b c
  | GetComments a => RedditMCPClient.get_comments a
  | GetSubredditInfo a => RedditMCPClient.get_subreddit_info a
  | PostComment a b => RedditMCPClient.post_comment a b
  | PostToSubreddit a b c d => RedditMCPClient.post_to_subreddit a b c d
  end.

(** The name of the tool a method asks for, and the arguments it passes. *)
Definition tool_of (c : tool_call) : pystr :=
  match c with
  | FetchPosts _ _ => str "fetchPosts"
  | SearchPosts _ _ _ => str "searchPosts"
  | GetComments _ => str "getComments"
  | GetSubredditInfo _ => str "getSubredditInfo"
  | PostComment _ _ => str "postComment"
  | PostToSubreddit _ _ _ _ => str "postToSubreddit"
  end.

Definition arguments_of (c : tool_call) : dict :=
  match c with
  | FetchPosts a b => [(str "subreddit", a); (str "limit", b)]
  | SearchPosts a b c => [(str "subreddit", a); (str "query", b); (str "limit", c)]
  | GetComments a => [(str "post_id", a)]
  | GetSubredditInfo a => [(str "subreddit", a)]
  | PostComment a b => [(str "post_id", a); (str "comment_text", b)]
  | PostToSubreddit a b c d => RedditMCPClient.post_args a b c d
  end.

(** The request a tool method sends. *)
Definition request_of (c : tool_call) : value :=
  RedditMCPClient.tool_request (tool_of c) (VDict (arguments_of c)).

(** The same call through the facade. *)
Definition run_facade (c : tool_call) (s : RedditSyncClient.self)
    : res value * RedditSyncClient.self :=
  match c with
  | FetchPosts a b => RedditSyncClient.fetch_posts s a b
  | SearchPosts a b c => RedditSyncClient.search_posts s a b c
  | GetComments a => RedditSyncClient.get_comments s a
  | GetSubredditInfo a => RedditSyncClient.get_subreddit_info s a
  | PostComment a b => RedditSyncClient.post_comment s a b
  | PostToSubreddit a b c d => RedditSyncClient.post_to_subreddit s a b c d
  end.

(** A value without floats. *)
Fixpoint float_free (v : value) : bool :=
  match v with
  | VFloat _ => false
  | VList l => forallb float_free l
  | VDict d => forallb (fun kv => float_free (snd kv)) d
  | _ => true
  end.

(** The bytes of one line of the wire. *)
Definition wire_bytes (v : value) : list byte := map byte_of_N (wire_line v).

(** Whitespace that fits in one byte and does not end a line. *)
Definition padding (c : N) : bool :=
  isspace c && (c <? 128)%N && negb (c =? 10)%N.

(** The keys a schema requires and the keys it knows. *)
Definition required_keys (schema : value) : list pystr :=
  match schema with
  | VDict d =>
      match dict_lookup (str "required") d with
      | Some (VList l) =>
          flat_map (fun v => match v with VStr k => [k] | _ => [] end) l
      | _ => []
      end
  | _ => []
  end.

Definition known_keys (schema : value) : list pystr :=
  match schema with
  | VDict d =>
      match dict_lookup (str "properties") d with
      | Some (VDict p) => dict_keys p
      | _ => []
      end
  | _ => []
  end.

(** The tool of the list that goes by [name]. *)
Definition find_tool (name : pystr) : option server.Tool :=
  find (fun t => str_eqb (server.name t) name) server.list_tools.

End Calls.

(** What [clean_subreddit_name] computes before its check, and what the
    check looks at. *)
Definition cleaned_name (x : pystr) : pystr :=
  replace (str " ") (str EmptyString)
    (replace (str "r/") (str EmptyString) (strip x)).

Definition unmarked (s : pystr) : pystr :=
  replace (str "-") (str EmptyString) (replace (str "_") (str EmptyString) s).

(** The letters, digits and the like among the ASCII characters. *)
Definition ascii_alnum (c : N) : bool :=
  ((48 <=? c) && (c <=? 57) || (65 <=? c) && (c <=? 90)
   || (97 <=? c) && (c <=? 122))%N.

(** [r] is [s] with some of its characters left out. *)
Inductive subseq : pystr -> pystr -> Prop :=
| subseq_nil : subseq [] []
| subseq_skip c r s : subseq r s -> subseq r (c :: s)
| subseq_keep c r s : subseq r s -> subseq (c :: r) (c :: s).

(** A payload of [fetchPosts], the reply that carries its text in the
    first content block, and the reply of a server that answers with a
    plain message. *)
Definition posts_payload : @value text_floats :=
  VDict [(str "posts", VList []); (str "subreddit", VStr (str "python"))].

Definition text_reply (text : pystr) : @dict text_floats :=
  [(str "jsonrpc", VStr (str "2.0")); (str "id", VInt 2);
   (str "result",
    VDict [(str "content",
            VList [VDict [(str "type", VStr (str "text"));
                          (str "text", VStr text)]])])].

Definition payload_reply : @dict text_floats :=
  text_reply (json_dumps posts_payload).

Definition init_reply_dict : @dict text_floats :=
  [(str "jsonrpc", VStr (str "2.0")); (str "id", VInt 1);
   (str "result",
    VDict [(str "protocolVersion", VStr (str "2024-11-05"));
           (str "capabilities", VDict [])])].

Definition refusal_dict : @dict text_floats :=
  [(str "jsonrpc", VStr (str "2.0")); (str "id", VInt 1);
   (str "result", VDict [])].

(** The child that has written the lines of [replies], one after the
    other, and answers a read after [lat] time units. *)
Definition answering (replies : list (@value text_floats)) (lat : nat) : subprocess :=
  child (flat_map (wire_line (F := text_floats)) replies) true lat.

(** A host on which no child can be launched. *)
Definition no_host : pystr -> @res text_floats subprocess :=
  fun _ => Raise (Builtin FileNotFoundError).

(** A rendering of exceptions to run the model on; a value in a message
    is shown as its JSON text. *)
Definition exn_text (e : @exn text_floats) : pystr :=
  match e with
  | Exception msg =>
      flat_map (fun f => match f with
                         | Lit s => str s
                         | Val v => json_dumps v
                         | Caught _ => str "error"
                         end) msg
  | Builtin _ => str "error"
  end.

(** Handlers to run the dispatcher on: one that answers with the text of
    its arguments and one that raises. *)
Definition echo_handler : server.handler (F := text_floats) unit :=
  fun r args => Done 0 (Ok (server.text_block (json_dumps (VDict args)))) r.

Definition failing_handler : server.handler (F := text_floats) unit :=
  fun r _ => Done 0 (Raise (Builtin KeyError)) r.

(** A call of [fetch_posts] to run the model on. *)
Definition fetch_python : @tool_call text_floats :=
  FetchPosts (VStr (str "python")) (VInt 3).

(* ================================================================== *)
(** ** Properties *)

Section Properties.
Context {F : PyFloat}.

Import RedditMCPClient.

Lemma bind_ok {A B} (m : coro A) (f : A -> coro B) s t a s' :
  m s = Done t (Ok a) s' ->
  bind m f s =
  match f a s' with
  | Done t' r s'' => Done (t + t') r s''
  | Suspended s'' => Suspended s''
  end.
Proof. intros H. unfold bind. rewrite H. reflexivity. Qed.

Lemma bind_raise {A B} (m : coro A) (f : A -> coro B) s t e s' :
  m s = Done t (Raise e) s' -> bind m f s = Done t (Raise e) s'.
Proof. intros H. unfold bind. rewrite H. reflexivity. Qed.

Lemma bind_suspended {A B} (m : coro A) (f : A -> coro B) s s' :
  m s = Suspended s' -> bind m f s = Suspended s'.
Proof. intros H. unfold bind. rewrite H. reflexivity. Qed.

Lemma call_tool_receives tool_name arguments s response t s' :
  receives s (tool_request tool_name arguments) response t s' ->
  call_tool tool_name arguments s = Done t (unwrap response) s'.
Proof.
  intros (s1 & Hs & Hr). unfold call_tool.
  rewrite (bind_ok _ _ _ Hs), (bind_ok _ _ _ Hr).
  unfold unwrap, lift, raise, bind.
  destruct (py_in (str "error") response) as [[|]|e]; simpl.
  - destruct (py_getitem response (str "error")); simpl; f_equal; lia.
  - destruct (py_get response (str "result") (VDict [])) as [result|]; simpl;
      [|f_equal; lia].
    destruct (py_get result (str "content") (VList [VDict []])) as [content|];
      simpl; [|f_equal; lia].
    destruct (py_item0 content) as [first|]; simpl; f_equal; lia.
  - f_equal; lia.
Qed.


(** Where a dict holds a key, [get] finds its value. *)
Lemma py_get_found d key v default :
  dict_lookup key d = Some v -> py_get (VDict d) key default = Ok v.
Proof. intros H. simpl. rewrite H. reflexivity. Qed.

Lemma py_get_missing d key default :
  dict_lookup key d = None -> py_get (VDict d) key default = Ok default.
Proof. intros H. simpl. rewrite H. reflexivity. Qed.

(** The defaults of the last statement of [call_tool]: a reply without
    [result], a result without [content] and a first block without [text]
    all give the empty string; a first block with [text] gives it. *)
Lemma unwrap_defaults d :
  dict_lookup (str "error") d = None ->
  (dict_lookup (str "result") d = None -> unwrap (VDict d) = Ok (VStr [])) /\
  (forall r, dict_lookup (str "result") d = Some (VDict r) ->
     (dict_lookup (str "content") r = None -> unwrap (VDict d) = Ok (VStr [])) /\
     (forall b rest, dict_lookup (str "content") r = Some (VList (VDict b :: rest)) ->
        (dict_lookup (str "text") b = None -> unwrap (VDict d) = Ok (VStr [])) /\
        (forall text, dict_lookup (str "text") b = Some text ->
           unwrap (VDict d) = Ok text))).
Proof.
  intros He. unfold unwrap. unfold py_in, dict_contains. rewrite He.
  split.
  - intros Hr. rewrite (@py_get_missing _ _ _ Hr). reflexivity.
  - intros r Hr. rewrite (@py_get_found _ _ _ _ Hr). split.
    + intros Hc. rewrite (@py_get_missing _ _ _ Hc). reflexivity.
    + intros b rest Hc. rewrite (@py_get_found _ _ _ _ Hc). simpl py_item0. split.
      * intros Ht. rewrite (@py_get_missing _ _ _ Ht). reflexivity.
      * intros text Ht. rewrite (@py_get_found _ _ _ _ Ht). reflexivity.
Qed.

(** C1. A successful reply (no [error] key) whose [result.content] is the
    empty list does not make [call_tool] return the empty string: the
    subscript [[0]] on the empty list raises [IndexError]. *)
Theorem call_tool_empty_content_raises tool_name arguments s d r t s' :
  receives s (tool_request tool_name arguments) (VDict d) t s' ->
  dict_lookup (str "error") d = None ->
  dict_lookup (str "result") d = Some (VDict r) ->
  dict_lookup (str "content") r = Some (VList []) ->
  call_tool tool_name arguments s = Done t (Raise (Builtin IndexError)) s'.
Proof.
  intros Hrecv He Hr Hc. rewrite (call_tool_receives Hrecv).
  unfold unwrap, py_in, dict_contains. rewrite He.
  rewrite (@py_get_found _ _ _ _ Hr), (@py_get_found _ _ _ _ Hc). reflexivity.
Qed.

(** C2. When the reply envelope has an [error] key, [call_tool] raises the
    exception whose message interpolates the value under that key,
    unchanged, and returns nothing. *)
Theorem call_tool_error_raises tool_name arguments s d payload t s' :
  receives s (tool_request tool_name arguments) (VDict d) t s' ->
  dict_lookup (str "error") d = Some payload ->
  call_tool tool_name arguments s
    = Done t (Raise (Exception [Lit "Tool error: "; Val payload])) s' /\
  carried (Exception [Lit "Tool error: "; Val payload]) = [payload] /\
  (forall v s2 t2, call_tool tool_name arguments s <> Done t2 (Ok v) s2).
Proof.
  intros Hrecv He.
  assert (Hcall : call_tool tool_name arguments s
                  = Done t (Raise (Exception [Lit "Tool error: "; Val payload])) s').
  { rewrite (call_tool_receives Hrecv).
    unfold unwrap, py_in, py_getitem, dict_contains. rewrite He. reflexivity. }
  split; [exact Hcall|]. split; [reflexivity|].
  intros v s2 t2 H. rewrite Hcall in H. discriminate H.
Qed.

(** *** Initialisation of the RPC client *)

Lemma start_spawned exec s p :
  exec (server_path s) = Ok p ->
  start exec s =
  bind (_send_message initialize_request)
    (fun _ => bind _read_message (fun response =>
       lift (match py_get response (str "result") VNone with
             | Raise e => Raise e
             | Ok result =>
                 if truthy result then Ok tt
                 else Raise (Exception [Lit "Failed to initialize: "; Val response])
             end)))
    (mkSelf (server_path s) (Some p)).
Proof.
  intros H. unfold start. rewrite H. unfold bind, lift, raise, ret.
  destruct (_send_message initialize_request _) as [t [[]|e] s1|s1]; try reflexivity.
  destruct (_read_message s1) as [t' [response|e] s2|s2]; try reflexivity.
  destruct (py_get response (str "result") VNone) as [result|e]; simpl;
    [destruct (truthy result)|]; reflexivity.
Qed.

(** C5. Once the child is spawned, [start] succeeds exactly when the one
    reply envelope it reads has a truthy (for a dict: non-empty) [result];
    otherwise it raises the exception that carries the whole reply; and a
    failure to spawn, to send or to read comes out of [start] as it is. *)
Theorem start_succeeds_iff_result exec s :
  (forall e, exec (server_path s) = Raise e -> start exec s = Done 0 (Raise e) s) /\
  (forall p, exec (server_path s) = Ok p ->
     let s0 := mkSelf (server_path s) (Some p) in
     (forall d t s', receives s0 initialize_request (VDict d) t s' ->
        let result := match dict_lookup (str "result") d with
                      | Some v => v
                      | None => VNone
                      end in
        start exec s
          = Done t (if truthy result then Ok tt
                    else Raise (Exception [Lit "Failed to initialize: ";
                                           Val (VDict d)])) s' /\
        ((exists t' s'', start exec s = Done t' (Ok tt) s'') <-> truthy result = true) /\
        (forall r, result = VDict r -> (truthy result = true <-> r <> []))) /\
     (forall t e s1, _send_message initialize_request s0 = Done t (Raise e) s1 ->
        start exec s = Done t (Raise e) s1) /\
     (forall s1 t e s2,
        _send_message initialize_request s0 = Done 0 (Ok tt) s1 ->
        _read_message s1 = Done t (Raise e) s2 ->
        start exec s = Done t (Raise e) s2)).
Proof.
  split.
  - intros e H. unfold start. rewrite H. reflexivity.
  - intros p Hp s0. rewrite (start_spawned _ _ Hp). fold s0. split; [|split].
    + intros d t s' (s1 & Hs & Hr) result.
      assert (Hstart :
        bind (_send_message initialize_request)
          (fun _ => bind _read_message (fun response =>
             lift (match py_get response (str "result") VNone with
                   | Raise e => Raise e
                   | Ok result =>
                       if truthy result then Ok tt
                       else Raise (Exception [Lit "Failed to initialize: "; Val response])
                   end))) s0
        = Done t (if truthy result then Ok tt
                  else Raise (Exception [Lit "Failed to initialize: "; Val (VDict d)])) s').
      { rewrite (bind_ok _ _ _ Hs), (bind_ok _ _ _ Hr). unfold lift. simpl.
        fold result. f_equal; lia. }
      split; [exact Hstart|]. split.
      * rewrite Hstart. split.
        -- intros (t' & s'' & H). destruct (truthy result); [reflexivity|discriminate H].
        -- intros H. rewrite H. eauto.
      * intros r Hr'. rewrite Hr'. simpl. destruct r; split; congruence.
    + intros t e s1 Hs. apply (bind_raise _ _ _ Hs).
    + intros s1 t e s2 Hs Hr. rewrite (bind_ok _ _ _ Hs), (bind_raise _ _ _ Hr).
      reflexivity.
Qed.

(** *** Decoding the payload *)

Lemma str_eqb_empty (x : pystr) : str_eqb x (str EmptyString) = true <-> x = [].
Proof. destruct x; simpl; split; congruence. Qed.



(** *** The blocking facade *)

(** C3 (as the code has it). [initialize] never raises: it returns [True]
    when the facade is already initialised or [start] finishes without an
    exception within 10 time units, and [False] for every failure of
    [start], the timeout included; the flag [initialized] ends equal to
    the result. *)
Theorem initialize_never_raises exec dir (s : RedditSyncClient.self) :
  exists b s',
    RedditSyncClient.initialize exec dir s = (Ok b, s') /\
    RedditSyncClient.initialized s' = b /\
    (b = true <->
     RedditSyncClient.initialized s = true \/
     exists c',
       future_result 10
         (start exec (__init__ (RedditSyncClient.path_join dir (str "server.py"))))
       = (Ok tt, c')).
Proof.
  unfold RedditSyncClient.initialize.
  destruct (RedditSyncClient.initialized s) eqn:Ei.
  - exists true, s. split; [reflexivity|]. split; [exact Ei|]. split; auto.
  - destruct (future_result 10 _) as [[[]|e] c'] eqn:Ef.
    + eexists _, _. split; [reflexivity|]. split; [reflexivity|].
      split; [intros _; right; eauto|reflexivity].
    + eexists _, _. split; [reflexivity|]. split; [reflexivity|].
      split; [discriminate|]. intros [H|[c'' H]]; discriminate H.
Qed.

(** The guard of [_run_async] on a facade that has a client object. *)
Lemma delegate_guard {A} (s : RedditSyncClient.self) c (m : coro A) :
  RedditSyncClient.client s = Some c ->
  RedditSyncClient.initialized s = false ->
  RedditSyncClient.delegate s m
  = (Raise (Exception [Lit "Client not initialized. Call initialize() first."]), s).
Proof.
  intros Hc Hi. unfold RedditSyncClient.delegate, RedditSyncClient._run_async.
  rewrite Hc, Hi. reflexivity.
Qed.

(** A tool call on a client whose process was never started. *)
Lemma call_tool_not_started tool_name arguments s :
  process s = None ->
  call_tool tool_name arguments s
  = Done 0 (Raise (Exception [Lit "Server not started"])) s.
Proof.
  intros H. unfold call_tool, bind, _send_message. rewrite H. reflexivity.
Qed.

(** C8. On a facade that was never initialised every delegated operation
    fails before the guard of [_run_async] is reached: [self.client] is
    still [None] and the method lookup on it raises [AttributeError]. *)
Theorem delegated_before_initialize_raise_AttributeError
    (a b c d : value) :
  let s := RedditSyncClient.__init__ in
  RedditSyncClient.fetch_posts s a b = (Raise (Builtin AttributeError), s) /\
  RedditSyncClient.search_posts s a b c = (Raise (Builtin AttributeError), s) /\
  RedditSyncClient.get_comments s a = (Raise (Builtin AttributeError), s) /\
  RedditSyncClient.get_subreddit_info s a = (Raise (Builtin AttributeError), s) /\
  RedditSyncClient.post_comment s a b = (Raise (Builtin AttributeError), s) /\
  RedditSyncClient.post_to_subreddit s a b c d = (Raise (Builtin AttributeError), s).
Proof. repeat split. Qed.

(** *** Reading one envelope *)

Lemma readline_empty p t p' :
  readline p = Done t (Ok []) p' -> stdout_pending p = [] /\ stdout_eof p = true.
Proof.
  unfold readline. destruct (split_line (stdout_pending p)) as [[line rest]|] eqn:E.
  - destruct (N.of_nat (List.length line - 1) <=? _DEFAULT_LIMIT)%N; [|discriminate].
    intros H. injection H as _ Hl _. subst line.
    exfalso. clear - E. revert rest E.
    induction (stdout_pending p) as [|b bs IH]; simpl; intros rest E; [discriminate|].
    destruct (Byte.eqb b x0a); [discriminate|].
    destruct (split_line bs) as [[l r]|]; discriminate.
  - destruct (_DEFAULT_LIMIT <? N.of_nat (List.length (stdout_pending p)))%N;
      [discriminate|].
    destruct (stdout_eof p); [|discriminate].
    intros H. injection H as _ Hl _. auto.
Qed.


(** *** What goes out on the wire *)

Lemma send_message_ok message s p data :
  process s = Some p -> stdin_closed p = false ->
  encode (wire_line message) = Ok data ->
  _send_message message s
  = Done 0 (Ok tt)
      (mkSelf (server_path s)
         (Some (mkSubprocess (stdin_log p ++ data) false (stdout_pending p)
                  (stdout_eof p) (latency p)))).
Proof.
  intros Hp Hc He. unfold _send_message. rewrite Hp.
  change (json_dumps message ++ str (String "010" EmptyString))
    with (wire_line message).
  rewrite He. unfold write_drain. rewrite Hc. reflexivity.
Qed.

Lemma read_message_sent s : sent (final (_read_message s)) = sent s.
Proof.
  unfold _read_message, sent. destruct (process s) as [p|] eqn:Hp; simpl;
    [|rewrite Hp; reflexivity].
  unfold readline.
  destruct (split_line (stdout_pending p)) as [[line rest]|].
  - destruct (N.of_nat (List.length line - 1) <=? _DEFAULT_LIMIT)%N; [|reflexivity].
    destruct line; [reflexivity|]. destruct (decode _); reflexivity.
  - destruct (_DEFAULT_LIMIT <? N.of_nat (List.length (stdout_pending p)))%N;
      [reflexivity|].
    destruct (stdout_eof p); [|simpl; reflexivity].
    destruct (stdout_pending p); [reflexivity|]. destruct (decode _); reflexivity.
Qed.

Lemma final_bind_lift {A B} (m : coro A) (g : A -> res B) s :
  final (bind m (fun a => lift (g a)) s) = final (m s).
Proof. unfold bind, lift. destruct (m s) as [t [a|e] s'|s']; reflexivity. Qed.

Lemma call_tool_unwrap tool_name arguments s :
  call_tool tool_name arguments s =
  bind (_send_message (tool_request tool_name arguments))
    (fun _ => bind _read_message (fun response => lift (unwrap response))) s.
Proof.
  unfold call_tool, bind.
  destruct (_send_message _ s) as [t [[]|e] s1|s1]; try reflexivity.
  destruct (_read_message s1) as [t' [response|e] s2|s2]; try reflexivity.
  unfold unwrap, lift, raise.
  destruct (py_in (str "error") response) as [[|]|e]; simpl; try reflexivity.
  - destruct (py_getitem response (str "error")); reflexivity.
  - destruct (py_get response (str "result") (VDict [])) as [result|]; simpl;
      [|reflexivity].
    destruct (py_get result (str "content") (VList [VDict []])) as [content|];
      simpl; [|reflexivity].
    destruct (py_item0 content) as [first|]; simpl; [|reflexivity].
    destruct (py_get first (str "text") (VStr (str EmptyString))); reflexivity.
Qed.

(** The one line a tool call writes. *)
Lemma call_tool_sent tool_name arguments s p data :
  process s = Some p -> stdin_closed p = false ->
  encode (wire_line (tool_request tool_name arguments)) = Ok data ->
  sent (final (call_tool tool_name arguments s)) = stdin_log p ++ data.
Proof.
  intros Hp Hc He. rewrite call_tool_unwrap.
  rewrite (bind_ok _ _ _ (send_message_ok _ _ Hp Hc He)).
  match goal with
  | |- sent (final (match ?o with _ => _ end)) = _ =>
      assert (H : sent (final o) = stdin_log p ++ data)
  end.
  { rewrite final_bind_lift, read_message_sent. reflexivity. }
  destruct (bind _read_message _ _); exact H.
Qed.

Lemma start_sent exec s p data :
  exec (server_path s) = Ok p -> stdin_closed p = false ->
  encode (wire_line initialize_request) = Ok data ->
  sent (final (start exec s)) = stdin_log p ++ data.
Proof.
  intros Hp Hc He. rewrite (start_spawned _ _ Hp).
  assert (Hp' : process (mkSelf (server_path s) (Some p)) = Some p) by reflexivity.
  rewrite (bind_ok _ _ _ (send_message_ok _ _ Hp' Hc He)).
  match goal with
  | |- sent (final (match ?o with _ => _ end)) = _ =>
      assert (H : sent (final o) = stdin_log p ++ data)
  end.
  { rewrite final_bind_lift, read_message_sent. reflexivity. }
  destruct (bind _read_message _ _); exact H.
Qed.

(** C9. The request of [start] has id 1 and the request of [call_tool]
    has id 2, whatever the tool, its arguments and the state of the client
    (so whatever was sent before); and these requests are what is written:
    each call appends to the child's input the one line of its request,
    which starts with the same text up to the id. *)
Theorem request_ids_fixed exec s tool_name arguments :
  py_get initialize_request (str "id") VNone = Ok (VInt 1) /\
  py_get (tool_request tool_name arguments) (str "id") VNone = Ok (VInt 2) /\
  (exists rest, wire_line initialize_request
                = str ("{" ++ dq ++ "jsonrpc" ++ dq ++ ": " ++ dq ++ "2.0" ++ dq
                       ++ ", " ++ dq ++ "id" ++ dq ++ ": 1, ") ++ rest) /\
  (exists rest, wire_line (tool_request tool_name arguments)
                = str ("{" ++ dq ++ "jsonrpc" ++ dq ++ ": " ++ dq ++ "2.0" ++ dq
                       ++ ", " ++ dq ++ "id" ++ dq ++ ": 2, ") ++ rest) /\
  (forall p data,
     exec (server_path s) = Ok p -> stdin_closed p = false ->
     encode (wire_line initialize_request) = Ok data ->
     sent (final (start exec s)) = stdin_log p ++ data) /\
  (forall p data,
     process s = Some p -> stdin_closed p = false ->
     encode (wire_line (tool_request tool_name arguments)) = Ok data ->
     sent (final (call_tool tool_name arguments s)) = stdin_log p ++ data).
Proof.
  split; [reflexivity|]. split; [reflexivity|].
  split; [eexists; reflexivity|]. split; [eexists; reflexivity|].
  split.
  - intros p data. apply start_sent.
  - intros p data. apply call_tool_sent.
Qed.

(** C10. [post_to_subreddit] puts [content] and [url] among the
    arguments of its tool call only when they are truthy: the keys of the
    arguments are [subreddit], [title], then [content] and [url] each if
    truthy; [None] and the empty string give the same arguments, which for
    a call with a title only are exactly [subreddit] and [title]; the
    facade hands [content] and [url] over unchanged, and the line written
    to the child is the request with these arguments. *)
Theorem post_args_truthy_only subreddit title content url :
  dict_lookup (str "content") (post_args subreddit title content url)
    = (if truthy content then Some content else None) /\
  dict_lookup (str "url") (post_args subreddit title content url)
    = (if truthy url then Some url else None) /\
  dict_keys (post_args subreddit title content url)
    = [str "subreddit"; str "title"]
      ++ (if truthy content then [str "content"] else [])
      ++ (if truthy url then [str "url"] else []) /\
  post_args subreddit title VNone url
    = post_args subreddit title (VStr (str EmptyString)) url /\
  post_args subreddit title content VNone
    = post_args subreddit title content (VStr (str EmptyString)) /\
  post_args subreddit title VNone VNone
    = [(str "subreddit", subreddit); (str "title", title)] /\
  (forall fs,
     RedditSyncClient.post_to_subreddit fs subreddit title content url
     = RedditSyncClient.delegate fs
         (post_to_subreddit subreddit title content url)) /\
  (forall s p data,
     process s = Some p -> stdin_closed p = false ->
     encode (wire_line (tool_request (str "postToSubreddit")
                          (VDict (post_args subreddit title content url))))
       = Ok data ->
     sent (final (post_to_subreddit subreddit title content url s))
     = stdin_log p ++ data).
Proof.
  unfold post_args.
  repeat split; try (destruct (truthy content), (truthy url); reflexivity).
  intros s p data Hp Hc He. unfold post_to_subreddit.
  rewrite final_bind_lift. apply (call_tool_sent _ _ _ Hp Hc He).
Qed.

(** *** Round trip of the serializer *)

Local Open Scope N_scope.

Ltac booleans :=
  repeat match goal with
    | |- context [?a <=? ?b] => destruct (N.leb_spec a b)
    | |- context [?a <? ?b] => destruct (N.ltb_spec a b)
    | |- context [?a =? ?b] => destruct (N.eqb_spec a b)
    end;
  cbn [andb orb negb]; try lia; try reflexivity.

Ltac booleans_in H :=
  repeat match type of H with
    | context [?a <=? ?b] => destruct (N.leb_spec a b)
    | context [?a <? ?b] => destruct (N.ltb_spec a b)
    | context [?a =? ?b] => destruct (N.eqb_spec a b)
    end;
  cbn [andb orb negb] in H; try discriminate H; try lia.

Lemma hexval_hexdigit d : d < 16 -> hexval (hexdigit d) = Some d.
Proof.
  intros H. unfold hexdigit, hexval.
  destruct (N.ltb_spec d 10).
  - booleans. f_equal. lia.
  - booleans. f_equal. lia.
Qed.

Lemma decode_hex4 n a b c d :
  n < 65536 -> hex4 n = [a; b; c; d] -> decode_uXXXX a b c d = Some n.
Proof.
  intros Hn H. unfold hex4 in H. injection H as <- <- <- <-.
  unfold decode_uXXXX.
  rewrite !hexval_hexdigit by (apply N.mod_lt; lia).
  f_equal.
  pose proof (N.div_mod n 16 ltac:(lia)).
  pose proof (N.div_mod (n / 16) 16 ltac:(lia)).
  pose proof (N.div_mod (n / 16 / 16) 16 ltac:(lia)).
  assert (n / 16 / 16 / 16 < 16).
  { apply N.Div0.div_lt_upper_bound. apply N.Div0.div_lt_upper_bound.
    apply N.Div0.div_lt_upper_bound. lia. }
  replace (n / 4096) with (n / 16 / 16 / 16)
    by (rewrite !N.Div0.div_div; reflexivity).
  replace (n / 256) with (n / 16 / 16) by (rewrite !N.Div0.div_div; reflexivity).
  rewrite (N.mod_small (n / 16 / 16 / 16) 16) by assumption.
  lia.
Qed.

Lemma land_shifted a b k : b < 2 ^ k -> N.land (a * 2 ^ k) b = 0.
Proof.
  intros Hb. apply N.bits_inj. intros i. rewrite N.land_spec, N.bits_0.
  destruct (N.lt_ge_cases i k) as [Hi|Hi].
  - rewrite N.mul_pow2_bits_low by assumption. reflexivity.
  - rewrite <- (N.mod_small b (2 ^ k)) by assumption.
    rewrite N.mod_pow2_bits_high by assumption. apply andb_false_r.
Qed.

Lemma lor_shifted a b k : b < 2 ^ k -> N.lor (a * 2 ^ k) b = a * 2 ^ k + b.
Proof.
  intros Hb. pose proof (@land_shifted a b k Hb) as H.
  rewrite (N.add_nocarry_lxor _ _ H). symmetry. apply N.lxor_lor. exact H.
Qed.

Lemma surrogate_pair c :
  0x10000 <= c -> c < 0x110000 ->
  let n := c - 0x10000 in
  let s1 := N.lor 0xd800 (N.land (N.shiftr n 10) 0x3ff) in
  let s2 := N.lor 0xdc00 (N.land n 0x3ff) in
  s1 < 65536 /\ s2 < 65536 /\
  is_high_surrogate s1 = true /\ is_low_surrogate s2 = true /\
  join_surrogates s1 s2 = c.
Proof.
  intros Hlo Hhi n s1 s2.
  assert (Hn : n < 1048576) by (unfold n; lia).
  assert (Hc : c = n + 65536) by (unfold n; lia).
  clearbody n.
  assert (Hq : n / 1024 < 1024) by (apply N.Div0.div_lt_upper_bound; lia).
  assert (Hr : n mod 1024 < 1024) by (apply N.mod_lt; lia).
  assert (E1 : s1 = 0xd800 + n / 1024).
  { unfold s1. change 0x3ff with (N.ones 10). rewrite N.land_ones, N.shiftr_div_pow2.
    change (2 ^ 10) with 1024. rewrite (N.mod_small _ _ Hq).
    change 0xd800 with (54 * 2 ^ 10). apply lor_shifted. exact Hq. }
  assert (E2 : s2 = 0xdc00 + n mod 1024).
  { unfold s2. change 0x3ff with (N.ones 10). rewrite N.land_ones.
    change (2 ^ 10) with 1024.
    change 0xdc00 with (55 * 2 ^ 10). apply lor_shifted. exact Hr. }
  clearbody s1 s2. subst s1 s2.
  pose proof (N.div_mod n 1024 ltac:(lia)) as Hdm.
  remember (n / 1024) as q. remember (n mod 1024) as r.
  unfold is_high_surrogate, is_low_surrogate, join_surrogates.
  repeat split; try lia.
  - apply andb_true_intro; split; apply N.leb_le; lia.
  - apply andb_true_intro; split; apply N.leb_le; lia.
  - replace (0xd800 + q - 0xd800) with q by lia.
    replace (0xdc00 + r - 0xdc00) with r by lia.
    rewrite N.shiftl_mul_pow2. rewrite lor_shifted by exact Hr.
    change (2 ^ 10) with 1024. lia.
Qed.


Lemma scanstring_plain c X :
  c <> 34 -> c <> 92 -> 32 <= c ->
  scanstring (c :: X) = cons_char c (scanstring X).
Proof.
  intros H1 H2 H3. cbn [scanstring].
  destruct (N.eqb_spec c 34); [contradiction|].
  destruct (N.eqb_spec c 92); [contradiction|].
  destruct (N.ltb_spec c 32); [lia|]. reflexivity.
Qed.

Lemma scanstring_u a b c d u X :
  decode_uXXXX a b c d = Some u -> is_high_surrogate u = false ->
  scanstring (92 :: 117 :: a :: b :: c :: d :: X) = cons_char u (scanstring X).
Proof.
  intros H1 H2. cbn [scanstring]. change (92 =? 34) with false.
  change (92 =? 92) with true. change (117 =? 117) with true. cbv iota.
  rewrite H1, H2. reflexivity.
Qed.

Lemma scanstring_pair a b c d u a2 b2 c2 d2 u2 X :
  decode_uXXXX a b c d = Some u -> is_high_surrogate u = true ->
  decode_uXXXX a2 b2 c2 d2 = Some u2 -> is_low_surrogate u2 = true ->
  scanstring (92 :: 117 :: a :: b :: c :: d :: 92 :: 117 :: a2 :: b2 :: c2 :: d2 :: X)
  = cons_char (join_surrogates u u2) (scanstring X).
Proof.
  intros H1 H2 H3 H4. cbn [scanstring]. change (92 =? 34) with false.
  change (92 =? 92) with true. change (117 =? 117) with true. cbv iota.
  rewrite H1, H2. cbn [andb]. cbv iota. rewrite H3, H4. reflexivity.
Qed.

Lemma scan_escape c X :
  scalar c = true -> scanstring (escape_char c ++ X) = cons_char c (scanstring X).
Proof.
  intros Hc. unfold scalar, is_surrogate in Hc. unfold escape_char.
  destruct (N.eqb_spec c 34); [subst; reflexivity|].
  destruct (N.eqb_spec c 92); [subst; reflexivity|].
  destruct (N.eqb_spec c 10); [subst; reflexivity|].
  destruct (N.eqb_spec c 13); [subst; reflexivity|].
  destruct (N.eqb_spec c 9); [subst; reflexivity|].
  destruct (N.eqb_spec c 8); [subst; reflexivity|].
  destruct (N.eqb_spec c 12); [subst; reflexivity|].
  destruct ((32 <=? c) && (c <=? 126)) eqn:Ep.
  - apply andb_prop in Ep. destruct Ep as [E1 E2]. apply N.leb_le in E1.
    apply scanstring_plain; assumption.
  - destruct (N.ltb_spec c 0x10000) as [Hlt|Hge].
    + unfold hex4. cbn [app].
      apply scanstring_u.
      * apply decode_hex4 with (n := c); [exact Hlt|reflexivity].
      * unfold is_high_surrogate. booleans_in Hc. booleans.
    + pose proof (@surrogate_pair c Hge) as Hp.
      assert (Hhi : c < 0x110000) by (booleans_in Hc).
      specialize (Hp Hhi). cbv zeta in Hp.
      destruct Hp as (B1 & B2 & Hh & Hl & Hj).
      cbv zeta. rewrite <- app_assoc.
      set (s1 := N.lor 0xd800 (N.land (N.shiftr (c - 0x10000) 10) 0x3ff)) in *.
      set (s2 := N.lor 0xdc00 (N.land (c - 0x10000) 0x3ff)) in *.
      clearbody s1 s2. unfold hex4. cbn [app].
      rewrite (@scanstring_pair _ _ _ _ s1 _ _ _ _ s2 X); auto.
      * rewrite Hj. reflexivity.
      * apply decode_hex4 with (n := s1); [exact B1|reflexivity].
      * apply decode_hex4 with (n := s2); [exact B2|reflexivity].
Qed.

Lemma scanstring_escaped s rest :
  text_ok s = true ->
  scanstring (flat_map escape_char s ++ 34 :: rest) = Some (s, rest).
Proof.
  induction s as [|c s IH]; intros H.
  - reflexivity.
  - cbn [text_ok forallb] in H. apply andb_prop in H. destruct H as [Hc Hs].
    cbn [flat_map]. rewrite <- app_assoc. rewrite (@scan_escape c _ Hc).
    rewrite (IH Hs). reflexivity.
Qed.

Lemma digits_value_snoc ds x :
  digits_value (ds ++ [x]) = 10 * digits_value ds + (x - 48).
Proof. unfold digits_value. rewrite fold_left_app. reflexivity. Qed.

Lemma digits_aux_S f n acc :
  digits_aux (S f) n acc
  = if n <? 10 then (48 + n mod 10) :: acc
    else digits_aux f (n / 10) ((48 + n mod 10) :: acc).
Proof. reflexivity. Qed.

Lemma digits_aux_spec f : forall n acc,
  n < 2 ^ N.of_nat (S f) ->
  exists d ds,
    digits_aux (S f) n acc = (d :: ds) ++ acc /\
    forallb is_digit (d :: ds) = true /\
    digits_value (d :: ds) = n /\
    (d = 48 -> ds = []).
Proof.
  induction f as [|f IH]; intros n acc Hn.
  - assert (n < 10) by (change (2 ^ N.of_nat 1) with 2 in Hn; lia).
    rewrite digits_aux_S. destruct (N.ltb_spec n 10); [|lia].
    rewrite N.mod_small by assumption.
    exists (48 + n), []. repeat split.
    + cbn [forallb]. unfold is_digit. booleans.
    + unfold digits_value. cbn [fold_left]. lia.
  - rewrite digits_aux_S.
    destruct (N.ltb_spec n 10) as [Hlt|Hge].
    + rewrite N.mod_small by assumption.
      exists (48 + n), []. repeat split.
      * cbn [forallb]. unfold is_digit. booleans.
      * unfold digits_value. cbn [fold_left]. lia.
    + pose proof (N.div_mod n 10 ltac:(lia)) as Hdm.
      pose proof (N.mod_lt n 10 ltac:(lia)) as Hr.
      remember (n / 10) as q. remember (n mod 10) as r.
      assert (Hq : q < 2 ^ N.of_nat (S f)).
      { rewrite (Nat2N.inj_succ (S f)), N.pow_succ_r' in Hn. lia. }
      destruct (IH q ((48 + r) :: acc) Hq) as (d & ds & E & Hd & Hv & H0).
      exists d, (ds ++ [48 + r]). split; [|split; [|split]].
      * rewrite E. cbn [app]. rewrite <- app_assoc. reflexivity.
      * change (d :: ds ++ [48 + r]) with ((d :: ds) ++ [48 + r]).
        rewrite forallb_app, Hd. cbn [forallb]. unfold is_digit. booleans.
      * change (d :: ds ++ [48 + r]) with ((d :: ds) ++ [48 + r]).
        rewrite digits_value_snoc, Hv. lia.
      * intros ->. specialize (H0 eq_refl). subst ds.
        unfold digits_value in Hv. cbn [fold_left] in Hv. lia.
Qed.

Lemma digits_spec n :
  exists d ds,
    digits n = d :: ds /\ forallb is_digit (d :: ds) = true /\
    digits_value (d :: ds) = n /\ (d = 48 -> ds = []).
Proof.
  unfold digits.
  destruct (@digits_aux_spec (N.to_nat (N.log2 n)) n []) as (d & ds & E & H).
  - rewrite Nat2N.inj_succ, N2Nat.id.
    destruct (N.eq_dec n 0) as [->|Hn]; [reflexivity|].
    apply N.log2_spec. lia.
  - exists d, ds. rewrite E, app_nil_r. auto.
Qed.

Lemma span_digits_app ds rest :
  forallb is_digit ds = true ->
  match rest with [] => True | c :: _ => is_digit c = false end ->
  span_digits (ds ++ rest) = (ds, rest).
Proof.
  intros Hd Hr. induction ds as [|c ds IH].
  - cbn [app]. destruct rest as [|c rest]; [reflexivity|].
    cbn [span_digits]. rewrite Hr. reflexivity.
  - cbn [forallb] in Hd. apply andb_prop in Hd. destruct Hd as [Hc Hd].
    cbn [app span_digits]. rewrite Hc, (IH Hd). reflexivity.
Qed.

Lemma delimited_not_digit rest :
  delimited rest = true ->
  match rest with [] => True | c :: _ => is_digit c = false end.
Proof.
  destruct rest as [|c rest]; [trivial|]. unfold delimited, is_digit.
  intros H. booleans_in H; booleans.
Qed.

Lemma match_frac_delimited rest : delimited rest = true -> match_frac rest = None.
Proof.
  destruct rest as [|c rest]; [reflexivity|]. unfold delimited, match_frac.
  intros H. booleans_in H; booleans.
Qed.

Lemma match_exp_delimited rest : delimited rest = true -> match_exp rest = None.
Proof.
  destruct rest as [|c rest]; [reflexivity|]. unfold delimited, match_exp.
  intros H. booleans_in H; booleans.
Qed.

Lemma match_number_int z rest :
  delimited rest = true ->
  match_number (int_repr z ++ rest) = Some (VInt z, rest).
Proof.
  intros Hr. unfold int_repr.
  destruct (Z.ltb_spec z 0) as [Hz|Hz].
  - destruct (digits_spec (Z.to_N (- z))) as (d & ds & E & Hd & Hv & H0).
    rewrite E. unfold match_number, match_integer. cbn [app].
    change (45 =? 45) with true. cbv iota.
    pose proof Hd as Hd'. cbn [forallb] in Hd'. apply andb_prop in Hd'.
    destruct Hd' as [Hc Hds].
    destruct (N.eqb_spec d 48) as [->|Hne].
    + rewrite (H0 eq_refl) in *. cbn [app].
      rewrite (match_frac_delimited _ Hr), (match_exp_delimited _ Hr). cbn [app].
      unfold int_of_literal. change (45 =? 45) with true. cbv iota.
      rewrite Hv. do 2 f_equal. f_equal. lia.
    + rewrite Hc. rewrite (span_digits_app _ _ Hds (delimited_not_digit _ Hr)).
      rewrite (match_frac_delimited _ Hr), (match_exp_delimited _ Hr). cbn [app].
      unfold int_of_literal. change (45 =? 45) with true. cbv iota.
      rewrite Hv. do 2 f_equal. f_equal. lia.
  - destruct (digits_spec (Z.to_N z)) as (d & ds & E & Hd & Hv & H0).
    rewrite E. unfold match_number, match_integer. cbn [app].
    pose proof Hd as Hd'. cbn [forallb] in Hd'. apply andb_prop in Hd'.
    destruct Hd' as [Hc Hds].
    assert (H45 : (d =? 45) = false).
    { unfold is_digit in Hc. booleans_in Hc; booleans. }
    rewrite H45.
    destruct (N.eqb_spec d 48) as [->|Hne].
    + rewrite (H0 eq_refl) in *. cbn [app].
      rewrite (match_frac_delimited _ Hr), (match_exp_delimited _ Hr). cbn [app].
      unfold int_of_literal. change (48 =? 45) with false. cbv iota.
      rewrite Hv. do 2 f_equal. f_equal. lia.
    + rewrite Hc. rewrite (span_digits_app _ _ Hds (delimited_not_digit _ Hr)).
      rewrite (match_frac_delimited _ Hr), (match_exp_delimited _ Hr). cbn [app].
      unfold int_of_literal. rewrite H45. rewrite Hv. do 2 f_equal. f_equal. lia.
Qed.

(** Leaves. *)
Lemma scan_once_string f r t r' :
  scanstring r = Some (t, r') -> scan_once (S f) (34 :: r) = Some (VStr t, r').
Proof. intros H. cbn [scan_once]. change (34 =? 34) with true. cbv iota. rewrite H. reflexivity. Qed.

Lemma scan_once_object f r : scan_once (S f) (123 :: r) = JSONObject (scan_once f) f r.
Proof. reflexivity. Qed.

Lemma scan_once_array f r : scan_once (S f) (91 :: r) = JSONArray (scan_once f) f r.
Proof. reflexivity. Qed.

Lemma scan_once_null f rest : scan_once (S f) (str "null" ++ rest) = Some (VNone, rest).
Proof. reflexivity. Qed.

Lemma scan_once_true f rest : scan_once (S f) (str "true" ++ rest) = Some (VBool true, rest).
Proof. reflexivity. Qed.

Lemma scan_once_false f rest : scan_once (S f) (str "false" ++ rest) = Some (VBool false, rest).
Proof. reflexivity. Qed.

Lemma scan_once_number f c r v r' :
  is_digit c || (c =? 45) = true ->
  match_number (c :: r) = Some (v, r') ->
  scan_once (S f) (c :: r) = Some (v, r').
Proof.
  intros Hc Hm. cbn [scan_once].
  change (str "null") with [110; 117; 108; 108].
  change (str "true") with [116; 114; 117; 101].
  change (str "false") with [102; 97; 108; 115; 101].
  cbn [after_prefix]. rewrite Hm.
  unfold is_digit in Hc.
  destruct (N.eqb_spec c 34); [subst; discriminate Hc|].
  destruct (N.eqb_spec c 123); [subst; discriminate Hc|].
  destruct (N.eqb_spec c 91); [subst; discriminate Hc|].
  destruct (N.eqb_spec 110 c); [subst; discriminate Hc|].
  destruct (N.eqb_spec 116 c); [subst; discriminate Hc|].
  destruct (N.eqb_spec 102 c); [subst; discriminate Hc|].
  reflexivity.
Qed.

Lemma int_repr_head z :
  exists c t, int_repr z = c :: t /\ is_digit c || (c =? 45) = true.
Proof.
  unfold int_repr. destruct (z <? 0)%Z.
  - exists 45, (digits (Z.to_N (- z))). split; reflexivity.
  - destruct (digits_spec (Z.to_N z)) as (d & ds & E & Hd & _).
    exists d, ds. split; [exact E|]. cbn [forallb] in Hd.
    apply andb_prop in Hd. destruct Hd as [Hd _]. rewrite Hd. reflexivity.
Qed.

Lemma scan_once_int f z rest :
  delimited rest = true ->
  scan_once (S f) (int_repr z ++ rest) = Some (VInt z, rest).
Proof.
  intros Hr. pose proof (match_number_int z _ Hr) as Hm.
  destruct (int_repr_head z) as (c & t & E & Hc). rewrite E in *.
  cbn [app] in *. apply scan_once_number; assumption.
Qed.

(** An envelope of the protocol is well formed. *)
Lemma valid_wellformed v : valid v = true -> wellformed v.
Proof.
  induction v as [|b|z|x|s|l IH|d IH] using value_ind; intros Hv.
  - constructor.
  - constructor.
  - constructor.
  - discriminate Hv.
  - constructor. exact Hv.
  - constructor. cbn [valid] in Hv. rewrite forallb_forall in Hv.
    rewrite Forall_forall in *. intros y Hy. apply IH; auto.
  - cbn [valid] in Hv. apply andb_prop in Hv. destruct Hv as [Hv Hd].
    constructor; [|exact Hd]. rewrite forallb_forall in Hv.
    rewrite Forall_forall in *. intros kv Hkv. specialize (Hv kv Hkv).
    apply andb_prop in Hv. destruct Hv as [Hk Hvv]. split; [exact Hk|].
    apply IH; auto.
Qed.

Lemma dumps_starts_wf v : wellformed v -> starts_value (json_dumps v).
Proof.
  unfold starts_value. destruct v as [|[|]|z|x|s|l|d]; cbn [json_dumps]; intros Hv.
  - exists 110, [117; 108; 108]. repeat split. discriminate.
  - exists 116, [114; 117; 101]. repeat split. discriminate.
  - exists 102, [97; 108; 115; 101]. repeat split. discriminate.
  - destruct (int_repr_head z) as (c & t & E & Hc). exists c, t.
    split; [exact E|]. unfold is_digit in Hc. unfold is_ws.
    split; [booleans_in Hc; booleans | intros ->; discriminate Hc].
  - inversion Hv as [| | |y Hy| | |]; subst. exact (proj1 (proj2 Hy)).
  - eexists _, _. split; [reflexivity|]. split; [reflexivity|discriminate].
  - eexists _, _. split; [reflexivity|]. split; [reflexivity|discriminate].
  - eexists _, _. split; [reflexivity|]. split; [reflexivity|discriminate].
Qed.

Lemma dumps_starts v : valid v = true -> starts_value (json_dumps v).
Proof. intros Hv. apply dumps_starts_wf, valid_wellformed, Hv. Qed.

Lemma skip_ws_starts s rest : starts_value s -> skip_ws (s ++ rest) = s ++ rest.
Proof.
  intros (c & t & -> & Hc & _). cbn [app skip_ws]. rewrite Hc. reflexivity.
Qed.

(** Dicts read back from their pairs. *)
Lemma str_eqb_eq a b : str_eqb a b = true <-> a = b.
Proof.
  revert b. induction a as [|x a IH]; intros [|y b]; cbn [str_eqb];
    try (split; [discriminate|discriminate]); try (split; reflexivity).
  rewrite andb_true_iff, N.eqb_eq, IH. split.
  - intros [-> ->]. reflexivity.
  - intros H. injection H as -> ->. auto.
Qed.

Lemma str_eqb_sym a b : str_eqb a b = str_eqb b a.
Proof.
  destruct (str_eqb a b) eqn:E1, (str_eqb b a) eqn:E2; try reflexivity.
  - apply str_eqb_eq in E1. subst. rewrite (proj2 (str_eqb_eq b b) eq_refl) in E2.
    discriminate.
  - apply str_eqb_eq in E2. subst. rewrite (proj2 (str_eqb_eq a a) eq_refl) in E1.
    discriminate.
Qed.

Lemma dict_set_fresh k (v : value) acc :
  existsb (str_eqb k) (map fst acc) = false -> dict_set k v acc = acc ++ [(k, v)].
Proof.
  induction acc as [|[k' v'] acc IH]; cbn [dict_set map fst existsb app]; intros H.
  - reflexivity.
  - apply orb_false_elim in H. destruct H as [H1 H2]. rewrite H1.
    rewrite (IH H2). reflexivity.
Qed.

Lemma fold_dict_set (d : dict) : forall acc,
  distinct (map fst d) = true ->
  (forall k, In k (map fst d) -> existsb (str_eqb k) (map fst acc) = false) ->
  fold_left (fun a kv => dict_set (fst kv) (snd kv) a) d acc = acc ++ d.
Proof.
  induction d as [|[k v] d IH]; intros acc Hd Hacc.
  - cbn. rewrite app_nil_r. reflexivity.
  - cbn [fold_left fst snd]. cbn [map fst distinct] in Hd.
    apply andb_prop in Hd. destruct Hd as [Hk Hd].
    rewrite dict_set_fresh by (apply Hacc; left; reflexivity).
    rewrite IH.
    + rewrite <- app_assoc. reflexivity.
    + exact Hd.
    + intros k' Hin. rewrite map_app, existsb_app.
      rewrite (Hacc k') by (right; exact Hin). cbn [map fst existsb orb].
      rewrite orb_false_r.
      apply negb_true_iff in Hk.
      destruct (str_eqb k' k) eqn:E; [|reflexivity].
      apply str_eqb_eq in E. subst k'.
      exfalso. clear - Hk Hin. induction (map fst d) as [|x l IHl]; [exact Hin|].
      cbn [existsb] in Hk. apply orb_false_elim in Hk. destruct Hk as [H1 H2].
      destruct Hin as [->|Hin]; [|auto].
      rewrite (proj2 (str_eqb_eq k k) eq_refl) in H1. discriminate.
Qed.

Lemma dict_of_pairs_distinct (d : dict) :
  distinct (map fst d) = true -> dict_of_pairs d = d.
Proof.
  intros H. unfold dict_of_pairs. rewrite fold_dict_set; auto.
Qed.

Lemma skip_ws_space s : skip_ws (32 :: s) = skip_ws s.
Proof. reflexivity. Qed.

(** Arrays. *)
Lemma join_cons2 sep p q ps :
  join sep (p :: q :: ps) = p ++ sep ++ join sep (q :: ps).
Proof. reflexivity. Qed.

Lemma join_starts sep p ps : starts_value p -> starts_value (join sep (p :: ps)).
Proof.
  intros (c & t & -> & H). destruct ps as [|q ps].
  - exists c, t. auto.
  - rewrite join_cons2. exists c, (t ++ sep ++ join sep (q :: ps)). auto.
Qed.

Lemma array_loop_dumps f l : forall x n rest,
  Forall (fun y => parses f y /\ starts_value (json_dumps y)) (x :: l) ->
  (List.length (x :: l) <= n)%nat ->
  array_loop (scan_once f) n
    (join (str ", ") (map json_dumps (x :: l)) ++ 93 :: rest)
  = Some (x :: l, rest).
Proof.
  induction l as [|y l IH]; intros x n rest HF Hn.
  - destruct n as [|n]; [cbn in Hn; lia|].
    inversion HF as [|? ? [Hx _] _]; subst.
    cbn [map join array_loop]. rewrite (Hx (93 :: rest) eq_refl).
    reflexivity.
  - destruct n as [|n]; [cbn in Hn; lia|].
    inversion HF as [|? ? [Hx _] HF']; subst.
    cbn [map]. rewrite join_cons2. change (str ", ") with [44; 32].
    rewrite <- !app_assoc. cbn [app array_loop].
    rewrite (Hx (44 :: 32 :: join [44; 32] (json_dumps y :: map json_dumps l) ++ 93 :: rest) eq_refl).
    cbn [skip_ws]. change (is_ws 44) with false. change (is_ws 32) with true.
    cbv iota. change (44 =? 93) with false. change (44 =? 44) with true. cbv iota.
    assert (Hy : starts_value (join [44; 32] (json_dumps y :: map json_dumps l))).
    { apply join_starts. inversion HF' as [|? ? [_ Hy] _]. exact Hy. }
    rewrite skip_ws_space.
    rewrite (skip_ws_starts _ Hy).
    change [44; 32] with (str ", "). change (json_dumps y :: map json_dumps l)
      with (map json_dumps (y :: l)).
    rewrite IH; [reflexivity|exact HF'|cbn [List.length] in *; lia].
Qed.

Lemma JSONArray_dumps f n l rest :
  Forall (fun y => parses f y /\ starts_value (json_dumps y)) l ->
  (List.length l <= n)%nat ->
  JSONArray (scan_once f) n (join (str ", ") (map json_dumps l) ++ 93 :: rest)
  = Some (VList l, rest).
Proof.
  intros HF Hn. destruct l as [|x l].
  - reflexivity.
  - unfold JSONArray.
    assert (Hs : starts_value (join (str ", ") (map json_dumps (x :: l)))).
    { apply join_starts. inversion HF as [|? ? [_ Hx] _]. exact Hx. }
    rewrite (skip_ws_starts _ Hs).
    pose proof (array_loop_dumps rest HF Hn) as Hloop.
    destruct Hs as (c & t & E & _ & Hc). rewrite E in *. cbn [app] in *.
    destruct (N.eqb_spec c 93); [contradiction|].
    rewrite Hloop. reflexivity.
Qed.

(** Objects. *)
Lemma member_eq kv T :
  member kv ++ T
  = 34 :: flat_map escape_char (fst kv) ++ 34 :: 58 :: 32 :: json_dumps (snd kv) ++ T.
Proof.
  unfold member, encode_basestring_ascii. change (str ": ") with [58; 32].
  cbn [app]. rewrite <- !app_assoc. reflexivity.
Qed.

Lemma object_loop_last scan n k (v : value) rest :
  text_ok k = true -> starts_value (json_dumps v) ->
  scan (json_dumps v ++ 125 :: rest) = Some (v, 125 :: rest) ->
  object_loop scan (S n)
    (flat_map escape_char k ++ 34 :: 58 :: 32 :: json_dumps v ++ 125 :: rest)
  = Some ([(k, v)], rest).
Proof.
  intros Hk Hs Hv. cbn [object_loop]. rewrite (@scanstring_escaped _ _ Hk).
  cbn [skip_ws]. change (is_ws 58) with false. cbv iota.
  change (58 =? 58) with true. cbv iota.
  rewrite skip_ws_space, (skip_ws_starts _ Hs), Hv. reflexivity.
Qed.

Lemma object_loop_more scan n k (v : value) T :
  text_ok k = true -> starts_value (json_dumps v) ->
  scan (json_dumps v ++ 44 :: 32 :: 34 :: T) = Some (v, 44 :: 32 :: 34 :: T) ->
  object_loop scan (S n)
    (flat_map escape_char k ++ 34 :: 58 :: 32 :: json_dumps v ++ 44 :: 32 :: 34 :: T)
  = match object_loop scan n T with
    | Some (ps, r) => Some ((k, v) :: ps, r)
    | None => None
    end.
Proof.
  intros Hk Hs Hv. cbn [object_loop]. rewrite (@scanstring_escaped _ _ Hk).
  cbn [skip_ws]. change (is_ws 58) with false. cbv iota.
  change (58 =? 58) with true. cbv iota.
  rewrite skip_ws_space, (skip_ws_starts _ Hs), Hv. reflexivity.
Qed.

Lemma members_start kv (d : dict) rest :
  exists T, join (str ", ") (map member (kv :: d)) ++ 125 :: rest = 34 :: T.
Proof.
  destruct d as [|kv' d].
  - cbn [map join]. rewrite member_eq. eauto.
  - cbn [map]. rewrite join_cons2, <- !app_assoc, member_eq. eauto.
Qed.

Lemma object_loop_dumps f d : forall kv n rest T,
  Forall (member_ok f) (kv :: d) ->
  (List.length (kv :: d) <= n)%nat ->
  join (str ", ") (map member (kv :: d)) ++ 125 :: rest = 34 :: T ->
  object_loop (scan_once f) n T = Some (kv :: d, rest).
Proof.
  induction d as [|kv' d IH]; intros [k v] n rest T HF Hn HT.
  - destruct n as [|n]; [cbn in Hn; lia|].
    inversion HF as [|? ? (Hk & Hv & Hs) _]; subst. cbn [fst snd] in *.
    cbn [map join] in HT. rewrite member_eq in HT. injection HT as <-.
    cbn [fst snd]. apply object_loop_last; auto.
  - destruct n as [|n]; [cbn in Hn; lia|].
    inversion HF as [|? ? (Hk & Hv & Hs) HF']; subst. cbn [fst snd] in *.
    destruct (members_start kv' d rest) as (T' & E).
    change (map member ((k, v) :: kv' :: d))
      with (member (k, v) :: map member (kv' :: d)) in HT.
    destruct (map member (kv' :: d)) as [|m ms] eqn:Em; [discriminate Em|].
    rewrite join_cons2 in HT. change (str ", ") with [44; 32] in HT, E.
    rewrite <- !app_assoc in HT. rewrite E in HT. rewrite member_eq in HT.
    change ([44; 32] ++ ?X) with (44 :: 32 :: X) in HT. injection HT as <-.
    cbn [fst snd].
    rewrite object_loop_more; auto.
    rewrite (IH kv' n rest T' HF'); [reflexivity|cbn [List.length] in *; lia|].
    rewrite Em. exact E.
Qed.

Lemma JSONObject_dumps f n (d : dict) rest :
  Forall (member_ok f) d ->
  (List.length d <= n)%nat ->
  distinct (map fst d) = true ->
  JSONObject (scan_once f) n (join (str ", ") (map member d) ++ 125 :: rest)
  = Some (VDict d, rest).
Proof.
  intros HF Hn Hd. destruct d as [|kv d].
  - reflexivity.
  - pose proof (members_start kv d rest) as E.
    destruct E as (T & E). rewrite E. unfold JSONObject.
    cbn [skip_ws]. change (is_ws 34) with false. cbv iota.
    change (34 =? 125) with false. change (34 =? 34) with true. cbv iota.
    rewrite (@object_loop_dumps f d kv n rest T HF Hn E).
    rewrite (dict_of_pairs_distinct _ Hd). reflexivity.
Qed.

(** The whole document. *)
Lemma weight_pos (v : value) : (1 <= weight v)%nat.
Proof. destruct v; cbn [weight]; lia. Qed.

Lemma list_sum_In {A} (w : A -> nat) x l :
  In x l -> (w x <= list_sum (map w l))%nat.
Proof.
  induction l as [|y l IH]; [intros []|]. intros [->|H]; simpl.
  - lia.
  - specialize (IH H). lia.
Qed.

Lemma list_sum_length {A} (w : A -> nat) l :
  (forall x, 1 <= w x)%nat -> (List.length l <= list_sum (map w l))%nat.
Proof.
  intros Hw. induction l as [|y l IH]; simpl; [lia|].
  specialize (Hw y). lia.
Qed.

Lemma scan_once_wf v :
  wellformed v -> forall f, (weight v <= f)%nat -> parses f v.
Proof.
  induction v as [|b|z|x|s|l IH|d IH] using value_ind;
    intros Hv f Hf rest Hr;
    (destruct f as [|f]; [cbn [weight] in Hf; lia|]).
  - apply scan_once_null.
  - destruct b; [apply scan_once_true|apply scan_once_false].
  - apply scan_once_int. exact Hr.
  - inversion Hv as [| | |y Hy| | |]; subst. cbn [json_dumps].
    apply (proj2 (proj2 Hy)). exact Hr.
  - inversion Hv as [| | | |t Ht| |]; subst.
    cbn [json_dumps]. unfold encode_basestring_ascii. cbn [app].
    rewrite <- app_assoc. apply scan_once_string. cbn [app].
    apply scanstring_escaped. exact Ht.
  - inversion Hv as [| | | | |l' Hl|]; subst.
    cbn [json_dumps app]. rewrite <- app_assoc. cbn [app].
    rewrite scan_once_array. cbn [weight] in Hf.
    apply JSONArray_dumps.
    + rewrite Forall_forall in *. intros y Hy.
      split; [|apply dumps_starts_wf; apply Hl, Hy].
      apply IH; [exact Hy|apply Hl, Hy|].
      pose proof (list_sum_In weight _ _ Hy). lia.
    + pose proof (list_sum_length weight l weight_pos). lia.
  - inversion Hv as [| | | | | |d' Hm Hd]; subst.
    cbn [json_dumps app]. rewrite <- app_assoc. cbn [app].
    rewrite scan_once_object. cbn [weight] in Hf.
    apply (@JSONObject_dumps f f d rest).
    + rewrite Forall_forall in *. intros kv Hkv.
      destruct (Hm kv Hkv) as [Hk Hvv].
      split; [exact Hk|]. split; [|apply dumps_starts_wf; exact Hvv].
      apply IH; [exact Hkv|exact Hvv|].
      pose proof (list_sum_In (fun kv => weight (snd kv)) _ _ Hkv). cbn beta in *. lia.
    + pose proof (list_sum_length (fun kv : pystr * value => weight (snd kv)) d
                    (fun kv => weight_pos (snd kv))). lia.
    + exact Hd.
Qed.

Lemma scan_once_dumps v :
  valid v = true -> forall f, (weight v <= f)%nat -> parses f v.
Proof. intros Hv. apply scan_once_wf, valid_wellformed, Hv. Qed.

(** The text is at least as long as the value is heavy. *)
Lemma join_length sep (w : pystr -> nat) parts :
  (forall p, w p <= List.length p)%nat ->
  (list_sum (map w parts) <= List.length (join sep parts))%nat.
Proof.
  intros Hw. induction parts as [|p ps IH]; [simpl; lia|].
  destruct ps as [|q ps].
  - simpl. specialize (Hw p). lia.
  - rewrite join_cons2. rewrite !length_app.
    change (list_sum (map w (p :: q :: ps)))
      with (w p + list_sum (map w (q :: ps)))%nat.
    specialize (Hw p). lia.
Qed.

Lemma list_sum_le {A} (w1 w2 : A -> nat) l :
  Forall (fun x => w1 x <= w2 x)%nat l ->
  (list_sum (map w1 l) <= list_sum (map w2 l))%nat.
Proof. induction 1; simpl; lia. Qed.

Lemma weight_wf v : wellformed v -> (weight v <= List.length (json_dumps v))%nat.
Proof.
  induction v as [|b|z|x|s|l IH|d IH] using value_ind; intros Hv.
  - simpl. lia.
  - destruct b; simpl; lia.
  - destruct (int_repr_head z) as (c & t & E & _). cbn [json_dumps weight].
    rewrite E. simpl. lia.
  - inversion Hv as [| | |y Hy| | |]; subst.
    destruct (proj1 (proj2 Hy)) as (c & t & E & _). cbn [json_dumps weight].
    rewrite E. simpl. lia.
  - cbn [json_dumps weight]. unfold encode_basestring_ascii. simpl. lia.
  - inversion Hv as [| | | | |l' Hl|]; subst.
    cbn [json_dumps weight] in *. cbn [List.length]. rewrite length_app.
    assert (H : (list_sum (map weight l)
                 <= list_sum (map (fun x => List.length (json_dumps x)) l))%nat).
    { apply list_sum_le. rewrite Forall_forall in *. intros y Hy. apply IH; [exact Hy|].
      apply Hl, Hy. }
    pose proof (@join_length (str ", ") (@List.length N) (map json_dumps l)
                  (fun p => le_n _)) as Hj.
    rewrite map_map in Hj. lia.
  - inversion Hv as [| | | | | |d' Hm Hd]; subst.
    cbn [json_dumps weight] in *. cbn [List.length]. rewrite length_app.
    assert (H : (list_sum (map (fun kv => weight (snd kv)) d)
                 <= list_sum (map (fun kv => List.length (member kv)) d))%nat).
    { apply list_sum_le. rewrite Forall_forall in *. intros kv Hkv.
      unfold member. rewrite !length_app.
      destruct (Hm kv Hkv) as [_ Hvv].
      specialize (IH kv Hkv Hvv). lia. }
    pose proof (@join_length (str ", ") (@List.length N) (map member d)
                  (fun p => le_n _)) as Hj.
    rewrite map_map in Hj.
    change (join (str ", ") (map _ d)) with (join (str ", ") (map member d)).
    lia.
Qed.

Lemma weight_dumps v : valid v = true -> (weight v <= List.length (json_dumps v))%nat.
Proof. intros Hv. apply weight_wf, valid_wellformed, Hv. Qed.

Lemma json_loads_wf v : wellformed v -> json_loads (json_dumps v) = Ok v.
Proof.
  intros Hv. unfold json_loads.
  pose proof (dumps_starts_wf Hv) as Hs.
  pose proof (skip_ws_starts [] Hs) as Hw. rewrite app_nil_r in Hw. rewrite Hw.
  pose proof (@scan_once_wf v Hv (S (List.length (json_dumps v)))) as Hp.
  specialize (Hp ltac:(pose proof (weight_wf Hv); lia) [] eq_refl).
  rewrite app_nil_r in Hp. rewrite Hp. reflexivity.
Qed.

Lemma json_loads_dumps v : valid v = true -> json_loads (json_dumps v) = Ok v.
Proof. intros Hv. apply json_loads_wf, valid_wellformed, Hv. Qed.

(** Bytes. *)
Lemma printable_hexdigit d : d < 16 -> printable (hexdigit d) = true.
Proof.
  intros H. unfold printable, hexdigit.
  destruct (N.ltb_spec d 10); booleans.
Qed.

Lemma printable_hex4 n : forallb printable (hex4 n) = true.
Proof.
  unfold hex4. cbn [forallb].
  rewrite !printable_hexdigit by (apply N.mod_lt; lia). reflexivity.
Qed.

Lemma printable_escape c : forallb printable (escape_char c) = true.
Proof.
  unfold escape_char.
  destruct (c =? 34); [reflexivity|]. destruct (c =? 92); [reflexivity|].
  destruct (c =? 10); [reflexivity|]. destruct (c =? 13); [reflexivity|].
  destruct (c =? 9); [reflexivity|]. destruct (c =? 8); [reflexivity|].
  destruct (c =? 12); [reflexivity|].
  destruct ((32 <=? c) && (c <=? 126)) eqn:E.
  - cbn [forallb]. unfold printable. rewrite E. reflexivity.
  - destruct (c <? 65536).
    + cbn [forallb]. rewrite printable_hex4. reflexivity.
    + cbv zeta. rewrite forallb_app. cbn [forallb]. rewrite !printable_hex4. reflexivity.
Qed.

Lemma printable_string s : forallb printable (encode_basestring_ascii s) = true.
Proof.
  unfold encode_basestring_ascii. cbn [forallb]. rewrite forallb_app.
  cbn [forallb]. change (printable 34) with true. rewrite andb_true_r. cbn [andb].
  induction s as [|c s IH]; [reflexivity|].
  cbn [flat_map]. rewrite forallb_app, printable_escape, IH. reflexivity.
Qed.

Lemma printable_int z : forallb printable (int_repr z) = true.
Proof.
  assert (Hd : forall n, forallb printable (digits n) = true).
  { intros n. destruct (digits_spec n) as (d & ds & E & Hd & _). rewrite E.
    revert Hd. generalize (d :: ds). intros l. induction l as [|c l IH]; [reflexivity|].
    cbn [forallb]. intros H. apply andb_prop in H. destruct H as [Hc Hl].
    rewrite (IH Hl), andb_true_r. unfold is_digit in Hc. unfold printable.
    booleans_in Hc; booleans. }
  unfold int_repr. destruct (z <? 0)%Z; [cbn [forallb]; rewrite Hd; reflexivity|apply Hd].
Qed.

Lemma printable_join sep parts :
  forallb printable sep = true ->
  Forall (fun p => forallb printable p = true) parts ->
  forallb printable (join sep parts) = true.
Proof.
  intros Hsep. induction 1 as [|p ps Hp Hps IH]; [reflexivity|].
  destruct ps as [|q ps]; [exact Hp|].
  rewrite join_cons2, !forallb_app, Hp, Hsep. exact IH.
Qed.

Lemma printable_wf v : wellformed v -> forallb printable (json_dumps v) = true.
Proof.
  induction v as [|b|z|x|s|l IH|d IH] using value_ind; intros Hv.
  - reflexivity.
  - destruct b; reflexivity.
  - apply printable_int.
  - inversion Hv as [| | |y Hy| | |]; subst. exact (proj1 Hy).
  - apply printable_string.
  - inversion Hv as [| | | | |l' Hl|]; subst.
    cbn [json_dumps forallb] in *. rewrite forallb_app. cbn [forallb].
    change (printable 91) with true. change (printable 93) with true.
    rewrite andb_true_r. cbn [andb]. apply printable_join; [reflexivity|].
    rewrite Forall_forall in *. intros p Hp. apply in_map_iff in Hp.
    destruct Hp as (y & <- & Hy). apply IH; [exact Hy|]. apply Hl, Hy.
  - inversion Hv as [| | | | | |d' Hm Hd]; subst.
    cbn [json_dumps forallb] in *. rewrite forallb_app. cbn [forallb].
    change (printable 123) with true. change (printable 125) with true.
    rewrite andb_true_r. cbn [andb].
    apply printable_join; [reflexivity|].
    rewrite Forall_forall in *. intros p Hp. apply in_map_iff in Hp.
    destruct Hp as (kv & <- & Hkv). rewrite !forallb_app, printable_string.
    destruct (Hm kv Hkv) as [_ Hvv].
    rewrite (IH kv Hkv Hvv). reflexivity.
Qed.

Lemma printable_dumps v : valid v = true -> forallb printable (json_dumps v) = true.
Proof. intros Hv. apply printable_wf, valid_wellformed, Hv. Qed.

Lemma to_N_byte_of_N c : c < 256 -> Byte.to_N (byte_of_N c) = c.
Proof.
  intros H. unfold byte_of_N. destruct (Byte.of_N c) as [b|] eqn:E.
  - apply Byte.to_of_N. exact E.
  - apply Byte.of_N_None_iff in E. lia.
Qed.

Lemma encode_printable s :
  forallb printable s = true -> encode s = Ok (map byte_of_N s).
Proof.
  induction s as [|c s IH]; [reflexivity|]. cbn [forallb]. intros H.
  apply andb_prop in H. destruct H as [Hc Hs].
  cbn [encode map]. rewrite (IH Hs). unfold utf8_char.
  unfold printable in Hc. destruct (N.ltb_spec c 128); [reflexivity|].
  booleans_in Hc.
Qed.

Lemma decode_printable s :
  forallb (fun c => c <? 128) s = true -> decode (map byte_of_N s) = Ok s.
Proof.
  induction s as [|c s IH]; [reflexivity|]. cbn [forallb]. intros H.
  apply andb_prop in H. destruct H as [Hc Hs]. apply N.ltb_lt in Hc.
  cbn [decode map]. rewrite to_N_byte_of_N by lia.
  destruct (N.ltb_spec c 128); [|lia]. rewrite (IH Hs). reflexivity.
Qed.


Lemma no_newline_printable s :
  forallb printable s = true -> ~ In x0a (map byte_of_N s).
Proof.
  intros H Hin. apply in_map_iff in Hin. destruct Hin as (c & E & Hc).
  rewrite forallb_forall in H. specialize (H c Hc). unfold printable in H.
  apply (f_equal Byte.to_N) in E. rewrite to_N_byte_of_N in E by (booleans_in H).
  change (Byte.to_N x0a) with 10 in E. subst c. discriminate H.
Qed.



Lemma ascii_of_printable s :
  forallb printable s = true -> forallb (fun c => c <? 128) s = true.
Proof.
  intros H. rewrite forallb_forall in *. intros c Hc. specialize (H c Hc).
  unfold printable in H. booleans_in H; booleans.
Qed.

Lemma encode_line body :
  forallb printable body = true ->
  encode (body ++ [10]) = Ok (map byte_of_N body ++ [x0a]).
Proof.
  intros Hp. induction body as [|c s IH]; [reflexivity|].
  cbn [forallb] in Hp. apply andb_prop in Hp. destruct Hp as [Hc Hs].
  cbn [app encode map]. rewrite (IH Hs). unfold utf8_char.
  unfold printable in Hc. destruct (N.ltb_spec c 128); [reflexivity|].
  booleans_in Hc.
Qed.

Lemma decode_line body :
  forallb printable body = true ->
  decode (map byte_of_N body ++ [x0a]) = Ok (body ++ [10]).
Proof.
  intros Hp. apply ascii_of_printable in Hp.
  change [x0a] with (map byte_of_N [10]). rewrite <- map_app.
  apply decode_printable. rewrite forallb_app, Hp. reflexivity.
Qed.

Lemma encode_wire_line v :
  valid v = true ->
  encode (wire_line v) = Ok (map byte_of_N (json_dumps v) ++ [x0a]).
Proof. intros Hv. apply encode_line, printable_dumps, Hv. Qed.

Lemma decode_wire_line v :
  valid v = true ->
  decode (map byte_of_N (json_dumps v) ++ [x0a]) = Ok (json_dumps v ++ [10]).
Proof. intros Hv. apply decode_line, printable_dumps, Hv. Qed.











End Properties.

(* ================================================================== *)
(** ** Runs on concrete children *)

(** A reply whose [content] is the empty list: [call_tool] raises. *)
Lemma call_tool_empty_content_witness :
  exists s',
    RedditMCPClient.call_tool (str "fetchPosts") fetch_args
      (started (replying empty_content_reply 1))
    = Done 1 (Raise (Builtin IndexError)) s'.
Proof.
  eexists.
  apply (@call_tool_empty_content_raises text_floats (str "fetchPosts") fetch_args
           (started (replying empty_content_reply 1))
           [(str "jsonrpc", VStr (str "2.0")); (str "id", VInt 2);
            (str "result", VDict [(str "content", VList [])])]
           [(str "content", VList [])] 1).
  - eexists. split; reflexivity.
  - reflexivity.
  - reflexivity.
  - reflexivity.
Defined.

(** A reply with an [error]: the exception carries its payload. *)
Lemma call_tool_error_witness :
  exists s',
    RedditMCPClient.call_tool (str "fetchPosts") fetch_args
      (started (replying error_reply 1))
    = Done 1 (Raise (Exception [Lit "Tool error: "; Val error_payload])) s'.
Proof.
  eexists.
  apply (@call_tool_error_raises text_floats (str "fetchPosts") fetch_args
           (started (replying error_reply 1))
           [(str "jsonrpc", VStr (str "2.0")); (str "id", VInt 2);
            (str "error", error_payload)]
           error_payload 1).
  - eexists. split; reflexivity.
  - reflexivity.
Defined.

(** A child that answers the handshake after 11 time units: [start]
    finishes too late, and [initialize] returns [False] instead of
    raising. *)
Lemma initialize_timeout_returns_False :
  (exists s', RedditMCPClient.start (host (replying init_reply 11)) app_client
              = Done 11 (Ok tt) s') /\
  (exists s', future_result 10
                (RedditMCPClient.start (host (replying init_reply 11)) app_client)
              = (Raise (Builtin TimeoutError), s')) /\
  RedditSyncClient.initialize (host (replying init_reply 11)) (str "/app")
    RedditSyncClient.__init__
  = (Ok false,
     RedditSyncClient.mkSelf
       (Some (final (RedditMCPClient.start (host (replying init_reply 11)) app_client)))
       (Some RedditSyncClient.RunningLoop) (Some RedditSyncClient.DaemonThread)
       false) /\
  ~ (exists e s',
       RedditSyncClient.initialize (host (replying init_reply 11)) (str "/app")
         RedditSyncClient.__init__
       = (Raise e, s')).
Proof.
  split; [eexists; reflexivity|]. split; [eexists; reflexivity|].
  split; [reflexivity|]. intros (e & s' & H). discriminate H.
Qed.




(** The handshake with a server that answers with a result. *)
Lemma start_succeeds_witness :
  exists s',
    RedditMCPClient.start (host (replying init_reply 2))
      (RedditMCPClient.__init__ (str "server.py"))
    = Done 2 (Ok tt) s'.
Proof.
  eexists.
  apply (proj1 (proj1 (proj2 (@start_succeeds_iff_result text_floats
                               (host (replying init_reply 2))
                               (RedditMCPClient.__init__ (str "server.py")))
                         (replying init_reply 2) eq_refl)
                  [(str "jsonrpc", VStr (str "2.0")); (str "id", VInt 1);
                   (str "result",
                    VDict [(str "protocolVersion", VStr (str "2024-11-05"));
                           (str "capabilities", VDict [])])]
                  2 _ (ex_intro _ _ (conj eq_refl eq_refl)))).
Defined.





(** Both requests on a fresh child. *)
Lemma request_ids_fixed_witness :
  exists data,
    encode (F := text_floats)
      (wire_line (RedditMCPClient.tool_request (str "fetchPosts") fetch_args))
    = Ok data /\
    sent (final (RedditMCPClient.call_tool (str "fetchPosts") fetch_args
                   (started (child [] true 0))))
    = data.
Proof.
  eexists. split; [reflexivity|].
  apply (proj2 (proj2 (proj2 (proj2 (proj2
           (@request_ids_fixed text_floats (host (child [] true 0))
              (started (child [] true 0)) (str "fetchPosts") fetch_args)))))
           (child [] true 0) _ eq_refl eq_refl eq_refl).
Defined.

(** A post with a title only. *)
Lemma post_args_truthy_only_witness :
  RedditMCPClient.post_args (F := text_floats)
    (VStr (str "python")) (VStr (str "Hello")) (VStr (str EmptyString)) VNone
  = [(str "subreddit", VStr (str "python")); (str "title", VStr (str "Hello"))] /\
  exists data,
    sent (final (RedditMCPClient.post_to_subreddit (F := text_floats)
                   (VStr (str "python")) (VStr (str "Hello"))
                   (VStr (str EmptyString)) VNone
                   (started (child [] true 0))))
    = data /\
    encode (F := text_floats)
      (wire_line (F := text_floats)
         (RedditMCPClient.tool_request (str "postToSubreddit")
                    (VDict [(str "subreddit", VStr (str "python"));
                            (str "title", VStr (str "Hello"))])))
    = Ok data.
Proof.
  split; [reflexivity|]. eexists. split; [|reflexivity].
  apply (proj2 (proj2 (proj2 (proj2 (proj2 (proj2 (proj2
           (@post_args_truthy_only text_floats (VStr (str "python"))
              (VStr (str "Hello")) (VStr (str EmptyString)) VNone)))))))
           (started (child [] true 0)) (child [] true 0) _ eq_refl eq_refl eq_refl).
Defined.

(** Why the text of an envelope has to be free of surrogates: a high and
    a low surrogate next to each other are written as two escapes, which
    the decoder reads as one character. *)
Example lone_surrogates_merge :
  json_loads (F := text_floats) (json_dumps (F := text_floats) (VStr [0xd83d; 0xde00]%N))
  = Ok (VStr [0x1f600]%N).
Proof. reflexivity. Qed.

(* ================================================================== *)
(** ** Further properties: the tool methods over the wire *)

Section Exchanges.
Context {F : PyFloat}.

Import RedditMCPClient.

Local Open Scope N_scope.

Ltac decide_cmp :=
  repeat match goal with
    | |- context [?a <=? ?b] => destruct (N.leb_spec a b); try lia
    | |- context [?a <? ?b] => destruct (N.ltb_spec a b); try lia
    | |- context [?a =? ?b] => destruct (N.eqb_spec a b); try lia
    end;
  cbn [andb orb negb]; try lia; try reflexivity.

Lemma run_tool_call c s :
  run_tool c s
  = bind (call_tool (tool_of c) (VDict (arguments_of c)))
      (fun r => lift (_safe_json_parse r)) s.
Proof. destruct c; reflexivity. Qed.

(** A method's result is [_safe_json_parse] of what [unwrap] gives. *)
Lemma run_tool_receives c s response t s' :
  receives s (request_of c) response t s' ->
  run_tool c s
  = Done t (match unwrap response with
            | Ok text => _safe_json_parse text
            | Raise e => Raise e
            end) s'.
Proof.
  rewrite run_tool_call. unfold request_of.
  intros Hrecv. unfold bind. rewrite (call_tool_receives Hrecv).
  destruct (unwrap response); unfold lift; f_equal; lia.
Qed.

Lemma unwrap_text d text : reply_text d text -> unwrap (VDict d) = Ok text.
Proof.
  intros (He & r & b & rest & Hr & Hc & Ht).
  destruct (unwrap_defaults d He) as (_ & H). destruct (H r Hr) as (_ & H').
  destruct (H' b rest Hc) as (_ & H''). apply H''. exact Ht.
Qed.

Lemma after_prefix_head p h (c : N) r :
  h <> c -> after_prefix (h :: p) (c :: r) = None.
Proof.
  intros H. cbn [after_prefix]. destruct (N.eqb_spec h c); [contradiction|reflexivity].
Qed.

Lemma match_number_head c r v r' :
  match_number (c :: r) = Some (v, r') -> c = 45 \/ is_digit c = true.
Proof.
  unfold match_number, match_integer.
  destruct (N.eqb_spec c 45); [auto|].
  destruct (N.eqb_spec c 48) as [->|]; [auto|].
  destruct (is_digit c); [auto|discriminate].
Qed.

(** The characters a JSON value can start with. *)
Lemma scan_once_head n c r x :
  scan_once n (c :: r) = Some x ->
  In c [34; 123; 91; 110; 116; 102; 45; 78; 73] \/ is_digit c = true.
Proof.
  destruct n as [|n]; [discriminate|]. cbn [scan_once].
  destruct (N.eqb_spec c 34) as [->|]; [intros _; left; cbn; auto|].
  destruct (N.eqb_spec c 123) as [->|]; [intros _; left; cbn; auto|].
  destruct (N.eqb_spec c 91) as [->|]; [intros _; left; cbn; auto|].
  change (str "null") with [110; 117; 108; 108].
  change (str "true") with [116; 114; 117; 101].
  change (str "false") with [102; 97; 108; 115; 101].
  change (str "NaN") with [78; 97; 78].
  change (str "Infinity") with [73; 110; 102; 105; 110; 105; 116; 121].
  change (str "-Infinity") with [45; 73; 110; 102; 105; 110; 105; 116; 121].
  destruct (N.eq_dec 110 c) as [<-|]; [intros _; left; cbn; auto 10|].
  rewrite after_prefix_head by assumption.
  destruct (N.eq_dec 116 c) as [<-|]; [intros _; left; cbn; auto 10|].
  rewrite after_prefix_head by assumption.
  destruct (N.eq_dec 102 c) as [<-|]; [intros _; left; cbn; auto 10|].
  rewrite after_prefix_head by assumption.
  destruct (match_number (c :: r)) as [[v r']|] eqn:Em.
  { intros _. destruct (match_number_head _ _ Em) as [->|H]; [left; cbn; auto 10|auto]. }
  destruct (N.eq_dec 78 c) as [<-|]; [intros _; left; cbn; auto 10|].
  rewrite after_prefix_head by assumption.
  destruct (N.eq_dec 73 c) as [<-|]; [intros _; left; cbn; auto 10|].
  rewrite after_prefix_head by assumption.
  destruct (N.eq_dec 45 c) as [<-|]; [intros _; left; cbn; auto 10|].
  rewrite after_prefix_head by assumption. discriminate.
Qed.

Lemma value_start_not_space c :
  In c [34; 123; 91; 110; 116; 102; 45; 78; 73] \/ is_digit c = true ->
  isspace c = false.
Proof.
  intros [H|H].
  - cbn [In] in H. repeat (destruct H as [<-|H]; [reflexivity|]). destruct H.
  - unfold is_digit in H. apply andb_prop in H. destruct H as [H1 H2].
    apply N.leb_le in H1, H2. unfold isspace. decide_cmp.
Qed.

Lemma skip_ws_suffix s : exists ws, s = ws ++ skip_ws s.
Proof.
  induction s as [|c s [ws IH]]; [exists []; reflexivity|]. cbn [skip_ws].
  destruct (is_ws c); [|exists []; reflexivity].
  exists (c :: ws). cbn [app]. f_equal. exact IH.
Qed.

Lemma lstrip_nil s : lstrip s = [] -> Forall (fun c => isspace c = true) s.
Proof.
  induction s as [|c s IH]; [constructor|]. cbn [lstrip].
  destruct (isspace c) eqn:E; [|discriminate]. intros H. constructor; auto.
Qed.

Lemma strip_nil s : strip s = [] -> Forall (fun c => isspace c = true) s.
Proof.
  unfold strip, rstrip. intros H.
  assert (H1 : lstrip (rev (lstrip s)) = []).
  { destruct (lstrip (rev (lstrip s))) as [|x l]; [reflexivity|].
    cbn [rev] in H. destruct (rev l); discriminate H. }
  apply lstrip_nil in H1.
  assert (H2 : lstrip s = []).
  { destruct (lstrip s) as [|c l] eqn:E; [reflexivity|].
    assert (Hc : isspace c = true).
    { rewrite Forall_forall in H1. apply H1. apply -> in_rev. left. reflexivity. }
    destruct s as [|c0 s0]; [discriminate E|]. cbn [lstrip] in E.
    destruct (isspace c0) eqn:E0.
    - exfalso. clear - E Hc. revert E. induction s0 as [|a s0 IH]; [discriminate|].
      cbn [lstrip]. destruct (isspace a) eqn:Ea; [exact IH|].
      intros H. injection H as -> _. congruence.
    - injection E as -> _. congruence. }
  apply lstrip_nil. exact H2.
Qed.

(** A text that [json.loads] accepts is not blank. *)
Lemma json_loads_ok_not_blank text v : json_loads text = Ok v -> strip text <> [].
Proof.
  unfold json_loads. intros H Hs. apply strip_nil in Hs.
  destruct (scan_once (S (List.length text)) (skip_ws text)) as [[v' r]|] eqn:E;
    [|discriminate H].
  destruct (skip_ws text) as [|c r'] eqn:Ew; [discriminate E|].
  pose proof (value_start_not_space (scan_once_head _ _ _ E)) as Hc.
  destruct (skip_ws_suffix text) as [ws Hw]. rewrite Ew in Hw.
  rewrite Forall_forall in Hs. specialize (Hs c). rewrite Hs in Hc; [discriminate|].
  rewrite Hw. apply in_or_app. right. left. reflexivity.
Qed.

Lemma safe_json_parse_ok text v :
  json_loads text = Ok v -> _safe_json_parse (VStr text) = Ok v.
Proof.
  intros H. pose proof (json_loads_ok_not_blank _ H) as Hs.
  unfold _safe_json_parse. destruct text as [|c text]; [exfalso; apply Hs; reflexivity|].
  cbn [truthy negb]. destruct (str_eqb (strip (c :: text)) (str EmptyString)) eqn:E.
  - apply str_eqb_empty in E. contradiction.
  - rewrite H. reflexivity.
Qed.

(** The reply carries a text that decodes to [v]: the method returns [v]. *)
Lemma run_tool_decoded c s d t s' text v :
  receives s (request_of c) (VDict d) t s' ->
  reply_text d (VStr text) ->
  json_loads text = Ok v ->
  run_tool c s = Done t (Ok v) s'.
Proof.
  intros Hrecv Ht Hv. rewrite (@run_tool_receives c s _ t s' Hrecv), (unwrap_text Ht).
  rewrite (safe_json_parse_ok _ Hv). reflexivity.
Qed.

Lemma run_tool_not_started c s :
  process s = None ->
  run_tool c s = Done 0 (Raise (Exception [Lit "Server not started"])) s.
Proof.
  intros H. rewrite run_tool_call.
  unfold bind. rewrite (call_tool_not_started _ _ _ H). reflexivity.
Qed.

Lemma wire_bytes_eq v : wire_bytes v = map byte_of_N (json_dumps v) ++ [x0a].
Proof. unfold wire_bytes, wire_line. rewrite map_app. reflexivity. Qed.

Lemma lstrip_spaces ws s : forallb isspace ws = true -> lstrip (ws ++ s) = lstrip s.
Proof.
  induction ws as [|c ws IH]; [reflexivity|]. cbn [forallb]. intros H.
  apply andb_prop in H. destruct H as [Hc Hs]. cbn [app lstrip]. rewrite Hc.
  apply IH, Hs.
Qed.

(** [strip] takes the padding off both sides of an object's text. *)
Lemma strip_padded body ws1 ws2 :
  forallb isspace ws1 = true -> forallb isspace ws2 = true ->
  strip (ws1 ++ (123 :: body ++ [125]) ++ ws2 ++ [10]) = 123 :: body ++ [125].
Proof.
  intros H1 H2. unfold strip. rewrite (@lstrip_spaces ws1 _ H1).
  cbn [app lstrip]. change (isspace 123) with false. cbv iota.
  unfold rstrip.
  change (123 :: (body ++ [125]) ++ ws2 ++ [10])
    with ((123 :: body ++ [125]) ++ ws2 ++ [10]).
  rewrite !rev_app_distr. cbn [rev app].
  change (lstrip (10 :: rev ws2 ++ rev (body ++ [125]) ++ [123]))
    with (lstrip (rev ws2 ++ rev (body ++ [125]) ++ [123])).
  rewrite (@lstrip_spaces (rev ws2)).
  - rewrite rev_app_distr. cbn [rev app lstrip]. change (isspace 125) with false.
    cbv iota. change (125 :: rev body ++ [123]) with ([125] ++ rev (123 :: body)).
    rewrite rev_app_distr, rev_involutive. reflexivity.
  - rewrite forallb_forall in *. intros c Hc. apply H2. apply in_rev. exact Hc.
Qed.

Lemma split_line_ascii s rest :
  forallb (fun c => (c <? 128) && negb (c =? 10)) s = true ->
  split_line (map byte_of_N s ++ x0a :: rest)
  = Some (map byte_of_N s ++ [x0a], rest).
Proof.
  induction s as [|c s IH]; [reflexivity|]. cbn [forallb]. intros H.
  apply andb_prop in H. destruct H as [Hc Hs].
  cbn [map app split_line]. rewrite (IH Hs).
  destruct (Byte.eqb (byte_of_N c) x0a) eqn:E; [|reflexivity].
  apply Byte.byte_dec_bl in E. apply (f_equal Byte.to_N) in E.
  apply andb_prop in Hc. destruct Hc as [Hlt Hne]. apply N.ltb_lt in Hlt.
  rewrite to_N_byte_of_N in E by lia.
  change (Byte.to_N x0a) with 10 in E. subst c. discriminate Hne.
Qed.

(** Reading a line that holds a valid envelope between padding. *)
Lemma read_message_padded d peer q ws1 ws2 rest :
  valid (VDict d) = true ->
  forallb padding ws1 = true -> forallb padding ws2 = true ->
  process peer = Some q ->
  stdout_pending q
  = map byte_of_N (ws1 ++ json_dumps (VDict d) ++ ws2) ++ x0a :: rest ->
  fits (map byte_of_N (ws1 ++ json_dumps (VDict d) ++ ws2)) ->
  _read_message peer
  = Done (latency q) (Ok (VDict d))
      (mkSelf (server_path peer)
         (Some (mkSubprocess (stdin_log q) (stdin_closed q) rest
                  (stdout_eof q) (latency q)))).
Proof.
  intros Hv H1 H2 Hq Hout Hfit. pose proof (printable_dumps _ Hv) as Hpr.
  set (line := ws1 ++ json_dumps (VDict d) ++ ws2) in *.
  assert (Hpad : forall ws, forallb padding ws = true ->
            forallb isspace ws = true /\
            forallb (fun c => (c <? 128) && negb (c =? 10)) ws = true).
  { intros ws H. rewrite !forallb_forall in *. split; intros c Hc;
      specialize (H c Hc); unfold padding in H;
      apply andb_prop in H; destruct H as [H Hn];
      apply andb_prop in H; destruct H as [Hs Hl].
    - exact Hs.
    - rewrite Hl, Hn. reflexivity. }
  assert (Hjs : forallb (fun c => (c <? 128) && negb (c =? 10)) (json_dumps (VDict d))
                = true).
  { rewrite forallb_forall in *. intros c Hc. specialize (Hpr c Hc).
    unfold printable in Hpr. apply andb_prop in Hpr. destruct Hpr as [Hlo Hhi].
    apply N.leb_le in Hlo, Hhi. decide_cmp. }
  assert (Hline : forallb (fun c => (c <? 128) && negb (c =? 10)) line = true).
  { unfold line. rewrite !forallb_app, Hjs.
    rewrite (proj2 (Hpad _ H1)), (proj2 (Hpad _ H2)). reflexivity. }
  unfold _read_message, readline.
  rewrite Hq, Hout, (split_line_ascii _ rest Hline).
  assert (Hlim : (N.of_nat (List.length (map byte_of_N line ++ [x0a]) - 1)
                  <=? _DEFAULT_LIMIT) = true).
  { apply N.leb_le. unfold fits in Hfit. rewrite length_app. cbn [List.length].
    replace (List.length (map byte_of_N line) + 1 - 1)%nat
      with (List.length (map byte_of_N line)) by lia.
    exact Hfit. }
  rewrite Hlim.
  destruct (map byte_of_N line ++ [x0a]) as [|b bs] eqn:E.
  { apply (f_equal (@List.length byte)) in E. rewrite length_app in E.
    cbn in E. lia. }
  rewrite <- E. change [x0a] with (map byte_of_N [10]). rewrite <- map_app.
  rewrite decode_printable.
  - assert (Hstrip : strip (line ++ [10]) = json_dumps (VDict d)).
    { unfold line. rewrite <- !app_assoc. cbn [json_dumps].
      apply strip_padded; [apply (Hpad _ H1)|apply (Hpad _ H2)]. }
    rewrite Hstrip, (json_loads_dumps _ Hv). reflexivity.
  - rewrite forallb_app. rewrite forallb_forall in Hline.
    apply andb_true_intro. split; [|reflexivity].
    rewrite forallb_forall. intros c Hc. specialize (Hline c Hc).
    apply andb_prop in Hline. apply Hline.
Qed.

Lemma read_message_line d peer q rest :
  valid (VDict d) = true ->
  process peer = Some q ->
  stdout_pending q = wire_bytes (VDict d) ++ rest ->
  fits (map byte_of_N (json_dumps (VDict d))) ->
  _read_message peer
  = Done (latency q) (Ok (VDict d))
      (mkSelf (server_path peer)
         (Some (mkSubprocess (stdin_log q) (stdin_closed q) rest
                  (stdout_eof q) (latency q)))).
Proof.
  intros Hv Hq Hout Hfit.
  apply (@read_message_padded d peer q [] [] rest Hv eq_refl eq_refl Hq).
  - rewrite Hout, wire_bytes_eq, <- app_assoc, app_nil_r. reflexivity.
  - cbn [app]. rewrite app_nil_r. exact Hfit.
Qed.

(** One exchange: the request goes out as one line and the first pending
    line, which fits the reader's limit, comes back as the reply. *)
Lemma exchange_wire request d s p rest :
  valid request = true -> valid (VDict d) = true ->
  process s = Some p -> stdin_closed p = false ->
  stdout_pending p = wire_bytes (VDict d) ++ rest ->
  fits (map byte_of_N (json_dumps (VDict d))) ->
  receives s request (VDict d) (latency p)
    (mkSelf (server_path s)
       (Some (mkSubprocess (stdin_log p ++ wire_bytes request) false rest
                (stdout_eof p) (latency p)))).
Proof.
  intros Hreq Hd Hp Hc Hout Hfit.
  exists (mkSelf (server_path s)
            (Some (mkSubprocess (stdin_log p ++ wire_bytes request) false
                     (stdout_pending p) (stdout_eof p) (latency p)))).
  split.
  - rewrite wire_bytes_eq. apply send_message_ok; [exact Hp|exact Hc|].
    apply encode_wire_line. exact Hreq.
  - apply (@read_message_line d
             (mkSelf (server_path s)
                (Some (mkSubprocess (stdin_log p ++ wire_bytes request) false
                         (stdout_pending p) (stdout_eof p) (latency p))))
             (mkSubprocess (stdin_log p ++ wire_bytes request) false
                (stdout_pending p) (stdout_eof p) (latency p))
             rest Hd eq_refl Hout Hfit).
Qed.

(** The handshake, then one tool call, against a child that has both
    replies ready. *)
Lemma session_wire exec c s p d0 d text v rest :
  exec (server_path s) = Ok p -> stdin_closed p = false ->
  valid (request_of c) = true ->
  valid (VDict d0) = true -> valid (VDict d) = true ->
  stdout_pending p = wire_bytes (VDict d0) ++ wire_bytes (VDict d) ++ rest ->
  fits (map byte_of_N (json_dumps (VDict d0))) ->
  fits (map byte_of_N (json_dumps (VDict d))) ->
  truthy (match dict_lookup (str "result") d0 with Some r => r | None => VNone end)
  = true ->
  reply_text d (VStr text) -> json_loads text = Ok v ->
  start exec s
  = Done (latency p) (Ok tt)
      (mkSelf (server_path s)
         (Some (mkSubprocess (stdin_log p ++ wire_bytes initialize_request) false
                  (wire_bytes (VDict d) ++ rest) (stdout_eof p) (latency p)))) /\
  run_tool c
    (mkSelf (server_path s)
       (Some (mkSubprocess (stdin_log p ++ wire_bytes initialize_request) false
                (wire_bytes (VDict d) ++ rest) (stdout_eof p) (latency p))))
  = Done (latency p) (Ok v)
      (mkSelf (server_path s)
         (Some (mkSubprocess
                  (stdin_log p ++ wire_bytes initialize_request
                   ++ wire_bytes (request_of c))
                  false rest (stdout_eof p) (latency p)))).
Proof.
  intros Hp Hc Hr Hd0 Hd Hout Hf0 Hf Hres Ht Hv.
  assert (Hinit : valid initialize_request = true) by reflexivity.
  pose proof (@exchange_wire initialize_request d0 (mkSelf (server_path s) (Some p)) p _
                Hinit Hd0 eq_refl Hc Hout Hf0) as E0.
  split.
  - rewrite (start_spawned _ _ Hp). destruct E0 as (s0 & Hs & Hrd).
    rewrite (bind_ok _ _ _ Hs), (bind_ok _ _ _ Hrd). unfold lift. cbn [py_get].
    rewrite Hres. f_equal; lia.
  - rewrite app_assoc.
    apply (@run_tool_decoded c _ d _ _ text v); [|exact Ht|exact Hv].
    apply (@exchange_wire (request_of c) d
             (mkSelf (server_path s)
                (Some (mkSubprocess (stdin_log p ++ wire_bytes initialize_request)
                         false (wire_bytes (VDict d) ++ rest) (stdout_eof p)
                         (latency p))))
             (mkSubprocess (stdin_log p ++ wire_bytes initialize_request) false
                (wire_bytes (VDict d) ++ rest) (stdout_eof p) (latency p))
             rest Hr Hd eq_refl eq_refl eq_refl Hf).
Qed.

(** X1. When the reply to a tool method's request is a success whose
    first content block carries a text that [json.loads] accepts, the
    method returns the decoded value; this holds for each of the six
    methods. *)
Theorem tool_returns_decoded_payload c s d t s' text v :
  receives s (request_of c) (VDict d) t s' ->
  reply_text d (VStr text) ->
  json_loads text = Ok v ->
  run_tool c s = Done t (Ok v) s'.
Proof. apply run_tool_decoded. Qed.

(** X2. A reply with a key [error] makes each of the six methods raise
    [Exception("Tool error: ...")] with the payload: no method catches
    what [call_tool] raises. *)
Theorem tool_raises_tool_error c s d t s' payload :
  receives s (request_of c) (VDict d) t s' ->
  dict_lookup (str "error") d = Some payload ->
  run_tool c s = Done t (Raise (Exception [Lit "Tool error: "; Val payload])) s'.
Proof.
  intros Hrecv He. rewrite (@run_tool_receives c s _ t s' Hrecv).
  unfold unwrap, py_in, py_getitem, dict_contains. rewrite He. reflexivity.
Qed.

(** X3. A reply without an error in which the result, its content or the
    text of its first block is missing makes each of the six methods
    raise [Exception("Empty response from server")]: the defaults of
    [call_tool] end in the empty text, which [_safe_json_parse] refuses. *)
Theorem tool_raises_on_missing_text c s d t s' :
  receives s (request_of c) (VDict d) t s' ->
  dict_lookup (str "error") d = None ->
  (dict_lookup (str "result") d = None \/
   exists r, dict_lookup (str "result") d = Some (VDict r) /\
     (dict_lookup (str "content") r = None \/
      exists b rest, dict_lookup (str "content") r = Some (VList (VDict b :: rest)) /\
                     dict_lookup (str "text") b = None)) ->
  run_tool c s = Done t (Raise (Exception [Lit "Empty response from server"])) s'.
Proof.
  intros Hrecv He Hmiss. rewrite (@run_tool_receives c s _ t s' Hrecv).
  destruct (unwrap_defaults d He) as (H1 & H2).
  assert (Hu : unwrap (VDict d) = Ok (VStr [])).
  { destruct Hmiss as [Hr|(r & Hr & [Hc|(b & rest & Hc & Ht)])].
    - apply H1, Hr.
    - apply (H2 r Hr), Hc.
    - destruct (H2 r Hr) as (_ & H3). apply (proj1 (H3 b rest Hc)), Ht. }
  rewrite Hu. reflexivity.
Qed.

(** X4. On a client that has no process each of the six methods raises
    [Exception("Server not started")] at once and leaves the client as
    it is. *)
Theorem tool_not_started c s :
  process s = None ->
  run_tool c s = Done 0 (Raise (Exception [Lit "Server not started"])) s.
Proof. apply run_tool_not_started. Qed.

(** X5. Replies are matched to requests by their order alone: of two
    calls in a row the first gets the first pending line and the second
    the next one, whatever ids the replies carry, both lines being
    within the reader's limit; both requests are on the child's input
    afterwards, in the order of the calls. *)
Theorem calls_answered_in_order c1 c2 s p d1 d2 text1 text2 v1 v2 rest :
  process s = Some p -> stdin_closed p = false ->
  valid (request_of c1) = true -> valid (request_of c2) = true ->
  valid (VDict d1) = true -> valid (VDict d2) = true ->
  stdout_pending p = wire_bytes (VDict d1) ++ wire_bytes (VDict d2) ++ rest ->
  fits (map byte_of_N (json_dumps (VDict d1))) ->
  fits (map byte_of_N (json_dumps (VDict d2))) ->
  reply_text d1 (VStr text1) -> json_loads text1 = Ok v1 ->
  reply_text d2 (VStr text2) -> json_loads text2 = Ok v2 ->
  bind (run_tool c1) (fun r1 => bind (run_tool c2) (fun r2 => ret (r1, r2))) s
  = Done (latency p + latency p) (Ok (v1, v2))
      (mkSelf (server_path s)
         (Some (mkSubprocess
                  (stdin_log p ++ wire_bytes (request_of c1) ++ wire_bytes (request_of c2))
                  false rest (stdout_eof p) (latency p)))).
Proof.
  intros Hp Hc Hr1 Hr2 Hd1 Hd2 Hout Hf1 Hf2 Ht1 Hv1 Ht2 Hv2.
  pose proof (@exchange_wire (request_of c1) d1 s p _ Hr1 Hd1 Hp Hc Hout Hf1) as E1.
  rewrite (bind_ok _ _ _ (@run_tool_decoded c1 _ _ _ _ _ _ E1 Ht1 Hv1)).
  match type of E1 with receives _ _ _ _ ?s1 => set (s1' := s1) in * end.
  assert (E2 : receives s1' (request_of c2) (VDict d2) (latency p)
                 (mkSelf (server_path s)
                    (Some (mkSubprocess
                             ((stdin_log p ++ wire_bytes (request_of c1))
                              ++ wire_bytes (request_of c2))
                             false rest (stdout_eof p) (latency p))))).
  { apply (@exchange_wire (request_of c2) d2 s1'
             (mkSubprocess (stdin_log p ++ wire_bytes (request_of c1)) false
                (wire_bytes (VDict d2) ++ rest) (stdout_eof p) (latency p))
             rest Hr2 Hd2 eq_refl eq_refl eq_refl Hf2). }
  rewrite (bind_ok _ _ _ (@run_tool_decoded c2 _ _ _ _ _ _ E2 Ht2 Hv2)).
  unfold ret. rewrite <- app_assoc. f_equal. lia.
Qed.

(** X6. A whole session: [start] launches the child, sends the handshake
    and reads the first line; a tool method then sends its request and
    returns the payload decoded from the second line, both lines being
    within the reader's limit.  The child's input holds the two requests
    and nothing else. *)
Theorem start_then_tool exec c s p d0 d text v rest :
  exec (server_path s) = Ok p -> stdin_closed p = false ->
  valid (request_of c) = true ->
  valid (VDict d0) = true -> valid (VDict d) = true ->
  stdout_pending p = wire_bytes (VDict d0) ++ wire_bytes (VDict d) ++ rest ->
  fits (map byte_of_N (json_dumps (VDict d0))) ->
  fits (map byte_of_N (json_dumps (VDict d))) ->
  truthy (match dict_lookup (str "result") d0 with Some r => r | None => VNone end)
  = true ->
  reply_text d (VStr text) -> json_loads text = Ok v ->
  bind (start exec) (fun _ => run_tool c) s
  = Done (latency p + latency p) (Ok v)
      (mkSelf (server_path s)
         (Some (mkSubprocess
                  (stdin_log p ++ wire_bytes initialize_request
                   ++ wire_bytes (request_of c))
                  false rest (stdout_eof p) (latency p)))).
Proof.
  intros Hp Hc Hr Hd0 Hd Hout Hf0 Hf Hres Ht Hv.
  destruct (@session_wire exec c s p d0 d text v rest Hp Hc Hr Hd0 Hd Hout Hf0 Hf
              Hres Ht Hv) as [Hstart Hrun].
  rewrite (bind_ok _ _ _ Hstart), Hrun. reflexivity.
Qed.

Lemma receives_process s request response t s' :
  receives s request response t s' -> exists q, process s' = Some q.
Proof.
  intros (s1 & _ & Hr). unfold _read_message in Hr.
  destruct (process s1) as [p|]; [|discriminate Hr].
  destruct (readline p) as [t' r p'|p']; [|discriminate Hr].
  destruct r as [line|e]; [|discriminate Hr].
  destruct line as [|b line]; [discriminate Hr|].
  destruct (decode (b :: line)) as [text|e]; [|discriminate Hr].
  injection Hr as _ _ <-. eexists. reflexivity.
Qed.

(** X7. [start] does not undo what it did when it fails: after a reply
    whose result is missing or falsy it raises [Exception("Failed to
    initialize: ...")] and the client keeps the process it launched, with
    the handshake on its input; when the launch itself fails the client
    stays as it was. *)
Theorem start_failure_state exec s :
  (forall e, exec (server_path s) = Raise e -> start exec s = Done 0 (Raise e) s) /\
  (forall p d t s',
     exec (server_path s) = Ok p ->
     receives (mkSelf (server_path s) (Some p)) initialize_request (VDict d) t s' ->
     truthy (match dict_lookup (str "result") d with Some r => r | None => VNone end)
     = false ->
     start exec s
     = Done t (Raise (Exception [Lit "Failed to initialize: "; Val (VDict d)])) s' /\
     exists q, process s' = Some q /\ sent s' = stdin_log q /\
               exists data, encode (wire_line initialize_request) = Ok data /\
                            stdin_log q = stdin_log p ++ data).
Proof.
  split.
  - intros e He. unfold start. rewrite He. reflexivity.
  - intros p d t s' Hp Hrecv Hres.
    pose proof (receives_process Hrecv) as [q Hq]. split.
    + rewrite (start_spawned _ _ Hp). destruct Hrecv as (s0 & Hs & Hrd).
      rewrite (bind_ok _ _ _ Hs), (bind_ok _ _ _ Hrd). unfold lift. cbn [py_get].
      rewrite Hres. f_equal; lia.
    + exists q. split; [exact Hq|]. split; [unfold sent; rewrite Hq; reflexivity|].
      destruct Hrecv as (s0 & Hs & Hrd).
      assert (Hsent : sent s' = sent s0).
      { replace s' with (final (_read_message s0)) by (rewrite Hrd; reflexivity).
        apply read_message_sent. }
      unfold sent in Hsent. rewrite Hq in Hsent. rewrite Hsent.
      unfold _send_message in Hs. cbn [process] in Hs. unfold wire_line.
      change (str (String "010" EmptyString)) with [10] in Hs.
      destruct (encode (json_dumps initialize_request ++ [10])) as [data|];
        [|discriminate Hs].
      unfold write_drain in Hs. destruct (stdin_closed p); [discriminate Hs|].
      injection Hs as <-. exists data. split; reflexivity.
Qed.

(** X8. [_read_message] strips the line before decoding it: an envelope
    with ASCII whitespace around it, a carriage return before the newline
    for one, is read as the same envelope, as long as the line with its
    padding is within the reader's limit. *)
Theorem read_message_tolerates_padding d peer q ws1 ws2 rest :
  valid (VDict d) = true ->
  forallb padding ws1 = true -> forallb padding ws2 = true ->
  process peer = Some q ->
  stdout_pending q
  = map byte_of_N (ws1 ++ json_dumps (VDict d) ++ ws2) ++ x0a :: rest ->
  fits (map byte_of_N (ws1 ++ json_dumps (VDict d) ++ ws2)) ->
  _read_message peer
  = Done (latency q) (Ok (VDict d))
      (mkSelf (server_path peer)
         (Some (mkSubprocess (stdin_log q) (stdin_closed q) rest
                  (stdout_eof q) (latency q)))).
Proof. apply read_message_padded. Qed.

(** The text of a value without floats is printable ASCII, whatever its
    strings hold. *)
Lemma printable_float_free v :
  float_free v = true -> forallb printable (json_dumps v) = true.
Proof.
  induction v as [|b|z|x|t|l IH|d IH] using value_ind; intros Hv.
  - reflexivity.
  - destruct b; reflexivity.
  - apply printable_int.
  - discriminate Hv.
  - apply printable_string.
  - cbn [json_dumps float_free forallb] in *. rewrite forallb_app. cbn [forallb].
    change (printable 91) with true. change (printable 93) with true.
    rewrite andb_true_r. cbn [andb]. apply printable_join; [reflexivity|].
    rewrite Forall_forall in *. intros p Hp. apply in_map_iff in Hp.
    destruct Hp as (y & <- & Hy). apply IH; [exact Hy|].
    rewrite forallb_forall in Hv. apply Hv, Hy.
  - cbn [json_dumps float_free forallb] in *. rewrite forallb_app. cbn [forallb].
    change (printable 123) with true. change (printable 125) with true.
    rewrite andb_true_r. cbn [andb].
    apply printable_join; [reflexivity|].
    rewrite Forall_forall in *. intros p Hp. apply in_map_iff in Hp.
    destruct Hp as (kv & <- & Hkv). rewrite !forallb_app, printable_string.
    rewrite forallb_forall in Hv. specialize (Hv kv Hkv).
    rewrite (IH kv Hkv Hv). reflexivity.
Qed.

(** ASCII text is encoded character by character. *)
Lemma encode_ascii s :
  forallb (fun c => c <? 128) s = true -> encode s = Ok (map byte_of_N s).
Proof.
  induction s as [|c s IH]; [reflexivity|]. cbn [forallb]. intros H.
  apply andb_prop in H. destruct H as [Hc Hs].
  cbn [encode map]. rewrite (IH Hs). unfold utf8_char. rewrite Hc. reflexivity.
Qed.

(** X28. When the first content block carries under [text] something
    that is not a string, a tool method does not return it: a truthy
    value (a number, a non-empty list or dict, [True]) makes the method
    raise [AttributeError] from [text.strip()], a falsy one
    [Exception("Empty response from server")]. *)
Theorem tool_text_not_a_string c s d t s' text :
  receives s (request_of c) (VDict d) t s' ->
  reply_text d text ->
  (forall u, text <> VStr u) ->
  run_tool c s
  = Done t
      (Raise (if truthy text then Builtin AttributeError
              else Exception [Lit "Empty response from server"]))
      s'.
Proof.
  intros Hrecv Ht Hns. rewrite (@run_tool_receives c s _ t s' Hrecv), (unwrap_text Ht).
  unfold _safe_json_parse. destruct (truthy text); cbn [negb]; [|reflexivity].
  destruct text; try reflexivity. exfalso. apply (Hns s0). reflexivity.
Qed.

(** X29. [_send_message] cannot fail on the encoding of a message
    without floats, whatever text it holds: [json.dumps] escapes every
    character outside printable ASCII, so the line is ASCII bytes
    without a newline, followed by one newline.  With a process, the
    only failure left is a closed pipe. *)
Theorem send_message_line_is_ascii message s p :
  float_free message = true ->
  process s = Some p ->
  (stdin_closed p = true ->
   _send_message message s = Done 0 (Raise (Builtin ConnectionResetError)) s) /\
  (stdin_closed p = false ->
   exists body,
     ~ In x0a body /\
     Forall (fun b => 32 <= Byte.to_N b <= 126) body /\
     _send_message message s
     = Done 0 (Ok tt)
         (mkSelf (server_path s)
            (Some (mkSubprocess (stdin_log p ++ body ++ [x0a]) false
                     (stdout_pending p) (stdout_eof p) (latency p))))).
Proof.
  intros Hv Hp. pose proof (printable_float_free _ Hv) as Hpr.
  assert (Henc : encode (wire_line message)
                 = Ok (map byte_of_N (json_dumps message) ++ [x0a])).
  { unfold wire_line. change [x0a] with (map byte_of_N [10]). rewrite <- map_app.
    apply encode_ascii. rewrite forallb_app, (ascii_of_printable _ Hpr). reflexivity. }
  split.
  - intros Hc. unfold _send_message. rewrite Hp.
    change (json_dumps message ++ str (String "010" EmptyString))
      with (wire_line message).
    rewrite Henc. unfold write_drain. rewrite Hc. reflexivity.
  - intros Hc. exists (map byte_of_N (json_dumps message)). split; [|split].
    + apply no_newline_printable, Hpr.
    + rewrite Forall_forall. intros b Hb. apply in_map_iff in Hb.
      destruct Hb as (c & <- & Hc'). rewrite forallb_forall in Hpr.
      specialize (Hpr c Hc'). unfold printable in Hpr.
      apply andb_prop in Hpr. destruct Hpr as [Hlo Hhi].
      apply N.leb_le in Hlo, Hhi. rewrite to_N_byte_of_N by lia. lia.
    + apply send_message_ok; [exact Hp|exact Hc|exact Henc].
Qed.

(** X30. [_safe_json_parse] changes the failures of [json.loads] and
    nothing else: on a string it returns a value exactly when
    [json.loads] returns that value; its check for blank text never
    turns away a text that [json.loads] accepts. *)
Theorem safe_json_parse_agrees text v :
  _safe_json_parse (VStr text) = Ok v <-> json_loads text = Ok v.
Proof.
  split; [|apply safe_json_parse_ok].
  unfold _safe_json_parse. destruct (truthy (VStr text)); cbn [negb]; [|discriminate].
  destruct (str_eqb (strip text) (str EmptyString)); [discriminate|].
  destruct (json_loads text) as [v'|e]; [auto|].
  destruct e as [msg|[]]; discriminate.
Qed.

End Exchanges.
(* ================================================================== *)
(** ** Further properties: the facade and the module globals *)

Section Facades.
Context {F : PyFloat}.

Variable exec : pystr -> res subprocess.
Variable dir : pystr.

Lemma run_facade_delegate c s :
  run_facade c s = RedditSyncClient.delegate s (run_tool c).
Proof. destruct c; reflexivity. Qed.

Lemma run_facade_guard c s cl :
  RedditSyncClient.client s = Some cl ->
  RedditSyncClient.initialized s = false ->
  run_facade c s
  = (Raise (Exception [Lit "Client not initialized. Call initialize() first."]), s).
Proof. intros Hc Hi. rewrite run_facade_delegate. apply (delegate_guard _ _ Hc Hi). Qed.

(** The two ways [initialize] ends on a facade that is not initialised. *)
Lemma initialize_fresh s :
  RedditSyncClient.initialized s = false ->
  exists c',
    (RedditSyncClient.initialize exec dir s
     = (Ok true,
        RedditSyncClient.mkSelf (Some c') (Some RedditSyncClient.RunningLoop)
          (Some RedditSyncClient.DaemonThread) true) /\
     future_result 10
       (RedditMCPClient.start exec
          (RedditMCPClient.__init__ (RedditSyncClient.path_join dir (str "server.py"))))
     = (Ok tt, c')) \/
    (RedditSyncClient.initialize exec dir s
     = (Ok false,
        RedditSyncClient.mkSelf (Some c') (Some RedditSyncClient.RunningLoop)
          (Some RedditSyncClient.DaemonThread) false)).
Proof.
  intros Hi. unfold RedditSyncClient.initialize. rewrite Hi.
  destruct (future_result 10 _) as [[[]|e] c']; exists c'; [left|right]; auto.
Qed.

(** A call through an initialised facade leaves it initialised. *)
Lemma run_facade_initialized c s :
  RedditSyncClient.initialized s = true ->
  RedditSyncClient.initialized (snd (run_facade c s)) = true.
Proof.
  intros Hi. rewrite run_facade_delegate.
  unfold RedditSyncClient.delegate, RedditSyncClient._run_async.
  destruct (RedditSyncClient.client s) as [cl|]; [|exact Hi]. rewrite Hi. cbn [negb].
  destruct (RedditSyncClient.loop s) as [[]|]; [|exact Hi].
  destruct (future_result 30 (run_tool c cl)). reflexivity.
Qed.

(** What a call through an initialised facade comes to. *)
Lemma run_facade_ready c s cl :
  RedditSyncClient.initialized s = true ->
  RedditSyncClient.client s = Some cl ->
  RedditSyncClient.loop s = Some RedditSyncClient.RunningLoop ->
  run_facade c s
  = (fst (future_result 30 (run_tool c cl)),
     RedditSyncClient.mkSelf (Some (snd (future_result 30 (run_tool c cl))))
       (Some RedditSyncClient.RunningLoop) (RedditSyncClient.thread s) true).
Proof.
  intros Hi Hc Hl. rewrite run_facade_delegate.
  unfold RedditSyncClient.delegate, RedditSyncClient._run_async.
  rewrite Hc, Hi, Hl. cbn [negb].
  destruct (future_result 30 (run_tool c cl)). reflexivity.
Qed.

(** X9. Once [initialize] has returned [True] the facade is initialised
    for good: a further [initialize], also after any number of calls
    through the facade, returns [True] and changes nothing, so no second
    server is launched. *)
Theorem initialize_once s s' :
  RedditSyncClient.initialize exec dir s = (Ok true, s') ->
  RedditSyncClient.initialized s' = true /\
  RedditSyncClient.initialize exec dir s' = (Ok true, s') /\
  forall calls,
    let s'' := fold_left (fun st c => snd (run_facade c st)) calls s' in
    RedditSyncClient.initialize exec dir s'' = (Ok true, s'').
Proof.
  intros H.
  assert (Hi : RedditSyncClient.initialized s' = true).
  { destruct (RedditSyncClient.initialized s) eqn:Ei.
    - unfold RedditSyncClient.initialize in H. rewrite Ei in H.
      injection H as <-. exact Ei.
    - destruct (initialize_fresh s Ei) as [c' [[E _]|E]]; rewrite E in H.
      + injection H as <-. reflexivity.
      + discriminate H. }
  assert (Hno : forall st, RedditSyncClient.initialized st = true ->
                  RedditSyncClient.initialize exec dir st = (Ok true, st)).
  { intros st Hst. unfold RedditSyncClient.initialize. rewrite Hst. reflexivity. }
  split; [exact Hi|]. split; [apply Hno, Hi|].
  intros calls. cbv zeta. apply Hno. clear H. revert s' Hi.
  induction calls as [|c calls IH]; intros st Hst; [exact Hst|].
  cbn [fold_left]. apply IH, run_facade_initialized, Hst.
Qed.

(** X10. After [initialize] has returned [False] the facade holds a
    client object but is not initialised, and each of the six operations
    raises the exception of the guard, [Exception("Client not
    initialized. Call initialize() first.")], without touching the
    client. *)
Theorem failed_initialize_then_guard s s' :
  RedditSyncClient.initialize exec dir s = (Ok false, s') ->
  (exists cl, RedditSyncClient.client s' = Some cl) /\
  RedditSyncClient.initialized s' = false /\
  forall c,
    run_facade c s'
    = (Raise (Exception [Lit "Client not initialized. Call initialize() first."]), s').
Proof.
  intros H.
  destruct (RedditSyncClient.initialized s) eqn:Ei.
  { unfold RedditSyncClient.initialize in H. rewrite Ei in H. discriminate H. }
  destruct (initialize_fresh s Ei) as [c' [[E _]|E]]; rewrite E in H;
    [discriminate H|].
  injection H as <-. split; [eexists; reflexivity|]. split; [reflexivity|].
  intros c. apply (@run_facade_guard c _ c'); reflexivity.
Qed.

(** X11. A whole session through the facade: when the server's child
    answers the handshake and the request within the time limits, has
    both replies ready on lines within the reader's limit and the second
    carries a text that decodes to [v], [initialize] on a new facade
    returns [True] and the operation after it returns [v]. *)
Theorem facade_session c p d0 d text v rest :
  exec (RedditSyncClient.path_join dir (str "server.py")) = Ok p ->
  stdin_closed p = false -> latency p <= 10 ->
  valid (request_of c) = true ->
  valid (VDict d0) = true -> valid (VDict d) = true ->
  stdout_pending p = wire_bytes (VDict d0) ++ wire_bytes (VDict d) ++ rest ->
  fits (map byte_of_N (json_dumps (VDict d0))) ->
  fits (map byte_of_N (json_dumps (VDict d))) ->
  truthy (match dict_lookup (str "result") d0 with Some r => r | None => VNone end)
  = true ->
  reply_text d (VStr text) -> json_loads text = Ok v ->
  exists s1,
    RedditSyncClient.initialize exec dir RedditSyncClient.__init__ = (Ok true, s1) /\
    exists s2,
      run_facade c s1 = (Ok v, s2) /\
      RedditSyncClient.initialized s2 = true /\
      exists cl, RedditSyncClient.client s2 = Some cl /\
        sent cl = stdin_log p ++ wire_bytes RedditMCPClient.initialize_request
                  ++ wire_bytes (request_of c).
Proof.
  intros Hp Hc Hlat Hr Hd0 Hd Hout Hf0 Hf Hres Ht Hv.
  destruct (@session_wire F exec c
              (RedditMCPClient.__init__ (RedditSyncClient.path_join dir (str "server.py")))
              p d0 d text v rest Hp Hc Hr Hd0 Hd Hout Hf0 Hf Hres Ht Hv)
    as [Hstart Hrun].
  cbn [RedditMCPClient.server_path RedditMCPClient.__init__] in Hstart, Hrun.
  assert (H10 : (latency p <=? 10) = true) by (apply Nat.leb_le; lia).
  assert (H30 : (latency p <=? 30) = true) by (apply Nat.leb_le; lia).
  eexists. split.
  - unfold RedditSyncClient.initialize. cbn [RedditSyncClient.initialized RedditSyncClient.__init__].
    rewrite Hstart. unfold future_result. rewrite H10. reflexivity.
  - eexists. split.
    + erewrite run_facade_ready; [|reflexivity|reflexivity|reflexivity].
      rewrite Hrun. unfold future_result. rewrite H30. reflexivity.
    + split; [reflexivity|]. eexists. split; [reflexivity|]. reflexivity.
Qed.

(** X12. An operation of the facade waits 30 time units and no longer:
    on an initialised facade whose child has a well-formed reply ready on
    a line within the reader's limit, the operation returns the decoded
    payload when the child's line arrives within 30 units and raises
    [TimeoutError] otherwise. *)
Theorem facade_timeout c s cl p d text v rest :
  RedditSyncClient.initialized s = true ->
  RedditSyncClient.client s = Some cl ->
  RedditSyncClient.loop s = Some RedditSyncClient.RunningLoop ->
  RedditMCPClient.process cl = Some p -> stdin_closed p = false ->
  valid (request_of c) = true -> valid (VDict d) = true ->
  stdout_pending p = wire_bytes (VDict d) ++ rest ->
  fits (map byte_of_N (json_dumps (VDict d))) ->
  reply_text d (VStr text) -> json_loads text = Ok v ->
  fst (run_facade c s)
  = if latency p <=? 30 then Ok v else Raise (Builtin TimeoutError).
Proof.
  intros Hi Hcl Hl Hp Hc Hr Hd Hout Hf Ht Hv.
  rewrite (run_facade_ready c s Hi Hcl Hl). cbn [fst].
  pose proof (@exchange_wire F (request_of c) d cl p rest Hr Hd Hp Hc Hout Hf) as E.
  rewrite (@run_tool_decoded F c _ d _ _ text v E Ht Hv).
  unfold future_result. destruct (latency p <=? 30); reflexivity.
Qed.

(** The first and the second [get_reddit_client()]. *)
Lemma global_client_cases :
  exists s,
    snd (reddit_sync_client.get_reddit_client exec dir None) = Some s /\
    reddit_sync_client.get_reddit_client exec dir (Some s) = (Ok tt, Some s) /\
    ((fst (reddit_sync_client.get_reddit_client exec dir None) = Ok tt /\
      RedditSyncClient.initialized s = true) \/
     (fst (reddit_sync_client.get_reddit_client exec dir None)
      = Raise (Exception [Lit "Failed to initialize Reddit client"]) /\
      RedditSyncClient.initialized s = false /\
      forall c,
        run_facade c s
        = (Raise (Exception [Lit "Client not initialized. Call initialize() first."]),
           s))).
Proof.
  unfold reddit_sync_client.get_reddit_client.
  destruct (initialize_fresh RedditSyncClient.__init__ eq_refl) as [c' [[E _]|E]];
    rewrite E; eexists; (split; [reflexivity|]); (split; [reflexivity|]).
  - left. split; reflexivity.
  - right. split; [reflexivity|]. split; [reflexivity|].
    intros c. apply (@run_facade_guard c _ c'); reflexivity.
Qed.

(** X13. The module global of [reddit_sync_client] is bound before
    [initialize] is tried and never reset.  So the first
    [get_reddit_client()] either returns an initialised client or raises
    [Exception("Failed to initialize Reddit client")]; in both cases the
    second call returns the same object without initialising anything,
    and after a failure that object refuses every operation with the
    exception of the guard. *)
Theorem global_client_set_once :
  exists s,
    snd (reddit_sync_client.get_reddit_client exec dir None) = Some s /\
    reddit_sync_client.get_reddit_client exec dir (Some s) = (Ok tt, Some s) /\
    ((fst (reddit_sync_client.get_reddit_client exec dir None) = Ok tt /\
      RedditSyncClient.initialized s = true) \/
     (fst (reddit_sync_client.get_reddit_client exec dir None)
      = Raise (Exception [Lit "Failed to initialize Reddit client"]) /\
      RedditSyncClient.initialized s = false /\
      forall c,
        run_facade c s
        = (Raise (Exception [Lit "Client not initialized. Call initialize() first."]),
           s))).
Proof. exact global_client_cases. Qed.

(** X14. [initialize_client] of the Streamlit page, tried twice: when the
    first try fails, the session stays as it was, and the second try
    reports success and marks the session as initialised although the
    client it stores was never initialised. *)
Theorem initialize_client_second_attempt st g1 st1 :
  streamlit_app.client_initialized st = false ->
  streamlit_app.initialize_client exec dir None st = (false, g1, st1) ->
  st1 = st /\
  streamlit_app.initialize_client exec dir g1 st1
  = (true, g1, streamlit_app.mkSession true true) /\
  exists s, g1 = Some s /\ RedditSyncClient.initialized s = false.
Proof.
  intros Hst H. unfold streamlit_app.initialize_client in *. rewrite Hst in *.
  cbn [negb] in *.
  destruct global_client_cases as (s & Hg & Hagain & Hcases).
  destruct (reddit_sync_client.get_reddit_client exec dir None) as [r g] eqn:E.
  cbn [fst snd] in *. subst g.
  destruct Hcases as [[-> _]|(-> & Hi & _)]; [discriminate H|].
  injection H as <- <-. split; [reflexivity|]. rewrite Hst. cbn [negb].
  rewrite Hagain. split; [reflexivity|]. exists s. split; [reflexivity|exact Hi].
Qed.

End Facades.
(* ================================================================== *)
(** ** Further properties: the REST endpoints *)

Section Endpoints.
Context {F : PyFloat}.

Variable exec : pystr -> res subprocess.
Variable dir : pystr.
Variable exn_str : exn -> pystr.

(** An endpoint on a global client that has no process. *)
Lemma endpoint_not_started c c0 :
  RedditMCPClient.process c0 = None ->
  fastapi_server.endpoint exec dir exn_str (run_tool c) (Some c0)
  = Done 0
      (Ok (fastapi_server.Raises
             (fastapi_server.mkHTTPException 500
                (exn_str (Exception [Lit "Server not started"])))))
      c0.
Proof.
  intros H. unfold fastapi_server.endpoint, fastapi_server.get_reddit_client.
  rewrite (run_tool_not_started c c0 H). reflexivity.
Qed.

(** X15. The global client of the REST server is bound before [start]
    runs.  When the launch of the child fails at startup, the failure is
    dropped, the global keeps a client without process, [health_check]
    reports a connected client, and each of the six tool endpoints
    answers with status 500 and the text of [Exception("Server not
    started")], never trying to launch the child again. *)
Theorem endpoints_after_failed_launch e :
  exec (fastapi_server.server_path dir) = Raise e ->
  let c0 := RedditMCPClient.__init__ (fastapi_server.server_path dir) in
  let stopped :=
    Done 0
      (Ok (fastapi_server.Raises
             (fastapi_server.mkHTTPException 500
                (exn_str (Exception [Lit "Server not started"])))))
      c0 in
  fastapi_server.startup_event exec dir None = Done 0 (Ok tt) c0 /\
  fastapi_server.health_check exec dir exn_str (Some c0)
  = Done 0 (Ok (VDict [(str "status", VStr (str "healthy"));
                       (str "reddit_client", VStr (str "connected"))])) c0 /\
  (forall subreddit limit,
     fastapi_server.fetch_posts exec dir exn_str subreddit limit (Some c0) = stopped) /\
  (forall subreddit query limit,
     fastapi_server.search_posts exec dir exn_str subreddit query limit (Some c0)
     = stopped) /\
  (forall post_id,
     fastapi_server.get_comments exec dir exn_str post_id (Some c0) = stopped) /\
  (forall subreddit,
     fastapi_server.get_subreddit_info exec dir exn_str subreddit (Some c0) = stopped) /\
  (forall post_id comment_text,
     fastapi_server.post_comment exec dir exn_str post_id comment_text (Some c0)
     = stopped) /\
  (forall subreddit title content url,
     fastapi_server.create_post exec dir exn_str subreddit title content url (Some c0)
     = stopped).
Proof.
  intros He. cbv zeta.
  split.
  { unfold fastapi_server.startup_event, fastapi_server.get_reddit_client,
      RedditMCPClient.start.
    cbn [RedditMCPClient.server_path RedditMCPClient.__init__]. rewrite He.
    reflexivity. }
  split; [reflexivity|].
  split; [intros; apply (endpoint_not_started (FetchPosts _ _)); reflexivity|].
  split; [intros; apply (endpoint_not_started (SearchPosts _ _ _)); reflexivity|].
  split; [intros; apply (endpoint_not_started (GetComments _)); reflexivity|].
  split; [intros; apply (endpoint_not_started (GetSubredditInfo _)); reflexivity|].
  split; [intros; apply (endpoint_not_started (PostComment _ _)); reflexivity|].
  intros; apply (endpoint_not_started (PostToSubreddit _ _ _ _)); reflexivity.
Qed.

(** X16. The first request starts the server: with no global client yet,
    an endpoint launches the child, does the handshake, sends its request
    and answers with [success=True] and the payload decoded from the
    child's second line, both lines being within the reader's limit; the
    global client is the started one afterwards. *)
Theorem endpoint_lazy_start c p d0 d text v rest :
  exec (fastapi_server.server_path dir) = Ok p -> stdin_closed p = false ->
  valid (request_of c) = true ->
  valid (VDict d0) = true -> valid (VDict d) = true ->
  stdout_pending p = wire_bytes (VDict d0) ++ wire_bytes (VDict d) ++ rest ->
  fits (map byte_of_N (json_dumps (VDict d0))) ->
  fits (map byte_of_N (json_dumps (VDict d))) ->
  truthy (match dict_lookup (str "result") d0 with Some r => r | None => VNone end)
  = true ->
  reply_text d (VStr text) -> json_loads text = Ok v ->
  fastapi_server.endpoint exec dir exn_str (run_tool c) None
  = Done (latency p + latency p)
      (Ok (fastapi_server.Returns (fastapi_server.mkAPIResponse true v None)))
      (RedditMCPClient.mkSelf (fastapi_server.server_path dir)
         (Some (mkSubprocess
                  (stdin_log p ++ wire_bytes RedditMCPClient.initialize_request
                   ++ wire_bytes (request_of c))
                  false rest (stdout_eof p) (latency p)))).
Proof.
  intros Hp Hc Hr Hd0 Hd Hout Hf0 Hf Hres Ht Hv.
  destruct (@session_wire F exec c
              (RedditMCPClient.__init__ (fastapi_server.server_path dir))
              p d0 d text v rest Hp Hc Hr Hd0 Hd Hout Hf0 Hf Hres Ht Hv)
    as [Hstart Hrun].
  cbn [RedditMCPClient.server_path RedditMCPClient.__init__] in Hstart, Hrun.
  unfold fastapi_server.endpoint, fastapi_server.get_reddit_client.
  rewrite Hstart, Hrun. reflexivity.
Qed.


End Endpoints.

(* ================================================================== *)
(** ** Further properties: the server's dispatcher and its tool list *)

Section Dispatcher.
Context {F : PyFloat}.

Variable Reddit : Type.
Variables fetch_posts get_comments search_posts post_comment
  get_subreddit_info post_to_subreddit : server.handler Reddit.
Variable exn_str : exn -> pystr.

Local Notation "'call_tool'" :=
  (server.call_tool fetch_posts get_comments search_posts post_comment
     get_subreddit_info post_to_subreddit exn_str).

Local Notation "'handlers'" :=
  [fetch_posts; get_comments; search_posts; post_comment;
   get_subreddit_info; post_to_subreddit].

Local Open Scope N_scope.

Lemma lstrip_ends l c : isspace c = false -> lstrip (l ++ [c]) <> [].
Proof.
  intros Hc. induction l as [|x l IH]; cbn [app lstrip].
  - rewrite Hc. discriminate.
  - destruct (isspace x); [exact IH|discriminate].
Qed.

Lemma strip_starts c r : isspace c = false -> strip (c :: r) <> [].
Proof.
  intros Hc. unfold strip. cbn [lstrip]. rewrite Hc. unfold rstrip. cbn [rev].
  intros H. apply (f_equal (@rev N)) in H. rewrite rev_involutive in H.
  apply (@lstrip_ends (rev r) c Hc). exact H.
Qed.

(** A text that starts with a capital E or U is no JSON. *)
Lemma not_json c r : c = 69 \/ c = 85 -> json_loads (c :: r) = Raise (Builtin JSONDecodeError).
Proof.
  intros Hc. unfold json_loads.
  assert (Hw : skip_ws (c :: r) = c :: r) by (destruct Hc as [-> | ->]; reflexivity).
  rewrite Hw.
  destruct (scan_once (S (List.length (c :: r))) (c :: r)) as [x|] eqn:E; [|reflexivity].
  exfalso. apply scan_once_head in E.
  destruct Hc as [-> | ->]; destruct E as [E|E]; try discriminate E;
    cbn [In] in E; repeat (destruct E as [E|E]; [discriminate E|]); exact E.
Qed.

(** What [_safe_json_parse] makes of such a text. *)
Lemma error_text_rejected c r :
  c = 69 \/ c = 85 ->
  RedditMCPClient._safe_json_parse (VStr (c :: r))
  = Raise (Exception [Lit "Invalid JSON response: ";
                      Val (VStr (slice_to 100 (c :: r)));
                      Lit "... Error: "; Caught JSONDecodeError]).
Proof.
  intros Hc. unfold RedditMCPClient._safe_json_parse. cbn [truthy negb].
  assert (Hs : isspace c = false) by (destruct Hc as [-> | ->]; reflexivity).
  destruct (str_eqb (strip (c :: r)) (str EmptyString)) eqn:E.
  - apply str_eqb_empty in E. exfalso. apply (@strip_starts c r Hs E).
  - rewrite (@not_json c r Hc). reflexivity.
Qed.

Lemma dispatch_returns (h : server.handler Reddit) r arguments t o r' :
  h r (match arguments with Some d => d | None => [] end) = Done t o r' ->
  exists blocks,
    server.dispatch exn_str h r arguments = Done t (Ok blocks) (Some r').
Proof.
  intros H. unfold server.dispatch. rewrite H. destruct o; eexists; reflexivity.
Qed.

(** The dispatcher hands a listed name to one of the six handlers. *)
Lemma call_tool_dispatches name arguments r :
  (exists t, In t server.list_tools /\ server.name t = name) ->
  exists h, In h handlers /\
    call_tool name arguments (Some r) = server.dispatch exn_str h r arguments.
Proof.
  intros (t & Hin & <-). cbn [server.list_tools In] in Hin.
  repeat (destruct Hin as [<-|Hin];
          [eexists; split; [|reflexivity]; cbn [In]; auto 10|]).
  destruct Hin.
Qed.

(** Any other name is answered by the dispatcher itself. *)
Lemma call_tool_unknown name arguments r :
  (forall t, In t server.list_tools -> server.name t <> name) ->
  call_tool name arguments (Some r)
  = Done 0 (Ok (server.text_block (str "Unknown tool: " ++ name))) (Some r).
Proof.
  intros Hnot.
  assert (Hall : Forall (fun t => str_eqb name (server.name t) = false)
                   server.list_tools).
  { apply Forall_forall. intros t Ht.
    destruct (str_eqb name (server.name t)) eqn:E; [|reflexivity].
    apply str_eqb_eq in E. exfalso. apply (Hnot t Ht). auto. }
  cbn [server.list_tools] in Hall.
  repeat (apply Forall_cons_iff in Hall; destruct Hall as [? Hall]).
  cbn [server.name] in *. unfold server.call_tool.
  repeat match goal with
         | H : str_eqb name _ = false |- _ => rewrite H; clear H
         end.
  reflexivity.
Qed.

(** X18. [call_tool] of the server never raises: whenever the handler it
    hands the call to comes to an end, with a result or with an
    exception, the dispatcher returns a list of content blocks; without a
    praw session or for an unknown name it returns at once. *)
Theorem call_tool_returns_blocks name arguments reddit :
  (forall r h, reddit = Some r -> In h handlers ->
     exists t o r', h r (match arguments with Some d => d | None => [] end)
                    = Done t o r') ->
  exists t blocks reddit',
    call_tool name arguments reddit = Done t (Ok blocks) reddit'.
Proof.
  intros Hend. unfold server.call_tool.
  destruct reddit as [r|]; [|eexists _, _, _; reflexivity].
  assert (Hd : forall h, In h handlers ->
            exists t blocks reddit',
              server.dispatch exn_str h r arguments = Done t (Ok blocks) reddit').
  { intros h Hh. destruct (Hend r h eq_refl Hh) as (t & o & r' & E).
    destruct (dispatch_returns h r arguments E) as [blocks Hb]. eauto. }
  repeat match goal with
         | |- context [if ?b then _ else _] =>
             destruct b; [apply Hd; cbn [In]; auto 10|]
         end.
  eexists _, _, _; reflexivity.
Qed.

(** X19. What the dispatcher says itself is never a payload for the
    client: without a praw session, for a name that is not in the tool
    list, and when a handler raises, the server's reply is one block
    whose text [_safe_json_parse] of the client refuses as invalid JSON,
    so the client's method raises [Exception("Invalid JSON response:
    ...")] with the first 100 characters of that text. *)
Theorem dispatcher_text_is_rejected name arguments :
  let rejected (o : outcome (option Reddit) (list server.TextContent)) :=
    exists t b reddit',
      o = Done t (Ok [b]) reddit' /\
      server.type b = str "text" /\
      RedditMCPClient._safe_json_parse (VStr (server.text b))
      = Raise (Exception [Lit "Invalid JSON response: ";
                          Val (VStr (slice_to 100 (server.text b)));
                          Lit "... Error: "; Caught JSONDecodeError]) in
  rejected (call_tool name arguments None) /\
  (forall r,
     (forall t, In t server.list_tools -> server.name t <> name) ->
     rejected (call_tool name arguments (Some r))) /\
  (forall h r t e r',
     h r (match arguments with Some d => d | None => [] end) = Done t (Raise e) r' ->
     rejected (server.dispatch exn_str h r arguments)).
Proof.
  cbv zeta. split; [|split].
  - eexists _, _, _. split; [reflexivity|]. split; [reflexivity|].
    apply error_text_rejected. left. reflexivity.
  - intros r Hnot. rewrite (call_tool_unknown arguments r Hnot).
    eexists _, _, _. split; [reflexivity|]. split; [reflexivity|].
    apply error_text_rejected. right. reflexivity.
  - intros h r t e r' H. unfold server.dispatch. rewrite H.
    eexists _, _, _. split; [reflexivity|]. split; [reflexivity|].
    apply error_text_rejected. left. reflexivity.
Qed.

(** X20. The dispatcher and the tool list agree: a name of the list goes
    to one of the six handlers, and any other name gets the reply
    "Unknown tool: " followed by the name, without any handler being
    run. *)
Theorem listed_tools_are_dispatched name arguments r :
  ((exists t, In t server.list_tools /\ server.name t = name) ->
   exists h, In h handlers /\
     call_tool name arguments (Some r) = server.dispatch exn_str h r arguments) /\
  ((forall t, In t server.list_tools -> server.name t <> name) ->
   call_tool name arguments (Some r)
   = Done 0 (Ok (server.text_block (str "Unknown tool: " ++ name))) (Some r)).
Proof.
  split; [apply call_tool_dispatches|apply call_tool_unknown].
Qed.

(** X21. The requests of the client fit the server's tool list: each of
    the six methods, whatever its parameters, asks for a tool of the
    list, passes every argument that tool's schema requires and no
    argument the schema does not know; so the dispatcher hands each of
    them to a handler. *)
Theorem client_requests_fit_schemas c arguments r :
  exists t,
    find_tool (tool_of c) = Some t /\ In t server.list_tools /\
    incl (required_keys (server.inputSchema t)) (dict_keys (arguments_of c)) /\
    incl (dict_keys (arguments_of c)) (known_keys (server.inputSchema t)) /\
    exists h, In h handlers /\
      call_tool (tool_of c) arguments (Some r)
      = server.dispatch exn_str h r arguments.
Proof.
  assert (Hpost : forall a b x y,
            exists ks, dict_keys (RedditMCPClient.post_args a b x y)
                       = str "subreddit" :: str "title" :: ks /\
                       incl ks [str "content"; str "url"]).
  { intros a b x y. unfold RedditMCPClient.post_args.
    destruct (truthy x), (truthy y); eexists; (split; [reflexivity|]);
      intros k Hk; cbn [In] in *; tauto. }
  destruct c; cbn [tool_of arguments_of];
    (eexists; split; [reflexivity|]; split; [cbn [server.list_tools In]; auto 10|];
     split; [|split; [|eexists; split; [|reflexivity]; cbn [In]; auto 10]]).
  all: try (intros k Hk; cbn in Hk |- *; tauto).
  - destruct (Hpost subreddit title content url) as (ks & -> & Hks).
    intros k Hk. cbn in Hk |- *. tauto.
  - destruct (Hpost subreddit title content url) as (ks & -> & Hks).
    intros k [<-|[<-|Hk]]; [cbn; auto|cbn; auto|].
    specialize (Hks k Hk). cbn in Hks |- *. tauto.
Qed.

End Dispatcher.
(* ================================================================== *)
(** ** Further properties: [input_utils.py] *)

Section TextLemmas.

Local Open Scope N_scope.

Lemma subseq_refl s : subseq s s.
Proof. induction s; constructor; assumption. Qed.

Lemma subseq_trans a b c : subseq a b -> subseq b c -> subseq a c.
Proof.
  intros Hab Hbc. revert a Hab. induction Hbc; intros a Hab.
  - exact Hab.
  - constructor. apply IHHbc. exact Hab.
  - inversion Hab; subst.
    + constructor. apply IHHbc. assumption.
    + apply subseq_keep. apply IHHbc. assumption.
Qed.

Lemma subseq_nil_l s : subseq [] s.
Proof. induction s; constructor; assumption. Qed.

Lemma subseq_app a b c d : subseq a b -> subseq c d -> subseq (a ++ c) (b ++ d).
Proof.
  induction 1; intros Hcd; cbn [app].
  - exact Hcd.
  - apply subseq_skip. auto.
  - apply subseq_keep. auto.
Qed.

Lemma subseq_rev a b : subseq a b -> subseq (rev a) (rev b).
Proof.
  induction 1; cbn [rev].
  - constructor.
  - rewrite <- (app_nil_r (rev r)). apply subseq_app; [assumption|].
    constructor. constructor.
  - apply subseq_app; [assumption|apply subseq_refl].
Qed.

Lemma subseq_In a b c : subseq a b -> In c a -> In c b.
Proof. induction 1; cbn [In]; intuition. Qed.

Lemma lstrip_subseq s : subseq (lstrip s) s.
Proof.
  induction s as [|c s IH]; cbn [lstrip]; [constructor|].
  destruct (isspace c); [constructor; exact IH|apply subseq_refl].
Qed.

Lemma strip_subseq s : subseq (strip s) s.
Proof.
  unfold strip, rstrip. apply subseq_trans with (lstrip s); [|apply lstrip_subseq].
  rewrite <- (rev_involutive (lstrip s)) at 2. apply subseq_rev, lstrip_subseq.
Qed.

Lemma replace_from_subseq old s : forall skip,
  subseq (replace_from old [] skip s) s.
Proof.
  induction s as [|c s IH]; intros skip; cbn [replace_from]; [constructor|].
  destruct skip as [|k]; [|constructor; apply IH].
  destruct (startswith (c :: s) old); cbn [app]; constructor; apply IH.
Qed.

Lemma replace_subseq old s : old <> [] -> subseq (replace old [] s) s.
Proof.
  intros H. destruct old as [|x old]; [congruence|]. apply replace_from_subseq.
Qed.

(** Deleting every [x]. *)
Lemma replace_char x s :
  replace [x] [] s = filter (fun c => negb (x =? c)) s.
Proof.
  unfold replace. induction s as [|c s IH]; [reflexivity|].
  cbn [replace_from startswith filter List.length Nat.sub].
  destruct (x =? c); cbn [andb negb app].
  - destruct s; [reflexivity|exact IH].
  - rewrite IH. reflexivity.
Qed.

Lemma startswith_In s p x : startswith s p = true -> In x p -> In x s.
Proof.
  revert s. induction p as [|y p IH]; intros s H Hx; [destruct Hx|].
  destruct s as [|c s]; [discriminate H|]. cbn [startswith] in H.
  apply andb_prop in H. destruct H as [Hy Hp]. apply N.eqb_eq in Hy. subst c.
  destruct Hx as [->|Hx]; [left; reflexivity|right; apply (IH s Hp Hx)].
Qed.

(** A text without some character of [old] has no occurrence of [old]. *)
Lemma replace_absent old new x s :
  In x old -> ~ In x s -> replace old new s = s.
Proof.
  intros Hx Hs. unfold replace. destruct old as [|y old]; [destruct Hx|].
  induction s as [|c s IH]; [reflexivity|]. cbn [replace_from].
  destruct (startswith (c :: s) (y :: old)) eqn:E.
  - exfalso. apply Hs. apply (@startswith_In _ _ x E Hx).
  - rewrite IH; [reflexivity|]. intros H. apply Hs. right. exact H.
Qed.

Lemma lstrip_id s :
  match s with [] => True | c :: _ => isspace c = false end -> lstrip s = s.
Proof. destruct s as [|c s]; [reflexivity|]. cbn [lstrip]. intros ->. reflexivity. Qed.

(** A text without whitespace is its own [strip]. *)
Lemma strip_id s : Forall (fun c => isspace c = false) s -> strip s = s.
Proof.
  intros H. unfold strip, rstrip. rewrite (lstrip_id s).
  - rewrite lstrip_id; [apply rev_involutive|].
    destruct (rev s) as [|c r] eqn:E; [trivial|].
    rewrite Forall_forall in H. apply H. apply in_rev. rewrite E. left. reflexivity.
  - destruct H; trivial.
Qed.

Lemma replace_from_skip old new l b :
  replace_from old new (List.length l) (l ++ b) = replace_from old new 0 b.
Proof.
  induction l as [|c l IH]; [destruct b; reflexivity|].
  cbn [List.length app replace_from]. exact IH.
Qed.

Lemma startswith_app p r : startswith (p ++ r) p = true.
Proof.
  induction p as [|x p IH]; [destruct r; reflexivity|]. cbn [app startswith].
  rewrite N.eqb_refl. exact IH.
Qed.

Lemma startswith_inv s p : startswith s p = true -> exists r, s = p ++ r.
Proof.
  revert s. induction p as [|x p IH]; intros s H; [exists s; reflexivity|].
  destruct s as [|y s]; [discriminate H|]. cbn [startswith] in H.
  apply andb_prop in H. destruct H as [Hx Hp]. apply N.eqb_eq in Hx. subst y.
  destruct (IH s Hp) as [r ->]. exists r. reflexivity.
Qed.

Lemma replace_nonempty old new s :
  old <> [] -> replace old new s = replace_from old new 0 s.
Proof. destruct old; [congruence|reflexivity]. Qed.

Lemma replace_from_hit old new b :
  old <> [] ->
  replace_from old new 0 (old ++ b) = new ++ replace_from old new 0 b.
Proof.
  intros H. destruct old as [|y q]; [congruence|].
  cbn [app replace_from]. change (y :: q ++ b) with ((y :: q) ++ b).
  rewrite startswith_app. cbn [List.length Nat.sub]. rewrite Nat.sub_0_r.
  f_equal. apply replace_from_skip.
Qed.

(** [old] ends in a character [x] that occurs nowhere before: in a text
    whose first [x] closes an occurrence of [old], that occurrence is
    the first one replaced. *)
Lemma replace_marked p x new a b :
  ~ In x p -> ~ In x a ->
  replace (p ++ [x]) new (a ++ (p ++ [x]) ++ b)
  = a ++ new ++ replace (p ++ [x]) new b.
Proof.
  intros Hp Ha.
  assert (Hne : p ++ [x] <> []) by (destruct p; discriminate).
  rewrite !(replace_nonempty _ _ Hne).
  induction a as [|c a IH].
  - cbn [app]. apply replace_from_hit, Hne.
  - cbn [app replace_from].
    destruct (startswith (c :: a ++ (p ++ [x]) ++ b) (p ++ [x])) eqn:E.
    + exfalso. apply startswith_inv in E. destruct E as [r E].
      assert (Hn : nth (List.length p) (c :: a ++ (p ++ [x]) ++ b) 0 = x).
      { rewrite E, <- app_assoc, app_nth2 by lia.
        rewrite Nat.sub_diag. reflexivity. }
      assert (Heq : c :: a ++ (p ++ [x]) ++ b = ((c :: a) ++ p) ++ [x] ++ b).
      { cbn [app]. rewrite <- !app_assoc. reflexivity. }
      rewrite Heq in Hn.
      assert (Hlt : (List.length p < List.length ((c :: a) ++ p))%nat).
      { rewrite length_app. cbn [List.length]. lia. }
      rewrite app_nth1 in Hn by exact Hlt.
      assert (Hin : In x ((c :: a) ++ p)).
      { rewrite <- Hn. apply nth_In. exact Hlt. }
      apply in_app_or in Hin. tauto.
    + f_equal. apply IH. intros H. apply Ha. right. exact H.
Qed.

End TextLemmas.

Section InputUtilsProperties.

Local Open Scope N_scope.

Variable isalnum_char : N -> bool.
Import input_utils.

Lemma isalnum_spec s :
  isalnum isalnum_char s = true <-> s <> [] /\ Forall (fun c => isalnum_char c = true) s.
Proof.
  destruct s as [|c s]; cbn [isalnum].
  - split; [discriminate|intros [H _]; congruence].
  - rewrite forallb_forall, Forall_forall. split.
    + intros H. split; [discriminate|exact H].
    + intros [_ H]. exact H.
Qed.

Lemma nonempty_spec s : nonempty s = true <-> s <> [].
Proof. destruct s; cbn; split; congruence. Qed.

Lemma clean_cases x :
  clean_subreddit_name isalnum_char x = [] \/
  (clean_subreddit_name isalnum_char x = cleaned_name x /\
   isalnum isalnum_char (unmarked (cleaned_name x)) = true).
Proof.
  unfold clean_subreddit_name. fold (cleaned_name x). fold (unmarked (cleaned_name x)).
  destruct (nonempty x); [|left; reflexivity]. cbn [negb].
  destruct (nonempty (cleaned_name x)) eqn:En.
  - destruct (isalnum isalnum_char (unmarked (cleaned_name x))) eqn:Ea; cbn [negb andb].
    + right. auto.
    + left. reflexivity.
  - cbn [andb]. left. destruct (cleaned_name x); [reflexivity|discriminate En].
Qed.

Lemma unmarked_filter s :
  unmarked s = filter (fun c => negb (45 =? c)) (filter (fun c => negb (95 =? c)) s).
Proof.
  unfold unmarked. change (str "-") with [45]. change (str "_") with [95].
  change (str EmptyString) with (@nil N). rewrite !replace_char. reflexivity.
Qed.

Lemma clean_shape x :
  let r := clean_subreddit_name isalnum_char x in
  subseq r x /\
  (r = [] \/
   (Forall (fun c => isalnum_char c = true \/ c = 95 \/ c = 45) r /\
    Exists (fun c => isalnum_char c = true) r /\
    ~ In 32 r)).
Proof.
  cbv zeta. split.
  - destruct (clean_cases x) as [->|[-> _]]; [apply subseq_nil_l|].
    unfold cleaned_name.
    apply subseq_trans with (replace (str "r/") (str EmptyString) (strip x)).
    + apply replace_subseq. discriminate.
    + apply subseq_trans with (strip x); [|apply strip_subseq].
      apply replace_subseq. discriminate.
  - destruct (clean_cases x) as [->|[-> Ha]]; [left; reflexivity|right].
    apply isalnum_spec in Ha. destruct Ha as [Hne Hall]. rewrite unmarked_filter in *.
    rewrite Forall_forall in Hall. split; [|split].
    + rewrite Forall_forall. intros c Hc.
      destruct (N.eqb_spec 95 c) as [->|H95]; [auto|].
      destruct (N.eqb_spec 45 c) as [->|H45]; [auto|].
      left. apply Hall. apply filter_In. split.
      * apply filter_In. split; [exact Hc|]. apply negb_true_iff, N.eqb_neq, H95.
      * apply negb_true_iff, N.eqb_neq, H45.
    + destruct (filter _ (filter _ (cleaned_name x))) as [|c l] eqn:E; [congruence|].
      assert (Hin : In c (c :: l)) by (left; reflexivity).
      rewrite <- E in Hin. apply filter_In in Hin. destruct Hin as [Hin _].
      apply filter_In in Hin. destruct Hin as [Hin _].
      apply Exists_exists. exists c. split; [exact Hin|].
      apply Hall. first [left; reflexivity | rewrite E; left; reflexivity].
    + unfold cleaned_name. change (str " ") with [32].
      change (str EmptyString) with (@nil N). rewrite replace_char.
      intros H. apply filter_In in H. destruct H as [_ H]. discriminate H.
Qed.

(** X22. What [clean_subreddit_name] returns is its input with some
    characters left out, and it is either empty or a name made of
    letters, numerals, underscores and hyphens with at least one letter
    or numeral and no space. *)
Theorem clean_subreddit_name_shape x :
  let r := clean_subreddit_name isalnum_char x in
  subseq r x /\
  (r = [] \/
   (Forall (fun c => isalnum_char c = true \/ c = 95 \/ c = 45) r /\
    Exists (fun c => isalnum_char c = true) r /\
    ~ In 32 r)).
Proof. apply clean_shape. Qed.

(** X23. [clean_subreddit_name] is idempotent: a cleaned name passes
    through the function unchanged (no letter or numeral being
    whitespace or a slash). *)
Theorem clean_subreddit_name_idempotent x :
  (forall c, isalnum_char c = true -> isspace c = false /\ c <> 47) ->
  clean_subreddit_name isalnum_char (clean_subreddit_name isalnum_char x)
  = clean_subreddit_name isalnum_char x.
Proof.
  intros Htab.
  destruct (clean_shape x) as [_ [E|(Hall & Hex & H32)]].
  { rewrite E. reflexivity. }
  destruct (clean_cases x) as [E|[E Ha]]; [rewrite E; reflexivity|].
  rewrite E in *. set (r := cleaned_name x) in *.
  assert (Hsp : Forall (fun c => isspace c = false) r).
  { rewrite Forall_forall in *. intros c Hc.
    destruct (Hall c Hc) as [H|[->| ->]]; [apply Htab, H|reflexivity|reflexivity]. }
  assert (H47 : ~ In 47 r).
  { intros H. rewrite Forall_forall in Hall.
    destruct (Hall 47 H) as [H'|[H'|H']]; [apply Htab in H'; tauto|discriminate|discriminate]. }
  assert (Hfix : cleaned_name r = r).
  { unfold cleaned_name. rewrite (strip_id Hsp).
    rewrite (@replace_absent (str "r/") (str EmptyString) 47 r); [|right; left; reflexivity|exact H47].
    apply (@replace_absent (str " ") (str EmptyString) 32 r); [left; reflexivity|exact H32]. }
  unfold clean_subreddit_name. fold (cleaned_name r). rewrite Hfix.
  fold (unmarked r). rewrite Ha.
  destruct (nonempty r) eqn:En; [|destruct r; [reflexivity|discriminate En]].
  cbn [negb andb]. reflexivity.
Qed.

Lemma validate_cases x :
  validate_post_id isalnum_char x = [] \/
  (validate_post_id isalnum_char x = replace (str "t3_") (str EmptyString) (strip x) /\
   isalnum isalnum_char (replace (str "t3_") (str EmptyString) (strip x)) = true).
Proof.
  unfold validate_post_id.
  destruct (nonempty x); [|left; reflexivity]. cbn [negb].
  set (r := replace (str "t3_") (str EmptyString) (strip x)).
  destruct (nonempty r) eqn:En.
  - destruct (isalnum isalnum_char r) eqn:Ea; cbn [negb andb]; auto.
  - cbn [andb]. left. destruct r; [reflexivity|discriminate En].
Qed.

(** X24. What [validate_post_id] returns is its input with some
    characters left out and consists of letters and numerals only
    (possibly none). *)
Theorem validate_post_id_shape x :
  let r := validate_post_id isalnum_char x in
  subseq r x /\ Forall (fun c => isalnum_char c = true) r.
Proof.
  cbv zeta. destruct (validate_cases x) as [->|[-> Ha]].
  - split; [apply subseq_nil_l|constructor].
  - split.
    + apply subseq_trans with (strip x); [|apply strip_subseq].
      apply replace_subseq. discriminate.
    + apply isalnum_spec in Ha. apply Ha.
Qed.

(** X25. [validate_post_id] is idempotent: a validated id passes
    through the function unchanged (no letter or numeral being
    whitespace or an underscore). *)
Theorem validate_post_id_idempotent x :
  (forall c, isalnum_char c = true -> isspace c = false /\ c <> 95) ->
  validate_post_id isalnum_char (validate_post_id isalnum_char x)
  = validate_post_id isalnum_char x.
Proof.
  intros Htab.
  destruct (validate_cases x) as [E|[E Ha]]; [rewrite E; reflexivity|].
  rewrite E. set (r := replace (str "t3_") (str EmptyString) (strip x)) in *.
  pose proof Ha as Ha'. apply isalnum_spec in Ha'. destruct Ha' as [Hne Hall].
  assert (Hsp : Forall (fun c => isspace c = false) r).
  { rewrite Forall_forall in *. intros c Hc. apply Htab, Hall, Hc. }
  assert (H95 : ~ In 95 r).
  { intros H. rewrite Forall_forall in Hall. apply Hall in H. apply Htab in H. tauto. }
  unfold validate_post_id. rewrite (strip_id Hsp).
  rewrite (@replace_absent (str "t3_") (str EmptyString) 95 r);
    [|right; right; left; reflexivity|exact H95].
  rewrite Ha. destruct (nonempty r) eqn:En; [|destruct r; [reflexivity|discriminate En]].
  reflexivity.
Qed.

(** X26. [clean_subreddit_name] deletes the marker [r/] wherever it
    stands, not only in front: for a well-formed name cut in two at any
    place, the two parts with [r/] between them are cleaned to the
    name. *)
Theorem clean_subreddit_name_deletes_marker a b :
  (forall c, isalnum_char c = true ->
             isspace c = false /\ c <> 47 /\ c <> 95 /\ c <> 45) ->
  Forall (fun c => isalnum_char c = true \/ c = 95 \/ c = 45) (a ++ b) ->
  Exists (fun c => isalnum_char c = true) (a ++ b) ->
  clean_subreddit_name isalnum_char (a ++ str "r/" ++ b) = a ++ b.
Proof.
  intros Htab Hall Hex.
  assert (Hok : forall c, In c (a ++ b) -> isspace c = false /\ c <> 47 /\ c <> 32).
  { rewrite Forall_forall in Hall. intros c Hc.
    destruct (Hall c Hc) as [H|[->| ->]].
    - destruct (Htab c H) as (Hs & H47 & _). repeat split; auto.
      intros ->. discriminate Hs.
    - repeat split; discriminate.
    - repeat split; discriminate. }
  assert (Hsp : Forall (fun c => isspace c = false) (a ++ str "r/" ++ b)).
  { rewrite Forall_forall. intros c Hc. apply in_app_or in Hc.
    destruct Hc as [Hc|Hc]; [apply Hok, in_or_app; auto|].
    apply in_app_or in Hc. destruct Hc as [Hc|Hc]; [|apply Hok, in_or_app; auto].
    cbn in Hc. destruct Hc as [<-|[<-|[]]]; reflexivity. }
  assert (Hb : ~ In 47 b).
  { intros H. destruct (Hok 47 (in_or_app _ _ _ (or_intror H))) as (_ & H47 & _).
    apply H47. reflexivity. }
  assert (Ha47 : ~ In 47 a).
  { intros H. destruct (Hok 47 (in_or_app _ _ _ (or_introl H))) as (_ & H47 & _).
    apply H47. reflexivity. }
  assert (H32 : ~ In 32 (a ++ b)).
  { intros H. destruct (Hok 32 H) as (_ & _ & H'). apply H'. reflexivity. }
  assert (Hclean : cleaned_name (a ++ str "r/" ++ b) = a ++ b).
  { unfold cleaned_name. rewrite (strip_id Hsp).
    change (str "r/") with ([114] ++ [47]). change (str EmptyString) with (@nil N).
    change (str " ") with [32].
    assert (H114 : ~ In 47 [114]) by (intros [H|[]]; discriminate H).
    rewrite (@replace_marked [114] 47 [] a b H114 Ha47).
    rewrite (@replace_absent ([114] ++ [47]) [] 47 b (or_intror (or_introl eq_refl)) Hb).
    cbn [app].
    apply (@replace_absent [32] [] 32 (a ++ b) (or_introl eq_refl) H32). }
  assert (Hne : a ++ b <> []).
  { intros E. rewrite E in Hex. inversion Hex. }
  assert (Ha : isalnum isalnum_char (unmarked (a ++ b)) = true).
  { apply isalnum_spec. rewrite unmarked_filter. split.
    - apply Exists_exists in Hex. destruct Hex as (c & Hc & Hal).
      destruct (Htab c Hal) as (_ & _ & H95 & H45).
      assert (Hin : In c (filter (fun c => negb (45 =? c))
                            (filter (fun c => negb (95 =? c)) (a ++ b)))).
      { apply filter_In. split; [apply filter_In; split; [exact Hc|]|].
        - apply negb_true_iff, N.eqb_neq. congruence.
        - apply negb_true_iff, N.eqb_neq. congruence. }
      intros E. rewrite E in Hin. destruct Hin.
    - rewrite Forall_forall in *. intros c Hc.
      apply filter_In in Hc. destruct Hc as [Hc H45].
      apply filter_In in Hc. destruct Hc as [Hc H95].
      apply negb_true_iff, N.eqb_neq in H45, H95.
      destruct (Hall c Hc) as [H|[H|H]]; [exact H|congruence|congruence]. }
  unfold clean_subreddit_name.
  fold (cleaned_name (a ++ str "r/" ++ b)). rewrite Hclean.
  fold (unmarked (a ++ b)). rewrite Ha.
  destruct (a ++ str "r/" ++ b) eqn:E; [destruct a; discriminate E|].
  cbn [nonempty negb]. rewrite andb_false_r. reflexivity.
Qed.

(** X27. [validate_post_id] deletes the marker [t3_] wherever it stands:
    for an id of letters and numerals cut in two at any place, the two
    parts with [t3_] between them are validated to the id. *)
Theorem validate_post_id_deletes_marker a b :
  (forall c, isalnum_char c = true -> isspace c = false /\ c <> 95) ->
  Forall (fun c => isalnum_char c = true) (a ++ b) ->
  validate_post_id isalnum_char (a ++ str "t3_" ++ b) = a ++ b.
Proof.
  intros Htab Hall.
  assert (Hok : forall c, In c (a ++ b) -> isspace c = false /\ c <> 95).
  { rewrite Forall_forall in Hall. intros c Hc. apply Htab, Hall, Hc. }
  assert (Hsp : Forall (fun c => isspace c = false) (a ++ str "t3_" ++ b)).
  { rewrite Forall_forall. intros c Hc. apply in_app_or in Hc.
    destruct Hc as [Hc|Hc]; [apply Hok, in_or_app; auto|].
    apply in_app_or in Hc. destruct Hc as [Hc|Hc]; [|apply Hok, in_or_app; auto].
    cbn in Hc. destruct Hc as [<-|[<-|[<-|[]]]]; reflexivity. }
  assert (Hb : ~ In 95 b).
  { intros H. destruct (Hok 95 (in_or_app _ _ _ (or_intror H))) as (_ & H95).
    apply H95. reflexivity. }
  assert (Ha95 : ~ In 95 a).
  { intros H. destruct (Hok 95 (in_or_app _ _ _ (or_introl H))) as (_ & H95).
    apply H95. reflexivity. }
  assert (Hclean : replace (str "t3_") (str EmptyString) (a ++ str "t3_" ++ b) = a ++ b).
  { change (str "t3_") with ([116; 51] ++ [95]). change (str EmptyString) with (@nil N).
    assert (Hp : ~ In 95 [116; 51]) by (intros [H|[H|[]]]; discriminate H).
    rewrite (@replace_marked [116; 51] 95 [] a b Hp Ha95).
    rewrite (@replace_absent ([116; 51] ++ [95]) [] 95 b
               (or_intror (or_intror (or_introl eq_refl))) Hb).
    reflexivity. }
  unfold validate_post_id. rewrite (strip_id Hsp), Hclean.
  destruct (a ++ str "t3_" ++ b) eqn:E; [destruct a; discriminate E|].
  cbn [nonempty negb].
  destruct (a ++ b) as [|c r] eqn:Eab; [reflexivity|].
  assert (Ha : isalnum isalnum_char (c :: r) = true).
  { apply isalnum_spec. split; [discriminate|exact Hall]. }
  rewrite Ha. reflexivity.
Qed.

End InputUtilsProperties.
(* ================================================================== *)
(** ** Further runs on concrete children *)

(** [fetch_posts] against a child that answers with a payload. *)
Lemma tool_returns_decoded_payload_witness :
  exists s',
    run_tool fetch_python (started (replying (VDict payload_reply) 1))
    = Done 1 (Ok posts_payload) s'.
Proof.
  eexists.
  apply (@tool_returns_decoded_payload text_floats fetch_python
           (started (replying (VDict payload_reply) 1)) payload_reply 1 _
           (json_dumps posts_payload) posts_payload).
  - eexists. split; reflexivity.
  - split; [reflexivity|]. eexists _, _, _. repeat split; reflexivity.
  - reflexivity.
Defined.

(** [fetch_posts] against a child that answers with an error. *)
Lemma tool_raises_tool_error_witness :
  exists s',
    run_tool fetch_python (started (replying error_reply 1))
    = Done 1 (Raise (Exception [Lit "Tool error: "; Val error_payload])) s'.
Proof.
  eexists.
  apply (@tool_raises_tool_error text_floats fetch_python
           (started (replying error_reply 1))
           [(str "jsonrpc", VStr (str "2.0")); (str "id", VInt 2);
            (str "error", error_payload)]
           1 _ error_payload).
  - eexists. split; reflexivity.
  - reflexivity.
Defined.

(** [fetch_posts] against a child whose reply has an empty result. *)
Lemma tool_raises_on_missing_text_witness :
  exists s',
    run_tool fetch_python (started (replying (VDict refusal_dict) 1))
    = Done 1 (Raise (Exception [Lit "Empty response from server"])) s'.
Proof.
  eexists.
  apply (@tool_raises_on_missing_text text_floats fetch_python
           (started (replying (VDict refusal_dict) 1)) refusal_dict 1 _).
  - eexists. split; reflexivity.
  - reflexivity.
  - right. exists []. split; [reflexivity|]. left. reflexivity.
Defined.

(** [fetch_posts] on a client that was never started. *)
Lemma tool_not_started_witness :
  run_tool fetch_python app_client
  = Done 0 (Raise (Exception [Lit "Server not started"])) app_client.
Proof. apply (@tool_not_started text_floats fetch_python app_client). reflexivity. Defined.

(** Two calls against a child that has an empty result and then a
    payload ready: the second call gets the payload. *)
Lemma calls_answered_in_order_witness :
  exists s',
    RedditMCPClient.bind (run_tool fetch_python)
      (fun r1 => RedditMCPClient.bind
                   (run_tool (GetSubredditInfo (VStr (str "python"))))
                   (fun r2 => RedditMCPClient.ret (r1, r2)))
      (started (answering [VDict (text_reply (str "[]")); VDict payload_reply] 2))
    = Done 4 (Ok (VList [], posts_payload)) s'.
Proof.
  eexists.
  apply (@calls_answered_in_order text_floats fetch_python
           (GetSubredditInfo (VStr (str "python")))
           (started (answering [VDict (text_reply (str "[]")); VDict payload_reply] 2))
           (answering [VDict (text_reply (str "[]")); VDict payload_reply] 2)
           (text_reply (str "[]")) payload_reply
           (str "[]") (json_dumps posts_payload) (VList []) posts_payload []);
    try reflexivity; try (unfold fits; vm_compute; discriminate).
  - split; [reflexivity|]. eexists _, _, _. repeat split; reflexivity.
  - split; [reflexivity|]. eexists _, _, _. repeat split; reflexivity.
Defined.

(** The handshake and [fetch_posts] against a child that has both
    replies ready. *)
Lemma start_then_tool_witness :
  exists s',
    RedditMCPClient.bind
      (RedditMCPClient.start
         (host (answering [VDict init_reply_dict; VDict payload_reply] 1)))
      (fun _ => run_tool fetch_python) app_client
    = Done 2 (Ok posts_payload) s'.
Proof.
  eexists.
  apply (@start_then_tool text_floats
           (host (answering [VDict init_reply_dict; VDict payload_reply] 1))
           fetch_python app_client
           (answering [VDict init_reply_dict; VDict payload_reply] 1)
           init_reply_dict payload_reply (json_dumps posts_payload) posts_payload []);
    try reflexivity; try (unfold fits; vm_compute; discriminate).
  split; [reflexivity|]. eexists _, _, _. repeat split; reflexivity.
Defined.

(** [start] against a server that answers the handshake with an empty
    result: it raises, and the client keeps the child. *)
Lemma start_failure_state_witness :
  exists s',
    RedditMCPClient.start (host (replying (VDict refusal_dict) 1)) app_client
    = Done 1 (Raise (Exception [Lit "Failed to initialize: "; Val (VDict refusal_dict)]))
        s' /\
    exists q, RedditMCPClient.process s' = Some q.
Proof.
  eexists.
  destruct (proj2 (@start_failure_state text_floats
                     (host (replying (VDict refusal_dict) 1)) app_client)
              (replying (VDict refusal_dict) 1) refusal_dict 1 _ eq_refl
              (ex_intro _ _ (conj eq_refl eq_refl)) eq_refl)
    as [Hstart (q & Hq & _)].
  split; [exact Hstart|]. exists q. exact Hq.
Defined.

(** A line that ends in a carriage return and a newline, with a tab in
    front. *)
Lemma read_message_tolerates_padding_witness :
  RedditMCPClient._read_message (F := text_floats)
    (started (child ([9] ++ json_dumps (VDict payload_reply) ++ [13] ++ [10])%N true 0))
  = Done 0 (Ok (VDict payload_reply)) (started (child [] true 0)).
Proof.
  apply (@read_message_tolerates_padding text_floats payload_reply
           (started (child ([9] ++ json_dumps (VDict payload_reply) ++ [13] ++ [10])%N
                       true 0))
           (child ([9] ++ json_dumps (VDict payload_reply) ++ [13] ++ [10])%N true 0)
           [9%N] [13%N] []); try reflexivity.
  unfold fits. vm_compute. discriminate.
Defined.

(** [initialize] twice on a facade whose server answers the handshake. *)
Lemma initialize_once_witness :
  exists s',
    RedditSyncClient.initialize (host (replying init_reply 2)) (str "/app")
      RedditSyncClient.__init__ = (Ok true, s') /\
    RedditSyncClient.initialize (host (replying init_reply 2)) (str "/app") s'
    = (Ok true, s').
Proof.
  eexists. split; [reflexivity|].
  apply (proj1 (proj2 (@initialize_once text_floats (host (replying init_reply 2))
                         (str "/app") RedditSyncClient.__init__ _ eq_refl))).
Defined.

(** A facade whose server answers the handshake too late. *)
Lemma failed_initialize_then_guard_witness :
  exists s',
    RedditSyncClient.initialize (host (replying init_reply 11)) (str "/app")
      RedditSyncClient.__init__ = (Ok false, s') /\
    run_facade fetch_python s'
    = (Raise (Exception [Lit "Client not initialized. Call initialize() first."]), s').
Proof.
  eexists. split; [reflexivity|].
  apply (proj2 (proj2 (@failed_initialize_then_guard text_floats
                         (host (replying init_reply 11)) (str "/app")
                         RedditSyncClient.__init__ _ eq_refl))).
Defined.

(** [initialize] and [fetch_posts] through the facade. *)
Lemma facade_session_witness :
  exists s1,
    RedditSyncClient.initialize
      (host (answering [VDict init_reply_dict; VDict payload_reply] 3)) (str "/app")
      RedditSyncClient.__init__ = (Ok true, s1) /\
    exists s2, run_facade fetch_python s1 = (Ok posts_payload, s2).
Proof.
  destruct (@facade_session text_floats
              (host (answering [VDict init_reply_dict; VDict payload_reply] 3))
              (str "/app") fetch_python
              (answering [VDict init_reply_dict; VDict payload_reply] 3)
              init_reply_dict payload_reply (json_dumps posts_payload) posts_payload []
              eq_refl eq_refl ltac:(cbn; lia) eq_refl eq_refl eq_refl eq_refl
              ltac:(unfold fits; vm_compute; discriminate)
              ltac:(unfold fits; vm_compute; discriminate)
              eq_refl
              (conj eq_refl
                 (ex_intro _ _ (ex_intro _ _ (ex_intro _ _
                    (conj eq_refl (conj eq_refl eq_refl))))))
              eq_refl)
    as (s1 & Hinit & s2 & Hrun & _).
  exists s1. split; [exact Hinit|]. exists s2. exact Hrun.
Defined.

(** An initialised facade whose child takes 31 time units to answer. *)
Lemma facade_timeout_witness :
  fst (run_facade fetch_python
         (RedditSyncClient.mkSelf
            (Some (started (replying (VDict payload_reply) 31)))
            (Some RedditSyncClient.RunningLoop) (Some RedditSyncClient.DaemonThread)
            true))
  = Raise (Builtin TimeoutError).
Proof.
  apply (@facade_timeout text_floats fetch_python
           (RedditSyncClient.mkSelf
              (Some (started (replying (VDict payload_reply) 31)))
              (Some RedditSyncClient.RunningLoop) (Some RedditSyncClient.DaemonThread)
              true)
           (started (replying (VDict payload_reply) 31))
           (replying (VDict payload_reply) 31)
           payload_reply (json_dumps posts_payload) posts_payload []);
    try reflexivity; try (unfold fits; vm_compute; discriminate).
  split; [reflexivity|]. eexists _, _, _. repeat split; reflexivity.
Defined.

(** The button of the page pressed twice on a host that cannot launch
    the child. *)
Lemma initialize_client_second_attempt_witness :
  exists g1,
    streamlit_app.initialize_client no_host (str "/app") None
      (streamlit_app.mkSession false false)
    = (false, g1, streamlit_app.mkSession false false) /\
    streamlit_app.initialize_client no_host (str "/app") g1
      (streamlit_app.mkSession false false)
    = (true, g1, streamlit_app.mkSession true true).
Proof.
  eexists. split; [reflexivity|].
  apply (proj1 (proj2 (@initialize_client_second_attempt text_floats no_host
                         (str "/app") (streamlit_app.mkSession false false) _ _
                         eq_refl eq_refl))).
Defined.

(** The REST server on a host that cannot launch the child. *)
Lemma endpoints_after_failed_launch_witness :
  fastapi_server.fetch_posts no_host (str "/app") exn_text (str "python") (Some 3%Z)
    (Some (RedditMCPClient.__init__ (str "/app/server.py")))
  = Done 0
      (Ok (fastapi_server.Raises
             (fastapi_server.mkHTTPException 500 (str "Server not started"))))
      (RedditMCPClient.__init__ (str "/app/server.py")).
Proof.
  apply (proj1 (proj2 (proj2 (@endpoints_after_failed_launch text_floats no_host
                                (str "/app") exn_text (Builtin FileNotFoundError)
                                eq_refl)))).
Defined.

(** The first request to the REST server. *)
Lemma endpoint_lazy_start_witness :
  exists c',
    fastapi_server.fetch_posts
      (host (answering [VDict init_reply_dict; VDict payload_reply] 1))
      (str "/app") exn_text (str "python") (Some 3%Z) None
    = Done 2
        (Ok (fastapi_server.Returns
               (fastapi_server.mkAPIResponse true posts_payload None)))
        c'.
Proof.
  eexists.
  apply (@endpoint_lazy_start text_floats
           (host (answering [VDict init_reply_dict; VDict payload_reply] 1))
           (str "/app") exn_text fetch_python
           (answering [VDict init_reply_dict; VDict payload_reply] 1)
           init_reply_dict payload_reply (json_dumps posts_payload) posts_payload []);
    try reflexivity; try (unfold fits; vm_compute; discriminate).
  split; [reflexivity|]. eexists _, _, _. repeat split; reflexivity.
Defined.


(** The dispatcher over handlers that come to an end. *)
Lemma call_tool_returns_blocks_witness :
  exists t blocks reddit',
    server.call_tool echo_handler echo_handler echo_handler failing_handler
      echo_handler failing_handler exn_text (str "postComment") None (Some tt)
    = Done t (Ok blocks) reddit'.
Proof.
  apply (@call_tool_returns_blocks text_floats unit echo_handler echo_handler
           echo_handler failing_handler echo_handler failing_handler exn_text
           (str "postComment") None (Some tt)).
  intros r h _ Hin. cbn [In] in Hin.
  repeat (destruct Hin as [<-|Hin]; [eexists _, _, _; reflexivity|]).
  destruct Hin.
Defined.

(** A reply whose text is a number. *)
Lemma tool_text_not_a_string_witness :
  exists s',
    run_tool fetch_python
      (started (replying
         (VDict [(str "result",
                  VDict [(str "content", VList [VDict [(str "text", VInt 5)]])])]) 1))
    = Done 1 (Raise (Builtin AttributeError)) s'.
Proof.
  eexists.
  apply (@tool_text_not_a_string text_floats fetch_python
           (started (replying
              (VDict [(str "result",
                       VDict [(str "content", VList [VDict [(str "text", VInt 5)]])])])
              1))
           [(str "result",
             VDict [(str "content", VList [VDict [(str "text", VInt 5)]])])]
           1 _ (VInt 5)).
  - eexists. split; reflexivity.
  - split; [reflexivity|]. eexists _, _, _. repeat split; reflexivity.
  - discriminate.
Defined.

(** A message whose text holds a lone surrogate, which [str.encode]
    alone would refuse. *)
Lemma send_message_line_is_ascii_witness :
  encode (F := text_floats) [0xd800%N] = Raise (Builtin UnicodeEncodeError) /\
  exists body,
    RedditMCPClient._send_message (F := text_floats)
      (VDict [(str "q", VStr [0xd800%N])]) (started (child [] true 0))
    = Done 0 (Ok tt)
        (RedditMCPClient.mkSelf (str "server.py")
           (Some (mkSubprocess (body ++ [x0a]) false [] true 0))).
Proof.
  split; [reflexivity|].
  destruct (proj2 (@send_message_line_is_ascii text_floats
                     (VDict [(str "q", VStr [0xd800%N])])
                     (started (child [] true 0)) (child [] true 0) eq_refl eq_refl)
              eq_refl) as (body & _ & _ & H).
  exists body. exact H.
Defined.

(** No ASCII letter or digit is whitespace, a slash or an underscore. *)
Lemma ascii_alnum_plain c :
  ascii_alnum c = true ->
  isspace c = false /\ c <> 47%N /\ c <> 95%N /\ c <> 45%N.
Proof.
  unfold ascii_alnum, isspace. intros H.
  assert (Hr : (48 <= c <= 57 \/ 65 <= c <= 90 \/ 97 <= c <= 122)%N).
  { apply orb_prop in H. destruct H as [H|H];
      [apply orb_prop in H; destruct H as [H|H]|];
      apply andb_prop in H; destruct H as [H1 H2];
      apply N.leb_le in H1, H2; lia. }
  split; [|lia].
  repeat match goal with
         | |- context [(?a <=? ?b)%N] => destruct (N.leb_spec a b); try lia
         | |- context [(?a =? ?b)%N] => destruct (N.eqb_spec a b); try lia
         end; reflexivity.
Qed.

(** A name typed with the prefix and blanks, cleaned twice. *)
Lemma clean_subreddit_name_idempotent_witness :
  input_utils.clean_subreddit_name ascii_alnum
    (input_utils.clean_subreddit_name ascii_alnum (str " r/learn python "))
  = input_utils.clean_subreddit_name ascii_alnum (str " r/learn python ").
Proof.
  apply (@clean_subreddit_name_idempotent ascii_alnum (str " r/learn python ")).
  intros c Hc. destruct (ascii_alnum_plain c Hc) as (Hs & H47 & _ & _).
  split; assumption.
Defined.

(** A post id typed with its prefix, validated twice. *)
Lemma validate_post_id_idempotent_witness :
  input_utils.validate_post_id ascii_alnum
    (input_utils.validate_post_id ascii_alnum (str " t3_1abc2d "))
  = input_utils.validate_post_id ascii_alnum (str " t3_1abc2d ").
Proof.
  apply (@validate_post_id_idempotent ascii_alnum (str " t3_1abc2d ")).
  intros c Hc. destruct (ascii_alnum_plain c Hc) as (Hs & _ & H95 & _).
  split; assumption.
Defined.

(** A marker in the middle of a name. *)
Lemma clean_subreddit_name_deletes_marker_witness :
  input_utils.clean_subreddit_name ascii_alnum (str "car/pool") = str "capool".
Proof.
  apply (@clean_subreddit_name_deletes_marker ascii_alnum (str "ca") (str "pool")).
  - apply ascii_alnum_plain.
  - repeat (constructor; [left; reflexivity|]). constructor.
  - apply Exists_cons_hd. reflexivity.
Defined.

(** A marker in the middle of an id. *)
Lemma validate_post_id_deletes_marker_witness :
  input_utils.validate_post_id ascii_alnum (str "1abt3_c2d") = str "1abc2d".
Proof.
  apply (@validate_post_id_deletes_marker ascii_alnum (str "1ab") (str "c2d")).
  - intros c Hc. destruct (ascii_alnum_plain c Hc) as (Hs & _ & H95 & _).
    split; assumption.
  - repeat (constructor; [reflexivity|]). constructor.
Defined.
